(** * DesignWare HDMI QP transmitter: a shallow embedding of dw-hdmi-qp.c

    The register access layer, the DDC (I2C) transaction engine, the infoframe
    assembly and the power/setup sequence of
    drivers/gpu/drm/bridge/synopsys/dw-hdmi-qp.c, as state-passing functions,
    and the properties its specification states about them. *)

From Stdlib Require Import ZArith Lia List Bool.
From stdpp Require Import base gmap list.

Local Open Scope Z_scope.

(** ** Machine integers *)

(** Stores into [u8] and [u32] objects wrap around. *)
Definition u8 (x : Z) : Z := x mod 256.
Definition u32 (x : Z) : Z := x mod 2 ^ 32.
Definition BIT (n : Z) : Z := Z.shiftl 1 n.

(** ** Constants of dw-hdmi-common.h *)

Definition DDC_CI_ADDR : Z := 0x37.
Definition DDC_SEGMENT_ADDR : Z := 0x30.
Definition SCDC_MIN_SOURCE_VERSION : Z := 0x1.
Definition HDMI14_MAX_TMDSCLK : Z := 340000000.

(** Error numbers of the kernel ABI (asm-generic/errno-base.h, errno.h). *)
Definition EIO : Z := 5.
Definition EAGAIN : Z := 11.
Definition EOPNOTSUPP : Z := 95.

(** ** Constants of headers that are not part of the sources at hand

    dw-hdmi-qp.h (register offsets, bit fields) and the DRM, I2C and SCDC
    headers are taken as parameters: every definition below is written over an
    arbitrary [Headers], and a theorem that needs a fact about the layout says
    so in a hypothesis. *)
Class Headers := {
  (* dw-hdmi-qp.h: I2C master *)
  I2CM_FM_SCL_CONFIG0 : Z;
  I2CM_CONTROL0 : Z;
  I2CM_INTERFACE_CONTROL0 : Z;
  I2CM_ADDR : Z;
  I2CM_SLVADDR : Z;
  I2CM_WR_MASK : Z;
  I2CM_FM_READ : Z;
  I2CM_FM_WRITE : Z;
  I2CM_FM_EN : Z;
  I2CM_INTERFACE_CONTROL1 : Z;
  I2CM_SEG_PTR : Z;
  I2CM_SEG_ADDR : Z;
  I2CM_INTERFACE_WRDATA_0_3 : Z;
  I2CM_INTERFACE_RDDATA_0_3 : Z;
  (* dw-hdmi-qp.h: main unit interrupts *)
  MAINUNIT_0_INT_MASK_N : Z;
  MAINUNIT_1_INT_STATUS : Z;
  MAINUNIT_1_INT_MASK_N : Z;
  MAINUNIT_1_INT_CLEAR : Z;
  I2CM_READ_REQUEST_IRQ : Z;
  I2CM_OP_DONE_IRQ : Z;
  I2CM_NACK_RCVD_IRQ : Z;
  I2CM_OP_DONE_MASK_N : Z;
  I2CM_NACK_RCVD_MASK_N : Z;
  I2CM_OP_DONE_CLEAR : Z;
  I2CM_NACK_RCVD_CLEAR : Z;
  TIMER_BASE_CONFIG0 : Z;
  (* dw-hdmi-qp.h: link, scrambler, packet scheduler and packet contents *)
  LINK_CONFIG0 : Z;
  OPMODE_DVI : Z;
  HDCP2LOGIC_CONFIG0 : Z;
  HDCP2_BYPASS : Z;
  SCRAMB_CONFIG0 : Z;
  PKTSCHED_PKT_CONFIG1 : Z;
  PKTSCHED_AVI_FIELDRATE : Z;
  PKTSCHED_DRMI_FIELDRATE : Z;
  PKTSCHED_PKT_EN : Z;
  PKTSCHED_AVI_TX_EN : Z;
  PKTSCHED_GCP_TX_EN : Z;
  PKTSCHED_DRMI_TX_EN : Z;
  PKT_AVI_CONTENTS0 : Z;
  PKT_AVI_CONTENTS1 : Z;
  PKT_DRMI_CONTENTS0 : Z;
  PKT_DRMI_CONTENTS1 : Z;
  (* drm_edid.h, uapi i2c.h, uapi drm_mode.h, linux/hdmi.h, drm_scdc.h *)
  DDC_ADDR : Z;
  I2C_M_RD : Z;
  DRM_MODE_FLAG_DBLCLK : Z;
  HDMI_SCAN_MODE_NONE : Z;
  SCDC_SINK_VERSION : Z;
  SCDC_SOURCE_VERSION : Z;
}.

(** ** Data model *)

(** What the driver does to the outside, in program order (newest first in
    the log): register accesses through the regmap, the transaction mutex,
    the outcome of each wait on the completion, and the calls into the PHY and
    into the DRM SCDC helpers. *)
Inductive event : Type :=
| EvWrite (reg val : Z)
| EvRead (reg : Z)
| EvUpdateBits (reg mask val : Z)
| EvMutexLock
| EvMutexUnlock
| EvWait (completed : bool)
| EvPhyInit (ret : Z)
| EvPhyDisable
| EvPhySetupHpd
| EvScdcReadb (offset : Z)
| EvScdcWriteb (offset val : Z)
| EvScdcSetHighTmdsClockRatio (set : bool)
| EvScdcSetScrambling (set : bool).

Global Instance event_eq_dec : EqDecision event.
Proof. solve_decision. Defined.

(** struct i2c_msg; [len] is the length of [buf]. *)
Record i2c_msg := {
  addr : Z;
  flags : Z;
  buf : list Z;
}.

Definition len (m : i2c_msg) : Z := Z.of_nat (length (buf m)).

Definition set_buf (b : list Z) (m : i2c_msg) : i2c_msg :=
  {| addr := addr m; flags := flags m; buf := b |}.

(** struct dw_hdmi_i2c; [lock] tells whether the mutex is held and [cmp]
    whether the completion has been signalled since it was last re-armed. *)
Record dw_hdmi_i2c := {
  lock : bool;
  cmp : bool;
  stat : Z;
  slave_reg : Z;
  is_regaddr : bool;
  is_segment : bool;
}.

(** struct hdmi_vmode and struct hdmi_data_info. *)
Record hdmi_vmode := {
  mdataenablepolarity : bool;
  mpixelclock : Z;
  mpixelrepetitioninput : Z;
  mpixelrepetitionoutput : Z;
  mtmdsclock : Z;
}.

Record hdmi_data_info := {
  enc_in_bus_format : Z;
  enc_out_bus_format : Z;
  enc_in_encoding : Z;
  enc_out_encoding : Z;
  pix_repet_factor : Z;
  hdcp_enable : Z;
  video_mode : hdmi_vmode;
  rgb_limited_range : bool;
}.

(** enum drm_connector_force. *)
Inductive drm_connector_force : Type :=
| DRM_FORCE_UNSPECIFIED
| DRM_FORCE_OFF
| DRM_FORCE_ON
| DRM_FORCE_ON_DIGITAL.

Global Instance drm_connector_force_eq_dec : EqDecision drm_connector_force.
Proof. solve_decision. Defined.

(** The fields of struct drm_display_mode, struct hdr_output_metadata and
    struct drm_connector that this file reads. [display_info] stands for the
    whole struct drm_display_info, which is only handed on. *)
Record drm_display_mode := {
  mode_clock : Z;
  mode_flags : Z;
}.

Record drm_connector := {
  display_info : Z;
  hdr_output_metadata : option Z;
}.

(** struct dw_hdmi, with the register space behind [regm] as a finite map and
    the log of events. *)
Record dw_hdmi := {
  regm : gmap Z Z;
  i2c : dw_hdmi_i2c;
  version : Z;
  hdmi_data : hdmi_data_info;
  use_drm_infoframe : bool;
  hdr_sink_eotf : Z;
  vic : Z;
  phy_enabled : bool;
  previous_mode : drm_display_mode;
  sink_is_hdmi : bool;
  force : drm_connector_force;
  curr_conn : option drm_connector;
  disabled : bool;
  bridge_is_on : bool;
  rxsense : bool;
  log : list event;
}.

(** Field updates. *)
Definition set_i2c (f : dw_hdmi_i2c -> dw_hdmi_i2c) (h : dw_hdmi) : dw_hdmi :=
  {| regm := regm h; i2c := f (i2c h); version := version h;
     hdmi_data := hdmi_data h; use_drm_infoframe := use_drm_infoframe h;
     hdr_sink_eotf := hdr_sink_eotf h; vic := vic h;
     phy_enabled := phy_enabled h; previous_mode := previous_mode h;
     sink_is_hdmi := sink_is_hdmi h; force := force h;
     curr_conn := curr_conn h; disabled := disabled h;
     bridge_is_on := bridge_is_on h; rxsense := rxsense h; log := log h |}.

Definition set_regm (f : gmap Z Z -> gmap Z Z) (h : dw_hdmi) : dw_hdmi :=
  {| regm := f (regm h); i2c := i2c h; version := version h;
     hdmi_data := hdmi_data h; use_drm_infoframe := use_drm_infoframe h;
     hdr_sink_eotf := hdr_sink_eotf h; vic := vic h;
     phy_enabled := phy_enabled h; previous_mode := previous_mode h;
     sink_is_hdmi := sink_is_hdmi h; force := force h;
     curr_conn := curr_conn h; disabled := disabled h;
     bridge_is_on := bridge_is_on h; rxsense := rxsense h; log := log h |}.

Definition add_event (e : event) (h : dw_hdmi) : dw_hdmi :=
  {| regm := regm h; i2c := i2c h; version := version h;
     hdmi_data := hdmi_data h; use_drm_infoframe := use_drm_infoframe h;
     hdr_sink_eotf := hdr_sink_eotf h; vic := vic h;
     phy_enabled := phy_enabled h; previous_mode := previous_mode h;
     sink_is_hdmi := sink_is_hdmi h; force := force h;
     curr_conn := curr_conn h; disabled := disabled h;
     bridge_is_on := bridge_is_on h; rxsense := rxsense h; log := e :: log h |}.

Definition set_video (v : Z) (d : hdmi_data_info) (h : dw_hdmi) : dw_hdmi :=
  {| regm := regm h; i2c := i2c h; version := version h;
     hdmi_data := d; use_drm_infoframe := use_drm_infoframe h;
     hdr_sink_eotf := hdr_sink_eotf h; vic := v;
     phy_enabled := phy_enabled h; previous_mode := previous_mode h;
     sink_is_hdmi := sink_is_hdmi h; force := force h;
     curr_conn := curr_conn h; disabled := disabled h;
     bridge_is_on := bridge_is_on h; rxsense := rxsense h; log := log h |}.

Definition set_phy_enabled (b : bool) (h : dw_hdmi) : dw_hdmi :=
  {| regm := regm h; i2c := i2c h; version := version h;
     hdmi_data := hdmi_data h; use_drm_infoframe := use_drm_infoframe h;
     hdr_sink_eotf := hdr_sink_eotf h; vic := vic h;
     phy_enabled := b; previous_mode := previous_mode h;
     sink_is_hdmi := sink_is_hdmi h; force := force h;
     curr_conn := curr_conn h; disabled := disabled h;
     bridge_is_on := bridge_is_on h; rxsense := rxsense h; log := log h |}.

Definition set_force (f : drm_connector_force) (h : dw_hdmi) : dw_hdmi :=
  {| regm := regm h; i2c := i2c h; version := version h;
     hdmi_data := hdmi_data h; use_drm_infoframe := use_drm_infoframe h;
     hdr_sink_eotf := hdr_sink_eotf h; vic := vic h;
     phy_enabled := phy_enabled h; previous_mode := previous_mode h;
     sink_is_hdmi := sink_is_hdmi h; force := f;
     curr_conn := curr_conn h; disabled := disabled h;
     bridge_is_on := bridge_is_on h; rxsense := rxsense h; log := log h |}.

Definition set_bridge_is_on (b : bool) (h : dw_hdmi) : dw_hdmi :=
  {| regm := regm h; i2c := i2c h; version := version h;
     hdmi_data := hdmi_data h; use_drm_infoframe := use_drm_infoframe h;
     hdr_sink_eotf := hdr_sink_eotf h; vic := vic h;
     phy_enabled := phy_enabled h; previous_mode := previous_mode h;
     sink_is_hdmi := sink_is_hdmi h; force := force h;
     curr_conn := curr_conn h; disabled := disabled h;
     bridge_is_on := b; rxsense := rxsense h; log := log h |}.

Definition set_lock (b : bool) (i : dw_hdmi_i2c) : dw_hdmi_i2c :=
  {| lock := b; cmp := cmp i; stat := stat i; slave_reg := slave_reg i;
     is_regaddr := is_regaddr i; is_segment := is_segment i |}.
Definition set_cmp (b : bool) (i : dw_hdmi_i2c) : dw_hdmi_i2c :=
  {| lock := lock i; cmp := b; stat := stat i; slave_reg := slave_reg i;
     is_regaddr := is_regaddr i; is_segment := is_segment i |}.
Definition set_stat (s : Z) (i : dw_hdmi_i2c) : dw_hdmi_i2c :=
  {| lock := lock i; cmp := cmp i; stat := s; slave_reg := slave_reg i;
     is_regaddr := is_regaddr i; is_segment := is_segment i |}.
Definition set_slave_reg (r : Z) (i : dw_hdmi_i2c) : dw_hdmi_i2c :=
  {| lock := lock i; cmp := cmp i; stat := stat i; slave_reg := r;
     is_regaddr := is_regaddr i; is_segment := is_segment i |}.
Definition set_is_regaddr (b : bool) (i : dw_hdmi_i2c) : dw_hdmi_i2c :=
  {| lock := lock i; cmp := cmp i; stat := stat i; slave_reg := slave_reg i;
     is_regaddr := b; is_segment := is_segment i |}.
Definition set_is_segment (b : bool) (i : dw_hdmi_i2c) : dw_hdmi_i2c :=
  {| lock := lock i; cmp := cmp i; stat := stat i; slave_reg := slave_reg i;
     is_regaddr := is_regaddr i; is_segment := b |}.

(** struct hdmi_avi_infoframe and the fields of struct hdmi_drm_infoframe
    that are read here (linux/hdmi.h). *)
Record hdmi_avi_infoframe := {
  avi_type : Z;
  avi_version : Z;
  avi_length : Z;
  avi_itc : Z;
  avi_pixel_repeat : Z;
  avi_colorspace : Z;
  avi_scan_mode : Z;
  avi_colorimetry : Z;
  avi_picture_aspect : Z;
  avi_active_aspect : Z;
  avi_extended_colorimetry : Z;
  avi_quantization_range : Z;
  avi_nups : Z;
  avi_video_code : Z;
  avi_ycc_quantization_range : Z;
  avi_content_type : Z;
  avi_top_bar : Z;
  avi_bottom_bar : Z;
  avi_left_bar : Z;
  avi_right_bar : Z;
}.

Record hdmi_drm_infoframe := {
  drmi_version : Z;
  drmi_length : Z;
  drmi_eotf : Z;
}.

(** [frame.scan_mode = s; frame.video_code = c], the latter an unsigned char. *)
Definition set_avi_scan_video (s c : Z) (f : hdmi_avi_infoframe) : hdmi_avi_infoframe :=
  {| avi_type := avi_type f; avi_version := avi_version f;
     avi_length := avi_length f; avi_itc := avi_itc f;
     avi_pixel_repeat := avi_pixel_repeat f; avi_colorspace := avi_colorspace f;
     avi_scan_mode := s; avi_colorimetry := avi_colorimetry f;
     avi_picture_aspect := avi_picture_aspect f;
     avi_active_aspect := avi_active_aspect f;
     avi_extended_colorimetry := avi_extended_colorimetry f;
     avi_quantization_range := avi_quantization_range f; avi_nups := avi_nups f;
     avi_video_code := u8 c;
     avi_ycc_quantization_range := avi_ycc_quantization_range f;
     avi_content_type := avi_content_type f; avi_top_bar := avi_top_bar f;
     avi_bottom_bar := avi_bottom_bar f; avi_left_bar := avi_left_bar f;
     avi_right_bar := avi_right_bar f |}.

Definition set_avi_version (v : Z) (f : hdmi_avi_infoframe) : hdmi_avi_infoframe :=
  {| avi_type := avi_type f; avi_version := u8 v;
     avi_length := avi_length f; avi_itc := avi_itc f;
     avi_pixel_repeat := avi_pixel_repeat f; avi_colorspace := avi_colorspace f;
     avi_scan_mode := avi_scan_mode f; avi_colorimetry := avi_colorimetry f;
     avi_picture_aspect := avi_picture_aspect f;
     avi_active_aspect := avi_active_aspect f;
     avi_extended_colorimetry := avi_extended_colorimetry f;
     avi_quantization_range := avi_quantization_range f; avi_nups := avi_nups f;
     avi_video_code := avi_video_code f;
     avi_ycc_quantization_range := avi_ycc_quantization_range f;
     avi_content_type := avi_content_type f; avi_top_bar := avi_top_bar f;
     avi_bottom_bar := avi_bottom_bar f; avi_left_bar := avi_left_bar f;
     avi_right_bar := avi_right_bar f |}.

Definition set_pixelrepetition (o i : Z) (v : hdmi_vmode) : hdmi_vmode :=
  {| mdataenablepolarity := mdataenablepolarity v; mpixelclock := mpixelclock v;
     mpixelrepetitioninput := i; mpixelrepetitionoutput := o;
     mtmdsclock := mtmdsclock v |}.

Definition set_video_mode (f : hdmi_vmode -> hdmi_vmode) (d : hdmi_data_info) : hdmi_data_info :=
  {| enc_in_bus_format := enc_in_bus_format d;
     enc_out_bus_format := enc_out_bus_format d;
     enc_in_encoding := enc_in_encoding d; enc_out_encoding := enc_out_encoding d;
     pix_repet_factor := pix_repet_factor d; hdcp_enable := hdcp_enable d;
     video_mode := f (video_mode d); rgb_limited_range := rgb_limited_range d |}.

Definition set_pix_repet_factor (n : Z) (d : hdmi_data_info) : hdmi_data_info :=
  {| enc_in_bus_format := enc_in_bus_format d;
     enc_out_bus_format := enc_out_bus_format d;
     enc_in_encoding := enc_in_encoding d; enc_out_encoding := enc_out_encoding d;
     pix_repet_factor := n; hdcp_enable := hdcp_enable d;
     video_mode := video_mode d; rgb_limited_range := rgb_limited_range d |}.

Definition set_hdmi_data (f : hdmi_data_info -> hdmi_data_info) (h : dw_hdmi) : dw_hdmi :=
  set_video (vic h) (f (hdmi_data h)) h.

(** ** Functions declared in dw-hdmi-common.h and in the DRM and HDMI headers

    Their bodies are not part of the sources at hand; they are parameters.
    [dw_hdmi_prep_data] yields the VIC and the video descriptor it stores in
    the device, [dw_hdmi_prep_vmode] the video mode it stores;
    [hdmi_avi_infoframe_pack_only] yields the contents of the 17-byte buffer
    after the call; the two DRM infoframe helpers yield [None] when they
    return an error. *)
Class Common := {
  dw_hdmi_support_scdc : dw_hdmi -> Z -> bool;
  dw_hdmi_prep_avi_infoframe :
    dw_hdmi -> drm_connector -> drm_display_mode -> hdmi_avi_infoframe;
  dw_hdmi_prep_vmode : dw_hdmi -> drm_display_mode -> hdmi_vmode;
  dw_hdmi_prep_data : dw_hdmi -> drm_display_mode -> Z * hdmi_data_info;
  hdmi_avi_infoframe_pack_only : hdmi_avi_infoframe -> list Z;
  drm_hdmi_infoframe_set_hdr_metadata : drm_connector -> option hdmi_drm_infoframe;
  hdmi_drm_infoframe_pack : hdmi_drm_infoframe -> option (list Z);
}.

(** [buf[i]] of a byte array. *)
Definition byte_at (buf : list Z) (i : Z) : Z := default 0 (buf !! Z.to_nat i).

(** ** The world outside the driver

    [E] is the state of the controller hardware, the sink behind it and the
    PHY. [irq_window] is what the hardware does while the driver sleeps in
    one wait_for_completion_timeout: what it makes of the register space
    (latching an interrupt status, filling the read-data register, or
    nothing at all) and whether the interrupt line, which is shared, is
    raised. [phy_ops_init], [phy_ops_disable] and [phy_ops_setup_hpd] are the
    PHY operations of struct dw_hdmi_phy_ops, the last one optional;
    [scdc_sink_version] is the byte drm_scdc_readb leaves in its result. *)
Class Env (E : Type) := {
  irq_window : E -> gmap Z Z -> E * gmap Z Z * bool;
  phy_ops_init : E -> Z -> drm_display_mode -> Z * E;
  phy_ops_disable : E -> E;
  phy_ops_setup_hpd : option (E -> E);
  scdc_sink_version : E -> Z;
}.

(** ** A state monad with failure

    A computation runs on the driver state and the outside world; [None] is
    the behaviour C leaves undefined (an access outside an array, a null
    pointer followed). *)
Definition M (E A : Type) : Type := dw_hdmi * E -> option (A * (dw_hdmi * E)).

Definition ret {E A} (a : A) : M E A := fun w => Some (a, w).
Definition bind {E A B} (c : M E A) (k : A -> M E B) : M E B :=
  fun w => match c w with
           | Some (a, w') => k a w'
           | None => None
           end.
Definition undefined {E A} : M E A := fun _ => None.
Definition gets {E A} (f : dw_hdmi -> A) : M E A := fun w => Some (f (fst w), w).
Definition modify {E} (f : dw_hdmi -> dw_hdmi) : M E unit :=
  fun w => Some (tt, (f (fst w), snd w)).
Definition emit {E} (e : event) : M E unit := modify (add_event e).

Declare Scope m_scope.
Delimit Scope m_scope with M.
Notation "x <- c ;; k" := (bind c (fun x => k))
  (at level 100, c at next level, right associativity) : m_scope.
Notation "c ;; k" := (bind c (fun _ => k))
  (at level 100, right associativity) : m_scope.
Local Open Scope m_scope.

Section Model.
Context {Hd : Headers} {E : Type} {Ev : Env E} {Cm : Common}.

(** ** Register access layer *)

(** Modelled from the spec: regmap_write, regmap_read and regmap_update_bits
    of the regmap core (drivers/base/regmap), which is not among the sources
    at hand, on a register space of 32-bit values: a write stores the value;
    a read yields the stored value, and fails on a register that holds
    none; a modify is a read-modify-write restricted to the bits of the
    mask, [regmap_update_bits] being the value it stores. *)
Definition regmap_write (r : gmap Z Z) (reg val : Z) : gmap Z Z :=
  <[reg := u32 val]> r.

Definition regmap_read (r : gmap Z Z) (reg : Z) : option Z := r !! reg.

Definition regmap_update_bits (orig mask val : Z) : Z :=
  Z.lor (Z.land orig (Z.lnot mask)) (Z.land val mask).

Definition dw_hdmi_qp_write (val offset : Z) : M E unit :=
  modify (set_regm (fun r => regmap_write r offset val)) ;;
  emit (EvWrite offset (u32 val)).

(** [val] is 0 unless the read stores into it. *)
Definition dw_hdmi_qp_read (offset : Z) : M E Z :=
  emit (EvRead offset) ;;
  gets (fun h => default 0 (regmap_read (regm h) offset)).

Definition dw_hdmi_qp_mod (data mask reg : Z) : M E unit :=
  modify (set_regm (fun r =>
    regmap_write r reg
      (regmap_update_bits (default 0 (regmap_read r reg)) mask data))) ;;
  emit (EvUpdateBits reg mask data).

Definition dw_hdmi_qp_i2c_init : M E unit :=
  (* Software reset *)
  dw_hdmi_qp_write 0x01 I2CM_CONTROL0 ;;
  dw_hdmi_qp_write 0x085c085c I2CM_FM_SCL_CONFIG0 ;;
  dw_hdmi_qp_mod 0 I2CM_FM_EN I2CM_INTERFACE_CONTROL0 ;;
  (* Clear DONE and ERROR interrupts *)
  dw_hdmi_qp_write (Z.lor I2CM_OP_DONE_CLEAR I2CM_NACK_RCVD_CLEAR)
    MAINUNIT_1_INT_CLEAR.

(** ** The interrupt handler and the completion *)

Definition IRQ_NONE : Z := 0.
Definition IRQ_HANDLED : Z := 1.

Definition dw_hdmi_qp_main_hardirq : M E Z :=
  st <- dw_hdmi_qp_read MAINUNIT_1_INT_STATUS ;;
  let istat := u8 (Z.land st (Z.lor (Z.lor I2CM_OP_DONE_IRQ I2CM_READ_REQUEST_IRQ)
                                      I2CM_NACK_RCVD_IRQ)) in
  modify (set_i2c (set_stat istat)) ;;
  (if negb (istat =? 0) then
     dw_hdmi_qp_write istat MAINUNIT_1_INT_CLEAR ;;
     modify (set_i2c (set_cmp true))
   else ret tt) ;;
  ret (if negb (st =? 0) then IRQ_HANDLED else IRQ_NONE).

(** Modelled from the spec: the completion of linux/completion.h, which is
    not among the sources at hand, a one-shot signal that can be armed again:
    reinit_completion arms it, complete (in the interrupt handler above)
    posts it, and wait_for_completion_timeout waits for it for a bounded
    time. *)
Definition reinit_completion : M E unit := modify (set_i2c (set_cmp false)).

(** Modelled from the spec: one wait of HZ / 10 on the completion. The
    hardware acts on the register space, the interrupt handler runs when the
    interrupt line is raised, and the wait returns 0 when the completion has
    not been posted (the timeout) and a positive number of remaining jiffies
    otherwise. *)
Definition wait_for_completion_timeout : M E Z :=
  irq <- (fun w => let '(e, r, irq) := irq_window (snd w) (regm (fst w)) in
                   Some (irq, (set_regm (fun _ => r) (fst w), e))) ;;
  (if irq : bool then dw_hdmi_qp_main_hardirq ;; ret tt else ret tt) ;;
  done <- gets (fun h => cmp (i2c h)) ;;
  emit (EvWait done) ;;
  ret (if done then 1 else 0).

(** ** The transaction engine *)

(** [i2c->slave_reg++]: the value before the increment; the u8 wraps. *)
Definition slave_reg_postinc : M E Z :=
  r <- gets (fun h => slave_reg (i2c h)) ;;
  modify (set_i2c (set_slave_reg (u8 (r + 1)))) ;;
  ret r.

(** The loop [while (length--)] of dw_hdmi_qp_i2c_read over the bytes still to
    be read; it yields the value returned from inside the loop (0 when the
    loop runs to its end) and the buffer. *)
Fixpoint i2c_read_loop (buf : list Z) : M E (Z * list Z) :=
  match buf with
  | [] => ret (0, [])
  | b :: rest =>
      reinit_completion ;;
      r <- slave_reg_postinc ;;
      dw_hdmi_qp_mod (Z.shiftl r 12) I2CM_ADDR I2CM_INTERFACE_CONTROL0 ;;
      dw_hdmi_qp_mod I2CM_FM_READ I2CM_WR_MASK I2CM_INTERFACE_CONTROL0 ;;
      st <- wait_for_completion_timeout ;;
      if st =? 0 then
        dw_hdmi_qp_write 0x01 I2CM_CONTROL0 ;;
        ret (- EAGAIN, b :: rest)
      else
        istat <- gets (fun h => stat (i2c h)) ;;
        (* Check for error condition on the bus *)
        if negb (Z.land istat I2CM_NACK_RCVD_IRQ =? 0) then
          dw_hdmi_qp_write 0x01 I2CM_CONTROL0 ;;
          ret (- EIO, b :: rest)
        else
          v <- dw_hdmi_qp_read I2CM_INTERFACE_RDDATA_0_3 ;;
          dw_hdmi_qp_mod 0 I2CM_WR_MASK I2CM_INTERFACE_CONTROL0 ;;
          x <- i2c_read_loop rest ;;
          ret (fst x, u8 (Z.land v 0xff) :: snd x)
  end.

Definition dw_hdmi_qp_i2c_read (buf : list Z) : M E (Z * list Z) :=
  ra <- gets (fun h => is_regaddr (i2c h)) ;;
  (if negb ra then
     modify (set_i2c (set_slave_reg 0x00)) ;;
     modify (set_i2c (set_is_regaddr true))
   else ret tt) ;;
  x <- i2c_read_loop buf ;;
  if fst x =? 0 then
    modify (set_i2c (set_is_segment false)) ;;
    ret (0, snd x)
  else ret x.

(** The loop [while (length--)] of dw_hdmi_qp_i2c_write over the bytes still
    to be written. *)
Fixpoint i2c_write_loop (buf : list Z) : M E Z :=
  match buf with
  | [] => ret 0
  | b :: rest =>
      reinit_completion ;;
      dw_hdmi_qp_write b I2CM_INTERFACE_WRDATA_0_3 ;;
      r <- slave_reg_postinc ;;
      dw_hdmi_qp_mod (Z.shiftl r 12) I2CM_ADDR I2CM_INTERFACE_CONTROL0 ;;
      dw_hdmi_qp_mod I2CM_FM_WRITE I2CM_WR_MASK I2CM_INTERFACE_CONTROL0 ;;
      st <- wait_for_completion_timeout ;;
      if st =? 0 then
        dw_hdmi_qp_write 0x01 I2CM_CONTROL0 ;;
        ret (- EAGAIN)
      else
        istat <- gets (fun h => stat (i2c h)) ;;
        (* Check for error condition on the bus *)
        if negb (Z.land istat I2CM_NACK_RCVD_IRQ =? 0) then
          dw_hdmi_qp_write 0x01 I2CM_CONTROL0 ;;
          ret (- EIO)
        else
          dw_hdmi_qp_mod 0 I2CM_WR_MASK I2CM_INTERFACE_CONTROL0 ;;
          i2c_write_loop rest
  end.

Definition dw_hdmi_qp_i2c_write (buf : list Z) : M E Z :=
  ra <- gets (fun h => is_regaddr (i2c h)) ;;
  if negb ra then
    (* Use the first write byte as register address *)
    match buf with
    | [] => undefined
    | b0 :: rest =>
        modify (set_i2c (set_slave_reg (u8 b0))) ;;
        modify (set_i2c (set_is_regaddr true)) ;;
        i2c_write_loop rest
    end
  else i2c_write_loop buf.

(** Modelled from the spec: the transaction mutex, taken and released; a
    transfer is followed on its own, so the mutex is free when it is taken. *)
Definition mutex_lock : M E unit :=
  modify (set_i2c (set_lock true)) ;; emit EvMutexLock.
Definition mutex_unlock : M E unit :=
  modify (set_i2c (set_lock false)) ;; emit EvMutexUnlock.

(** The second [for] loop of dw_hdmi_qp_i2c_xfer over the messages still to
    be processed, with the current value of [ret]. *)
Fixpoint xfer_loop (msgs : list i2c_msg) (ret0 : Z) : M E (Z * list i2c_msg) :=
  match msgs with
  | [] => ret (ret0, [])
  | m :: rest =>
      x <- (if (addr m =? DDC_SEGMENT_ADDR) && (len m =? 1) then
              modify (set_i2c (set_is_segment true)) ;;
              dw_hdmi_qp_mod DDC_SEGMENT_ADDR I2CM_SEG_ADDR I2CM_INTERFACE_CONTROL1 ;;
              dw_hdmi_qp_mod (hd 0 (buf m)) I2CM_SEG_PTR I2CM_INTERFACE_CONTROL1 ;;
              ret (ret0, m)
            else if negb (Z.land (flags m) I2C_M_RD =? 0) then
              y <- dw_hdmi_qp_i2c_read (buf m) ;;
              ret (fst y, set_buf (snd y) m)
            else
              y <- dw_hdmi_qp_i2c_write (buf m) ;;
              ret (y, m)) ;;
      if fst x <? 0 then ret (fst x, snd x :: rest)
      else
        y <- xfer_loop rest (fst x) ;;
        ret (fst y, snd x :: snd y)
  end.

(** dw_hdmi_qp_i2c_xfer: [num] is the number of messages; the I2C core calls
    it with at least one, and [msgs[0]] of an empty array is undefined. It
    yields the returned value and the messages with their buffers as the
    transfer left them. *)
Definition dw_hdmi_qp_i2c_xfer (msgs : list i2c_msg) : M E (Z * list i2c_msg) :=
  match msgs with
  | [] => undefined
  | m0 :: _ =>
      let num := Z.of_nat (length msgs) in
      let addr0 := u8 (addr m0) in
      if addr0 =? DDC_CI_ADDR then
        (* The internal I2C controller does not support the multi-byte
           read and write operations needed for DDC/CI. *)
        ret (- EOPNOTSUPP, msgs)
      else if existsb (fun m => len m =? 0) msgs then
        ret (- EOPNOTSUPP, msgs)
      else
        mutex_lock ;;
        (* Unmute DONE and ERROR interrupts *)
        dw_hdmi_qp_mod (Z.lor I2CM_NACK_RCVD_MASK_N I2CM_OP_DONE_MASK_N)
          (Z.lor I2CM_NACK_RCVD_MASK_N I2CM_OP_DONE_MASK_N)
          MAINUNIT_1_INT_MASK_N ;;
        (* Set slave device address taken from the first I2C message *)
        let addr1 := if (addr0 =? DDC_SEGMENT_ADDR) && (len m0 =? 1)
                     then u8 DDC_ADDR else addr0 in
        dw_hdmi_qp_mod (Z.shiftl addr1 5) I2CM_SLVADDR I2CM_INTERFACE_CONTROL0 ;;
        (* Set slave device register address on transfer *)
        modify (set_i2c (set_is_regaddr false)) ;;
        (* Set segment pointer for I2C extended read mode operation *)
        modify (set_i2c (set_is_segment false)) ;;
        x <- xfer_loop msgs 0 ;;
        let ret1 := if fst x =? 0 then num else fst x in
        (* Mute DONE and ERROR interrupts *)
        dw_hdmi_qp_mod 0 (Z.lor I2CM_OP_DONE_MASK_N I2CM_NACK_RCVD_MASK_N)
          MAINUNIT_1_INT_MASK_N ;;
        mutex_unlock ;;
        ret (ret1, snd x)
  end.

(** ** HDMI TX setup *)

(** The loop [for (i = 0; i < size; i++) csum += ptr[i]], [n] iterations from
    index [i] on; [csum] is a u8. *)
Fixpoint csum_loop (ptr : list Z) (i : Z) (n : nat) (csum : Z) : Z :=
  match n with
  | O => csum
  | S n' => csum_loop ptr (i + 1) n' (u8 (csum + byte_at ptr i))
  end.

Definition hdmi_infoframe_set_checksum (ptr : list Z) (size : Z) : list Z :=
  let ptr := <[3%nat := 0]> ptr in
  (* compute checksum *)
  let csum := csum_loop ptr 0 (Z.to_nat size) 0 in
  <[3%nat := u8 (256 - csum)]> ptr.

(** The first part of hdmi_config_AVI: the frame and the 17-byte buffer as
    they are when the registers are written. *)
Definition hdmi_config_AVI_pack (h : dw_hdmi) (connector : drm_connector)
    (mode : drm_display_mode) : hdmi_avi_infoframe * list Z :=
  let frame := dw_hdmi_prep_avi_infoframe h connector mode in
  let frame := set_avi_scan_video HDMI_SCAN_MODE_NONE (vic h) frame in
  let buf := hdmi_avi_infoframe_pack_only frame in
  (* mode which vic >= 128 must use avi version 3 *)
  if vic h >=? 128 then
    let frame := set_avi_version 3 frame in
    let buf := <[1%nat := avi_version frame]> buf in
    let buf := <[4%nat := Z.land (byte_at buf 4) 0x1f]> buf in
    let buf := <[4%nat := u8 (Z.lor (byte_at buf 4)
                                (Z.shiftl (Z.land (avi_colorspace frame) 0x7) 5))]> buf in
    let buf := <[7%nat := avi_video_code frame]> buf in
    (frame, hdmi_infoframe_set_checksum buf 17)
  else (frame, buf).

(** The inner loop over [j] of the packing loop, from the values of [j] still
    to be visited. *)
Fixpoint avi_pack_word (buf : list Z) (i : Z) (js : list Z) (val : Z) : Z :=
  match js with
  | [] => val
  | j :: js' =>
      if i * 4 + j >=? 14 then val
      else
        let val := if j =? 0 then byte_at buf (i * 4 + j + 3) else val in
        avi_pack_word buf i js'
          (u32 (Z.lor val (Z.shiftl (byte_at buf (i * 4 + j + 3)) (8 * j))))
  end.

(** The outer loop over [i]. *)
Fixpoint avi_write_words (buf : list Z) (idx : list Z) (val : Z) : M E unit :=
  match idx with
  | [] => ret tt
  | i :: idx' =>
      let val := avi_pack_word buf i [0; 1; 2; 3] val in
      dw_hdmi_qp_write val (PKT_AVI_CONTENTS1 + i * 4) ;;
      avi_write_words buf idx' val
  end.

Definition hdmi_config_AVI (connector : drm_connector) (mode : drm_display_mode)
  : M E unit :=
  h <- gets (fun h => h) ;;
  let fb := hdmi_config_AVI_pack h connector mode in
  let frame := fst fb in
  let buf := snd fb in
  (* The Designware IP uses a different byte format from standard AVI info
     frames, though generally the bits are in the correct bytes. *)
  let val := Z.lor (Z.shiftl (avi_version frame) 8) (Z.shiftl (avi_length frame) 16) in
  dw_hdmi_qp_write val PKT_AVI_CONTENTS0 ;;
  avi_write_words buf [0; 1; 2; 3] (u32 val) ;;
  dw_hdmi_qp_mod 0 PKTSCHED_AVI_FIELDRATE PKTSCHED_PKT_CONFIG1 ;;
  dw_hdmi_qp_mod (Z.lor PKTSCHED_AVI_TX_EN PKTSCHED_GCP_TX_EN)
    (Z.lor PKTSCHED_AVI_TX_EN PKTSCHED_GCP_TX_EN) PKTSCHED_PKT_EN.

(** The loop [for (i = 0; i <= frame.length; i++)] of
    hdmi_config_drm_infoframe, [n] iterations from [i] on. *)
Fixpoint drmi_write_words (buffer : list Z) (flen : Z) (i : Z) (n : nat) (val : Z)
  : M E unit :=
  match n with
  | O => ret tt
  | S n' =>
      let val := if i mod 4 =? 0 then byte_at buffer (3 + i) else val in
      let val := u32 (Z.lor val (Z.shiftl (byte_at buffer (3 + i)) ((i mod 4) * 8))) in
      (if (i mod 4 =? 3) || (i =? flen) then
         dw_hdmi_qp_write val (PKT_DRMI_CONTENTS1 + (i / 4) * 4)
       else ret tt) ;;
      drmi_write_words buffer flen (i + 1) n' val
  end.

Definition hdmi_config_drm_infoframe (connector : drm_connector) : M E unit :=
  h <- gets (fun h => h) ;;
  if negb (use_drm_infoframe h) then ret tt
  else
    dw_hdmi_qp_mod 0 PKTSCHED_DRMI_TX_EN PKTSCHED_PKT_EN ;;
    if hdr_sink_eotf h =? 0 then ret tt
    else
      match hdr_output_metadata connector with
      | None => ret tt
      | Some eotf =>
          if Z.land (hdr_sink_eotf h) (BIT eotf) =? 0 then ret tt
          else
            match drm_hdmi_infoframe_set_hdr_metadata connector with
            | None => ret tt
            | Some frame =>
                match hdmi_drm_infoframe_pack frame with
                | None => ret tt
                | Some buffer =>
                    let val := Z.lor (Z.shiftl (drmi_version frame) 8)
                                     (Z.shiftl (drmi_length frame) 16) in
                    dw_hdmi_qp_write val PKT_DRMI_CONTENTS0 ;;
                    drmi_write_words buffer (drmi_length frame) 0
                      (Z.to_nat (drmi_length frame + 1)) (u32 val) ;;
                    dw_hdmi_qp_mod 0 PKTSCHED_DRMI_FIELDRATE PKTSCHED_PKT_CONFIG1 ;;
                    dw_hdmi_qp_mod PKTSCHED_DRMI_TX_EN PKTSCHED_DRMI_TX_EN
                      PKTSCHED_PKT_EN
                end
            end
      end.

(** Modelled from the spec: the calls that leave the driver, to the PHY
    operations and to the DRM SCDC helpers (drm_scdc_helper.c), none of which
    is among the sources at hand. Each call is a request made of the PHY or
    of the sink and is recorded in the log; the bus traffic of the SCDC
    helpers is not followed. *)
Definition phy_init (display_info : Z) (prev : drm_display_mode) : M E Z :=
  fun w => let '(r, e) := phy_ops_init (snd w) display_info prev in
           Some (r, (add_event (EvPhyInit r) (fst w), e)).

Definition phy_disable : M E unit :=
  fun w => Some (tt, (add_event EvPhyDisable (fst w), phy_ops_disable (snd w))).

Definition drm_scdc_readb (offset : Z) : M E Z :=
  emit (EvScdcReadb offset) ;;
  (fun w => Some (u8 (scdc_sink_version (snd w)), w)).

Definition drm_scdc_writeb (offset val : Z) : M E unit :=
  emit (EvScdcWriteb offset (u8 val)).

Definition drm_scdc_set_high_tmds_clock_ratio (set : bool) : M E unit :=
  emit (EvScdcSetHighTmdsClockRatio set).

Definition drm_scdc_set_scrambling (set : bool) : M E unit :=
  emit (EvScdcSetScrambling set).

Definition dw_hdmi_qp_setup (connector : drm_connector) (mode : drm_display_mode)
  : M E Z :=
  h <- gets (fun h => h) ;;
  modify (set_video (fst (dw_hdmi_prep_data h mode)) (snd (dw_hdmi_prep_data h mode))) ;;
  (if negb (Z.land (mode_flags mode) DRM_MODE_FLAG_DBLCLK =? 0) then
     modify (set_hdmi_data (set_video_mode (set_pixelrepetition 1 1)))
   else ret tt) ;;
  (if negb (Z.land (mode_flags mode) DRM_MODE_FLAG_DBLCLK =? 0) then
     modify (set_hdmi_data (set_pix_repet_factor 1))
   else ret tt) ;;
  (* HDMI Initialization Step B.1 *)
  h <- gets (fun h => h) ;;
  modify (set_hdmi_data (set_video_mode (fun _ => dw_hdmi_prep_vmode h mode))) ;;
  (* HDMI Initialization Step B.2 *)
  prev <- gets previous_mode ;;
  r <- phy_init (display_info connector) prev ;;
  if negb (r =? 0) then ret r
  else
    modify (set_phy_enabled true) ;;
    is_hdmi <- gets sink_is_hdmi ;;
    (* not for DVI mode *)
    (if is_hdmi then
       dw_hdmi_qp_mod 0 OPMODE_DVI LINK_CONFIG0 ;;
       dw_hdmi_qp_mod HDCP2_BYPASS HDCP2_BYPASS HDCP2LOGIC_CONFIG0 ;;
       tmdsclock <- gets (fun h => mtmdsclock (video_mode (hdmi_data h))) ;;
       scdc <- gets (fun h => dw_hdmi_support_scdc h (display_info connector)) ;;
       (if tmdsclock >? HDMI14_MAX_TMDSCLK then
          (if scdc then
             bytes <- drm_scdc_readb SCDC_SINK_VERSION ;;
             drm_scdc_writeb SCDC_SOURCE_VERSION (Z.min bytes SCDC_MIN_SOURCE_VERSION) ;;
             drm_scdc_set_high_tmds_clock_ratio true ;;
             drm_scdc_set_scrambling true
           else ret tt) ;;
          dw_hdmi_qp_write 1 SCRAMB_CONFIG0
        else
          (if scdc then
             drm_scdc_set_high_tmds_clock_ratio false ;;
             drm_scdc_set_scrambling false
           else ret tt) ;;
          dw_hdmi_qp_write 0 SCRAMB_CONFIG0) ;;
       (* HDMI Initialization Step F *)
       hdmi_config_AVI connector mode ;;
       hdmi_config_drm_infoframe connector
     else
       dw_hdmi_qp_mod HDCP2_BYPASS HDCP2_BYPASS HDCP2LOGIC_CONFIG0 ;;
       dw_hdmi_qp_mod OPMODE_DVI OPMODE_DVI LINK_CONFIG0) ;;
    ret 0.

(** dw_hdmi_qp_update_power. The connector handed to the setup is
    [hdmi->curr_conn]; following it when it is null is undefined. *)
Definition dw_hdmi_qp_update_power : M E unit :=
  h <- gets (fun h => h) ;;
  let force0 := force h in
  let force1 :=
    if disabled h then DRM_FORCE_OFF
    else if decide (force0 = DRM_FORCE_UNSPECIFIED) then
      (if rxsense h then DRM_FORCE_ON else DRM_FORCE_OFF)
    else force0 in
  if decide (force1 = DRM_FORCE_OFF) then
    (if bridge_is_on h then
       (if phy_enabled h then
          phy_disable ;;
          modify (set_phy_enabled false)
        else ret tt) ;;
       modify (set_bridge_is_on false)
     else ret tt)
  else
    (if negb (bridge_is_on h) then
       modify (set_bridge_is_on true) ;;
       match curr_conn h with
       | None => undefined
       | Some connector =>
           dw_hdmi_qp_setup connector (previous_mode h) ;;
           ret tt
       end
     else ret tt).

Definition phy_setup_hpd (f : E -> E) : M E unit :=
  fun w => Some (tt, (add_event EvPhySetupHpd (fst w), f (snd w))).

Definition dw_hdmi_qp_init_hw : M E unit :=
  dw_hdmi_qp_write 0 MAINUNIT_0_INT_MASK_N ;;
  dw_hdmi_qp_write 0 MAINUNIT_1_INT_MASK_N ;;
  dw_hdmi_qp_write 428571429 TIMER_BASE_CONFIG0 ;;
  dw_hdmi_qp_i2c_init ;;
  match phy_ops_setup_hpd with
  | Some setup_hpd => phy_setup_hpd setup_hpd
  | None => ret tt
  end.

(** ** The register address of a transfer, as the specification tells it

    These definitions follow the words of the specification, not the code:
    the first read or write message of a transfer sets the register pointer
    (a write from its first payload byte, the rest of the payload being the
    data; a read to register 0), and every later read or write message
    continues from the pointer, its whole payload being data. [addressed]
    tells whether a message of the transfer has set the pointer already;
    nothing here reads [is_regaddr]. *)
Definition spec_read_data (buf : list Z) : M E (Z * list Z) :=
  x <- i2c_read_loop buf ;;
  if fst x =? 0 then
    modify (set_i2c (set_is_segment false)) ;;
    ret (0, snd x)
  else ret x.

Definition spec_msg (addressed : bool) (m : i2c_msg) : M E (Z * i2c_msg) :=
  if negb (Z.land (flags m) I2C_M_RD =? 0) then
    (if addressed then ret tt
     else
       modify (set_i2c (set_slave_reg 0)) ;;
       modify (set_i2c (set_is_regaddr true))) ;;
    y <- spec_read_data (buf m) ;;
    ret (fst y, set_buf (snd y) m)
  else if addressed then
    y <- i2c_write_loop (buf m) ;;
    ret (y, m)
  else
    match buf m with
    | [] => undefined
    | reg :: data =>
        modify (set_i2c (set_slave_reg (u8 reg))) ;;
        modify (set_i2c (set_is_regaddr true)) ;;
        y <- i2c_write_loop data ;;
        ret (y, m)
    end.

Fixpoint spec_xfer_loop (addressed : bool) (msgs : list i2c_msg) (ret0 : Z)
  : M E (Z * list i2c_msg) :=
  match msgs with
  | [] => ret (ret0, [])
  | m :: rest =>
      let segment := (addr m =? DDC_SEGMENT_ADDR) && (len m =? 1) in
      x <- (if segment then
              modify (set_i2c (set_is_segment true)) ;;
              dw_hdmi_qp_mod DDC_SEGMENT_ADDR I2CM_SEG_ADDR I2CM_INTERFACE_CONTROL1 ;;
              dw_hdmi_qp_mod (hd 0 (buf m)) I2CM_SEG_PTR I2CM_INTERFACE_CONTROL1 ;;
              ret (ret0, m)
            else spec_msg addressed m) ;;
      if fst x <? 0 then ret (fst x, snd x :: rest)
      else
        y <- spec_xfer_loop (if segment then addressed else true) rest (fst x) ;;
        ret (fst y, snd x :: snd y)
  end.

End Model.

(** ** The callbacks of the connector and of the bridge *)

Definition set_disabled (b : bool) (h : dw_hdmi) : dw_hdmi :=
  {| regm := regm h; i2c := i2c h; version := version h;
     hdmi_data := hdmi_data h; use_drm_infoframe := use_drm_infoframe h;
     hdr_sink_eotf := hdr_sink_eotf h; vic := vic h;
     phy_enabled := phy_enabled h; previous_mode := previous_mode h;
     sink_is_hdmi := sink_is_hdmi h; force := force h;
     curr_conn := curr_conn h; disabled := b;
     bridge_is_on := bridge_is_on h; rxsense := rxsense h; log := log h |}.

Definition set_curr_conn (c : option drm_connector) (h : dw_hdmi) : dw_hdmi :=
  {| regm := regm h; i2c := i2c h; version := version h;
     hdmi_data := hdmi_data h; use_drm_infoframe := use_drm_infoframe h;
     hdr_sink_eotf := hdr_sink_eotf h; vic := vic h;
     phy_enabled := phy_enabled h; previous_mode := previous_mode h;
     sink_is_hdmi := sink_is_hdmi h; force := force h;
     curr_conn := c; disabled := disabled h;
     bridge_is_on := bridge_is_on h; rxsense := rxsense h; log := log h |}.

(** What the callbacks use beside the fields of the device above: the mutex
    [hdmi->mutex] of struct dw_hdmi, which protects the lifecycle fields
    ([mutex] tells whether it is held), and the notifications made through
    dw_handle_plugged_change, newest first. The callbacks run on a world that
    carries them beside the hardware. *)
Record dw_hdmi_sync := {
  mutex : bool;
  plugged : list bool;
}.

(** The hardware, the sink and the PHY act on their part of such a world. *)
Definition env_beside {E : Type} (Ev : Env E) : Env (E * dw_hdmi_sync) := {|
  irq_window := fun w r =>
    (fst (fst (irq_window (fst w) r)), snd w, snd (fst (irq_window (fst w) r)),
     snd (irq_window (fst w) r));
  phy_ops_init := fun w di m =>
    (fst (phy_ops_init (fst w) di m), (snd (phy_ops_init (fst w) di m), snd w));
  phy_ops_disable := fun w => (phy_ops_disable (fst w), snd w);
  phy_ops_setup_hpd := option_map (fun f w => (f (fst w), snd w)) phy_ops_setup_hpd;
  scdc_sink_version := fun w => scdc_sink_version (fst w);
|}.

Section Callbacks.
Context {Hd : Headers} {E : Type} {Ev : Env E} {Cm : Common}.

Definition sync (f : dw_hdmi_sync -> dw_hdmi_sync) : M (E * dw_hdmi_sync) unit :=
  fun w => Some (tt, (fst w, (fst (snd w), f (snd (snd w))))).

(** Modelled from the spec: mutex_lock and mutex_unlock on [hdmi->mutex]; a
    callback is followed on its own, so the mutex is free when it is
    taken. *)
Definition hdmi_mutex_lock : M (E * dw_hdmi_sync) unit :=
  sync (fun k => {| mutex := true; plugged := plugged k |}).
Definition hdmi_mutex_unlock : M (E * dw_hdmi_sync) unit :=
  sync (fun k => {| mutex := false; plugged := plugged k |}).

(** Modelled from the spec: dw_handle_plugged_change of dw-hdmi-common.h,
    whose body is not among the sources at hand: the notification of the
    audio codec that the sink is, or is no longer, plugged. The call is
    recorded with its argument. *)
Definition dw_handle_plugged_change (p : bool) : M (E * dw_hdmi_sync) unit :=
  sync (fun k => {| mutex := mutex k; plugged := p :: plugged k |}).

(** dw_hdmi_qp_connector_force; the connector is the one embedded in the
    device, and [connector_force] is its field [force]. *)
Definition dw_hdmi_qp_connector_force (connector_force : drm_connector_force)
  : M (E * dw_hdmi_sync) unit :=
  hdmi_mutex_lock ;;
  modify (set_force connector_force) ;;
  dw_hdmi_qp_update_power (Ev := env_beside Ev) ;;
  hdmi_mutex_unlock.

Definition dw_hdmi_qp_bridge_atomic_disable : M (E * dw_hdmi_sync) unit :=
  hdmi_mutex_lock ;;
  modify (set_disabled true) ;;
  modify (set_curr_conn None) ;;
  dw_hdmi_qp_update_power (Ev := env_beside Ev) ;;
  dw_handle_plugged_change false ;;
  hdmi_mutex_unlock.

(** dw_hdmi_qp_bridge_atomic_enable; [connector] is what
    drm_atomic_get_new_connector_for_encoder has found, null or not. *)
Definition dw_hdmi_qp_bridge_atomic_enable (connector : option drm_connector)
  : M (E * dw_hdmi_sync) unit :=
  hdmi_mutex_lock ;;
  modify (set_disabled false) ;;
  modify (set_curr_conn connector) ;;
  dw_hdmi_qp_update_power (Ev := env_beside Ev) ;;
  dw_handle_plugged_change true ;;
  hdmi_mutex_unlock.

(** dw_hdmi_qp_resume. *)
Definition dw_hdmi_qp_resume : M E unit := dw_hdmi_qp_init_hw.

End Callbacks.

(** ** A concrete platform to run the model on

    One register layout, one sink and one set of helper functions, on which
    the definitions above can be evaluated. The theorems below do not depend
    on them: they hold for every [Headers], [Env] and [Common], under the
    hypotheses they state. *)

Definition sample_headers : Headers := {|
  I2CM_FM_SCL_CONFIG0 := 0xe4;
  I2CM_CONTROL0 := 0xec;
  I2CM_INTERFACE_CONTROL0 := 0xf4;
  I2CM_ADDR := 0xff000;
  I2CM_SLVADDR := 0xfe0;
  I2CM_WR_MASK := 0x1e;
  I2CM_FM_READ := BIT 2;
  I2CM_FM_WRITE := BIT 1;
  I2CM_FM_EN := BIT 0;
  I2CM_INTERFACE_CONTROL1 := 0xf8;
  I2CM_SEG_PTR := 0x7f80;
  I2CM_SEG_ADDR := 0x7f;
  I2CM_INTERFACE_WRDATA_0_3 := 0xfc;
  I2CM_INTERFACE_RDDATA_0_3 := 0x10c;
  MAINUNIT_0_INT_MASK_N := 0x184;
  MAINUNIT_1_INT_STATUS := 0x190;
  MAINUNIT_1_INT_MASK_N := 0x194;
  MAINUNIT_1_INT_CLEAR := 0x198;
  I2CM_READ_REQUEST_IRQ := BIT 2;
  I2CM_OP_DONE_IRQ := BIT 1;
  I2CM_NACK_RCVD_IRQ := BIT 0;
  I2CM_OP_DONE_MASK_N := BIT 1;
  I2CM_NACK_RCVD_MASK_N := BIT 0;
  I2CM_OP_DONE_CLEAR := BIT 1;
  I2CM_NACK_RCVD_CLEAR := BIT 0;
  TIMER_BASE_CONFIG0 := 0x80;
  LINK_CONFIG0 := 0x968;
  OPMODE_DVI := BIT 16;
  HDCP2LOGIC_CONFIG0 := 0x804;
  HDCP2_BYPASS := BIT 0;
  SCRAMB_CONFIG0 := 0x960;
  PKTSCHED_PKT_CONFIG1 := 0xa90;
  PKTSCHED_AVI_FIELDRATE := BIT 12;
  PKTSCHED_DRMI_FIELDRATE := BIT 13;
  PKTSCHED_PKT_EN := 0xaa8;
  PKTSCHED_AVI_TX_EN := BIT 13;
  PKTSCHED_GCP_TX_EN := BIT 3;
  PKTSCHED_DRMI_TX_EN := BIT 17;
  PKT_AVI_CONTENTS0 := 0xba0;
  PKT_AVI_CONTENTS1 := 0xba4;
  PKT_DRMI_CONTENTS0 := 0xc24;
  PKT_DRMI_CONTENTS1 := 0xc28;
  DDC_ADDR := 0x50;
  I2C_M_RD := 0x0001;
  DRM_MODE_FLAG_DBLCLK := BIT 12;
  HDMI_SCAN_MODE_NONE := 0;
  SCDC_SINK_VERSION := 0x01;
  SCDC_SOURCE_VERSION := 0x02;
|}.

(** A sink that acknowledges every operation and whose register [r] holds
    [c0 + r] (modulo 256), [c0] being the content of its register 0: on a
    read command the controller fills the read-data register from the
    addressed sink register and latches "operation done"; on a write command
    it latches "operation done"; without a command it stays silent. The
    state of this world is [c0]. *)
Definition sink_window {Hd : Headers} (c0 : Z) (r : gmap Z Z) : Z * gmap Z Z * bool :=
  let ctrl := default 0 (r !! I2CM_INTERFACE_CONTROL0) in
  if Z.land ctrl I2CM_WR_MASK =? I2CM_FM_READ then
    (c0, <[MAINUNIT_1_INT_STATUS := I2CM_OP_DONE_IRQ]>
           (<[I2CM_INTERFACE_RDDATA_0_3 :=
                u8 (c0 + Z.shiftr (Z.land ctrl I2CM_ADDR) 12)]> r), true)
  else if Z.land ctrl I2CM_WR_MASK =? I2CM_FM_WRITE then
    (c0, <[MAINUNIT_1_INT_STATUS := I2CM_OP_DONE_IRQ]> r, true)
  else (c0, <[MAINUNIT_1_INT_STATUS := 0]> r, false).

(** The same sink with a PHY whose init returns [phy_ret]. *)
Definition sink_env {Hd : Headers} (phy_ret : Z) : Env Z := {|
  irq_window := sink_window;
  phy_ops_init := fun e _ _ => (phy_ret, e);
  phy_ops_disable := fun e => e;
  phy_ops_setup_hpd := None;
  scdc_sink_version := fun _ => 1;
|}.

(** A controller that never raises an interrupt. *)
Definition silent_env : Env unit := {|
  irq_window := fun e r => (e, r, false);
  phy_ops_init := fun e _ _ => (0, e);
  phy_ops_disable := fun e => e;
  phy_ops_setup_hpd := None;
  scdc_sink_version := fun _ => 0;
|}.

Definition sample_avi_frame : hdmi_avi_infoframe := {|
  avi_type := 0x82; avi_version := 2; avi_length := 13; avi_itc := 0;
  avi_pixel_repeat := 0; avi_colorspace := 0; avi_scan_mode := 0;
  avi_colorimetry := 0; avi_picture_aspect := 0; avi_active_aspect := 0;
  avi_extended_colorimetry := 0; avi_quantization_range := 0; avi_nups := 0;
  avi_video_code := 0; avi_ycc_quantization_range := 0; avi_content_type := 0;
  avi_top_bar := 0; avi_bottom_bar := 0; avi_left_bar := 0; avi_right_bar := 0;
|}.

(** Helper functions for the sample platform: the display info is 1 for a
    sink with SCDC and 0 without, the TMDS clock is the mode clock in Hz, and
    the packed AVI buffer carries the header and the video code. *)
Definition sample_common : Common := {|
  dw_hdmi_support_scdc := fun _ di => negb (di =? 0);
  dw_hdmi_prep_avi_infoframe := fun _ _ _ => sample_avi_frame;
  dw_hdmi_prep_vmode := fun h mode =>
    {| mdataenablepolarity := true; mpixelclock := mode_clock mode * 1000;
       mpixelrepetitioninput := mpixelrepetitioninput (video_mode (hdmi_data h));
       mpixelrepetitionoutput := mpixelrepetitionoutput (video_mode (hdmi_data h));
       mtmdsclock := mode_clock mode * 1000 |};
  dw_hdmi_prep_data := fun h _ => (vic h, hdmi_data h);
  hdmi_avi_infoframe_pack_only := fun f =>
    [avi_type f; avi_version f; avi_length f; 0; Z.shiftl (avi_colorspace f) 5;
     0; 0; Z.land (avi_video_code f) 0x7f; 0; 0; 0; 0; 0; 0; 0; 0; 0];
  drm_hdmi_infoframe_set_hdr_metadata := fun _ => None;
  hdmi_drm_infoframe_pack := fun _ => None;
|}.

Definition sample_i2c : dw_hdmi_i2c :=
  {| lock := false; cmp := false; stat := 0; slave_reg := 0;
     is_regaddr := false; is_segment := false |}.

Definition sample_vmode : hdmi_vmode :=
  {| mdataenablepolarity := false; mpixelclock := 0; mpixelrepetitioninput := 0;
     mpixelrepetitionoutput := 0; mtmdsclock := 0 |}.

Definition sample_data : hdmi_data_info :=
  {| enc_in_bus_format := 0; enc_out_bus_format := 0; enc_in_encoding := 0;
     enc_out_encoding := 0; pix_repet_factor := 0; hdcp_enable := 0;
     video_mode := sample_vmode; rgb_limited_range := false |}.

(** A bound, enabled device with VIC [v], a connector whose display info is
    [di], a previous mode of clock [khz] (in kHz), the bridge off and no
    register written yet. *)
Definition sample_hdmi (v di khz : Z) : dw_hdmi :=
  {| regm := ∅; i2c := sample_i2c; version := 0x200a; hdmi_data := sample_data;
     use_drm_infoframe := false; hdr_sink_eotf := 0; vic := v;
     phy_enabled := false;
     previous_mode := {| mode_clock := khz; mode_flags := 0 |};
     sink_is_hdmi := true; force := DRM_FORCE_UNSPECIFIED;
     curr_conn := Some {| display_info := di; hdr_output_metadata := None |};
     disabled := false; bridge_is_on := false; rxsense := true; log := [] |}.

Definition sample_connector (di : Z) : drm_connector :=
  {| display_info := di; hdr_output_metadata := None |}.

Definition sample_mode (khz : Z) : drm_display_mode :=
  {| mode_clock := khz; mode_flags := 0 |}.

(** The two messages of a register read: the register address, then the
    data. *)
Definition sample_msgs (a : Z) (rd_flags : Z) (reg : Z) (data : list Z) : list i2c_msg :=
  [ {| addr := a; flags := 0; buf := [reg] |};
    {| addr := a; flags := rd_flags; buf := data |} ].

(** A read buffer of 8 bytes and a packed AVI buffer of 17. *)
Definition zeros8 : list Z := [0; 0; 0; 0; 0; 0; 0; 0].

Definition sample_buf : list Z :=
  [0x82; 2; 13; 0; 5; 0; 0; 16; 0; 0; 0; 0; 0; 0; 0; 0; 0].

(** ** Sums of bytes *)

Definition byte_sum (l : list Z) : Z := foldr Z.add 0 l.

(** ** Predicates on logs

    Used to state what a run of the transaction engine has done. *)

Definition not_wait (ev : event) : Prop := forall b, ev <> EvWait b.
Definition not_timeout (ev : event) : Prop := ev <> EvWait false.
Definition not_mutex (ev : event) : Prop := ev <> EvMutexLock /\ ev <> EvMutexUnlock.

Section Outcome.
Context {Hd : Headers}.

(** How a byte-wise sequence ends: all bytes done; a NACK; or a timeout, which
    is the last wait of the sequence and is followed by the reset of the
    command register. *)
Inductive i2c_outcome (r : Z) (new : list event) : Prop :=
| oc_done : r = 0 -> Forall not_timeout new -> i2c_outcome r new
| oc_nack : r = - EIO -> Forall not_timeout new -> i2c_outcome r new
| oc_timeout (older : list event) :
    r = - EAGAIN ->
    new = EvWrite I2CM_CONTROL0 1 :: EvWait false :: older ->
    Forall not_timeout older -> i2c_outcome r new.

(** The frame of a step of the engine: the log grows by [new], which holds no
    mutex event, and the mutex is as it was. *)
Definition i2c_frame (h h' : dw_hdmi) (new : list event) : Prop :=
  log h' = new ++ log h /\ Forall not_mutex new /\ lock (i2c h') = lock (i2c h).

End Outcome.

(** What the scenario with the sink needs of the register layout. *)
Class SinkLayout (Hd : Headers) : Prop := {
  wr_mask_u32 : 0 <= I2CM_WR_MASK < 2 ^ 32;
  addr_mask_u32 : 0 <= I2CM_ADDR < 2 ^ 32;
  fm_read_in_mask : Z.land I2CM_FM_READ I2CM_WR_MASK = I2CM_FM_READ;
  addr_mask_disjoint : Z.land I2CM_ADDR I2CM_WR_MASK = 0;
  addr_field : forall r, 0 <= r < 256 -> Z.land (Z.shiftl r 12) I2CM_ADDR = Z.shiftl r 12;
  done_irq_u8 : 0 < I2CM_OP_DONE_IRQ < 256;
  done_not_nack : Z.land I2CM_OP_DONE_IRQ I2CM_NACK_RCVD_IRQ = 0;
  rddata_not_status : I2CM_INTERFACE_RDDATA_0_3 <> MAINUNIT_1_INT_STATUS;
  rddata_not_clear : I2CM_INTERFACE_RDDATA_0_3 <> MAINUNIT_1_INT_CLEAR;
  rd_flag : I2C_M_RD <> 0;
}.

(** The bytes of [n] sink registers from register [r] on; the register
    pointer wraps at 256. *)
Fixpoint incrementing (c0 r : Z) (n : nat) : list Z :=
  match n with
  | O => []
  | S n' => u8 (c0 + r) :: incrementing c0 (u8 (r + 1)) n'
  end.

(** A register access, as opposed to a call that leaves the driver. *)
Definition reg_event (ev : event) : Prop :=
  match ev with
  | EvWrite _ _ | EvRead _ | EvUpdateBits _ _ _ => True
  | _ => False
  end.

(** ** More of the sample platform *)

(** A sink that answers every operation with a NACK. *)
Definition nack_env {Hd : Headers} : Env unit := {|
  irq_window := fun e r => (e, <[MAINUNIT_1_INT_STATUS := I2CM_NACK_RCVD_IRQ]> r, true);
  phy_ops_init := fun e _ _ => (0, e);
  phy_ops_disable := fun e => e;
  phy_ops_setup_hpd := None;
  scdc_sink_version := fun _ => 0;
|}.

(** The device of [sample_hdmi] behind a sink that is not HDMI, and the same
    device on a platform with the DRM infoframe and a sink that supports the
    EOTF 2. *)
Definition sample_dvi (v di khz : Z) : dw_hdmi :=
  {| regm := ∅; i2c := sample_i2c; version := 0x200a; hdmi_data := sample_data;
     use_drm_infoframe := false; hdr_sink_eotf := 0; vic := v;
     phy_enabled := false;
     previous_mode := {| mode_clock := khz; mode_flags := 0 |};
     sink_is_hdmi := false; force := DRM_FORCE_UNSPECIFIED;
     curr_conn := Some {| display_info := di; hdr_output_metadata := None |};
     disabled := false; bridge_is_on := false; rxsense := true; log := [] |}.

Definition sample_hdr (v di khz : Z) : dw_hdmi :=
  {| regm := ∅; i2c := sample_i2c; version := 0x200a; hdmi_data := sample_data;
     use_drm_infoframe := true; hdr_sink_eotf := BIT 2; vic := v;
     phy_enabled := false;
     previous_mode := {| mode_clock := khz; mode_flags := 0 |};
     sink_is_hdmi := true; force := DRM_FORCE_UNSPECIFIED;
     curr_conn := Some {| display_info := di; hdr_output_metadata := Some 2 |};
     disabled := false; bridge_is_on := false; rxsense := true; log := [] |}.

Definition sample_hdr_connector (di : Z) : drm_connector :=
  {| display_info := di; hdr_output_metadata := Some 2 |}.

(** A DRM infoframe of version 1 and length 26 and its packed buffer of 30
    bytes: the header, the checksum, then the EOTF and the metadata. *)
Definition sample_drm_frame : hdmi_drm_infoframe :=
  {| drmi_version := 1; drmi_length := 26; drmi_eotf := 2 |}.

Definition sample_drm_buffer : list Z :=
  [0x87; 1; 26; 0x3f; 2; 0; 0x10; 0x27; 0x20; 0x4e; 0x30; 0x75; 0x40; 0x9c; 0x50; 0xc3;
   0x60; 0xea; 0x70; 0x11; 0x80; 0x38; 0xe8; 0x03; 0x05; 0x00; 0xe8; 0x03; 0x90; 0x01].

(** The helper functions of [sample_common] with the two DRM infoframe
    helpers succeeding. *)
Definition sample_common_hdr : Common := {|
  dw_hdmi_support_scdc := fun _ di => negb (di =? 0);
  dw_hdmi_prep_avi_infoframe := fun _ _ _ => sample_avi_frame;
  dw_hdmi_prep_vmode := fun h mode =>
    {| mdataenablepolarity := true; mpixelclock := mode_clock mode * 1000;
       mpixelrepetitioninput := mpixelrepetitioninput (video_mode (hdmi_data h));
       mpixelrepetitionoutput := mpixelrepetitionoutput (video_mode (hdmi_data h));
       mtmdsclock := mode_clock mode * 1000 |};
  dw_hdmi_prep_data := fun h _ => (vic h, hdmi_data h);
  hdmi_avi_infoframe_pack_only := fun f =>
    [avi_type f; avi_version f; avi_length f; 0; Z.shiftl (avi_colorspace f) 5;
     0; 0; Z.land (avi_video_code f) 0x7f; 0; 0; 0; 0; 0; 0; 0; 0; 0];
  drm_hdmi_infoframe_set_hdr_metadata := fun _ => Some sample_drm_frame;
  hdmi_drm_infoframe_pack := fun _ => Some sample_drm_buffer;
|}.

(** The mutex of the device free and no notification made yet. *)
Definition sample_sync : dw_hdmi_sync := {| mutex := false; plugged := [] |}.

(** ** What the further properties are stated with *)

(** A value that fits an unsigned char. *)
Definition is_byte (b : Z) : Prop := 0 <= b < 256.

(** The number of waits in a log: one for each bus operation started. *)
Fixpoint waits (l : list event) : nat :=
  match l with
  | [] => 0
  | EvWait _ :: l' => S (waits l')
  | _ :: l' => waits l'
  end.

(** The values written to register [reg], first write first. *)
Fixpoint written (reg : Z) (l : list event) : list Z :=
  match l with
  | [] => []
  | EvWrite r v :: l' => if r =? reg then written reg l' ++ [v] else written reg l'
  | _ :: l' => written reg l'
  end.

Section Detail.
Context {Hd : Headers}.

(** What the interrupt handler does to the registers. *)
Definition irq_event (ev : event) : Prop :=
  ev = EvRead MAINUNIT_1_INT_STATUS \/ exists v : Z, ev = EvWrite MAINUNIT_1_INT_CLEAR v.

(** The full-register writes of a transfer that goes well: a data byte, or
    the acknowledgement of an interrupt by the handler. *)
Definition data_or_ack (ev : event) : Prop :=
  match ev with
  | EvWrite reg _ => reg = I2CM_INTERFACE_WRDATA_0_3 \/ reg = MAINUNIT_1_INT_CLEAR
  | _ => True
  end.

(** How a byte-wise sequence ends, with what it leaves behind: all bytes
    done; a NACK latched by the handler for the last operation, which had
    completed; or a timeout of the last operation. The two failures are
    followed by the reset of the command register. *)
Inductive i2c_detail (h' : dw_hdmi) (r : Z) (new : list event) : Prop :=
| od_done : r = 0 -> Forall data_or_ack new -> i2c_detail h' r new
| od_nack (older : list event) :
    r = - EIO ->
    new = EvWrite I2CM_CONTROL0 1 :: EvWait true :: older ->
    Z.land (stat (i2c h')) I2CM_NACK_RCVD_IRQ <> 0 ->
    i2c_detail h' r new
| od_timeout (older : list event) :
    r = - EAGAIN ->
    new = EvWrite I2CM_CONTROL0 1 :: EvWait false :: older ->
    i2c_detail h' r new.

(** What a transfer may change of a message: the contents of the buffer of a
    read message, not its length; nothing of a write message. *)
Definition msg_frame (m m' : i2c_msg) : Prop :=
  addr m' = addr m /\ flags m' = flags m /\ length (buf m') = length (buf m) /\
  (Z.land (flags m) I2C_M_RD = 0 -> m' = m).

(** The bus operations that the messages of a transfer ask for: one for each
    byte of a read message and of a write message, but for the first byte of
    the first write when no read or write came before it in the transfer
    ([addressed] tells whether one did), which is the register address; none
    for a segment pointer message. *)
Fixpoint bus_bytes (addressed : bool) (msgs : list i2c_msg) : nat :=
  match msgs with
  | [] => 0
  | m :: rest =>
      if (addr m =? DDC_SEGMENT_ADDR) && (len m =? 1) then bus_bytes addressed rest
      else if negb (Z.land (flags m) I2C_M_RD =? 0) then
        (length (buf m) + bus_bytes true rest)%nat
      else
        ((if addressed then length (buf m) else length (buf m) - 1)
         + bus_bytes true rest)%nat
  end.

End Detail.

(** ** The power state the lifecycle fields ask for

    The decision of dw_hdmi_qp_update_power as a table: off when the bridge
    is disabled; as forced when a state is forced; and as the receiver sense
    tells otherwise. *)
Definition power_wanted (h : dw_hdmi) : bool :=
  negb (disabled h) &&
  match force h with
  | DRM_FORCE_UNSPECIFIED => rxsense h
  | DRM_FORCE_OFF => false
  | DRM_FORCE_ON | DRM_FORCE_ON_DIGITAL => true
  end.

(** A call into the PHY. *)
Definition phy_event (ev : event) : Prop :=
  match ev with
  | EvPhyInit _ | EvPhyDisable | EvPhySetupHpd => True
  | _ => False
  end.

(** Two states of the device that differ at most in the register space and
    the log. *)
Definition regs_only (h h' : dw_hdmi) : Prop :=
  h' = {| regm := regm h'; i2c := i2c h; version := version h;
          hdmi_data := hdmi_data h; use_drm_infoframe := use_drm_infoframe h;
          hdr_sink_eotf := hdr_sink_eotf h; vic := vic h;
          phy_enabled := phy_enabled h; previous_mode := previous_mode h;
          sink_is_hdmi := sink_is_hdmi h; force := force h;
          curr_conn := curr_conn h; disabled := disabled h;
          bridge_is_on := bridge_is_on h; rxsense := rxsense h; log := log h' |}.

(** The fields that the power management keeps: everything but the register
    space, the log, the video descriptor and the PHY flag. *)
Definition lifecycle_kept (h h' : dw_hdmi) : Prop :=
  i2c h' = i2c h /\ version h' = version h /\
  use_drm_infoframe h' = use_drm_infoframe h /\ hdr_sink_eotf h' = hdr_sink_eotf h /\
  previous_mode h' = previous_mode h /\ sink_is_hdmi h' = sink_is_hdmi h /\
  force h' = force h /\ curr_conn h' = curr_conn h /\ disabled h' = disabled h /\
  rxsense h' = rxsense h.

(** What the lifecycle keeps: the PHY is enabled only while the bridge is on,
    and a bridge that is not disabled has a connector. *)
Definition lifecycle_inv (h : dw_hdmi) : Prop :=
  (phy_enabled h = true -> bridge_is_on h = true) /\
  (disabled h = false -> curr_conn h <> None).

(** ** Payload bytes in packet registers

    These definitions follow the words of the hardware packet format, not the
    code: the value of a sequence of bytes read as a little-endian number,
    and the register writes that carry a payload four bytes to a register,
    little-endian, to consecutive registers from [base + q * 4] on, first
    write first. *)
Fixpoint le_bytes (l : list Z) : Z :=
  match l with
  | [] => 0
  | b :: l' => b + 256 * le_bytes l'
  end.

Fixpoint payload_words (fuel : nat) (base q : Z) (p : list Z) : list event :=
  match fuel, p with
  | S fuel', _ :: _ =>
      EvWrite (base + q * 4) (le_bytes (take 4 p))
      :: payload_words fuel' base (q + 1) (drop 4 p)
  | _, _ => []
  end.

(** The registers that dw_hdmi_qp_init_hw programs. *)
Definition init_hw_registers {Hd : Headers} : list Z :=
  [MAINUNIT_0_INT_MASK_N; MAINUNIT_1_INT_MASK_N; TIMER_BASE_CONFIG0; I2CM_CONTROL0;
   I2CM_FM_SCL_CONFIG0; I2CM_INTERFACE_CONTROL0; MAINUNIT_1_INT_CLEAR].

(** * Properties *)

(** ** The infoframe checksum *)

Lemma byte_sum_app (l1 l2 : list Z) : byte_sum (l1 ++ l2) = byte_sum l1 + byte_sum l2.
Proof. induction l1 as [|x l1 IH]; simpl; [reflexivity | rewrite IH; lia]. Qed.

Lemma byte_at_drop (l : list Z) (k : nat) :
  byte_at l (Z.of_nat k) + byte_sum (drop (S k) l) = byte_sum (drop k l).
Proof.
  unfold byte_at. rewrite Nat2Z.id.
  revert k. induction l as [|x l IH]; intros k.
  - destruct k; reflexivity.
  - destruct k as [|k]; simpl.
    + rewrite drop_0. reflexivity.
    + apply IH.
Qed.

Lemma byte_sum_split (l : list Z) (k : nat) :
  byte_sum l = byte_sum (take k l) + byte_at l (Z.of_nat k) + byte_sum (drop (S k) l).
Proof.
  rewrite <- (take_drop k l) at 1. rewrite byte_sum_app, <- byte_at_drop. lia.
Qed.

Lemma byte_sum_take_S (l : list Z) (k : nat) :
  byte_sum (take (S k) l) = byte_sum (take k l) + byte_at l (Z.of_nat k).
Proof.
  unfold byte_at. rewrite Nat2Z.id.
  revert k. induction l as [|x l IH]; intros k.
  - destruct k; reflexivity.
  - destruct k as [|k].
    + simpl. destruct l; simpl; lia.
    + change (take (S (S k)) (x :: l)) with (x :: take (S k) l).
      change (take (S k) (x :: l)) with (x :: take k l).
      simpl byte_sum. rewrite IH. simpl. lia.
Qed.

(** The loop adds up the bytes it visits, modulo 256. *)
Lemma csum_loop_sum (ptr : list Z) (n k : nat) (c : Z) :
  csum_loop ptr (Z.of_nat k) n c mod 256
  = (c + (byte_sum (take (k + n) ptr) - byte_sum (take k ptr))) mod 256.
Proof.
  revert k c. induction n as [|n IH]; intros k c.
  - simpl. rewrite Nat.add_0_r. f_equal. lia.
  - simpl csum_loop.
    replace (Z.of_nat k + 1) with (Z.of_nat (S k)) by lia.
    rewrite IH. unfold u8.
    replace (S k + n)%nat with (k + S n)%nat by lia.
    rewrite (byte_sum_take_S ptr k).
    rewrite Zplus_mod_idemp_l. f_equal. lia.
Qed.

Lemma byte_sum_take_insert (l : list Z) (i n : nat) (v : Z) :
  (i < n)%nat -> (i < length l)%nat ->
  byte_sum (take n (<[i := v]> l)) = byte_sum (take n l) - byte_at l (Z.of_nat i) + v.
Proof.
  unfold byte_at. rewrite Nat2Z.id.
  revert i n. induction l as [|x l IH]; intros i n Hin Hil.
  - simpl in Hil. lia.
  - destruct n as [|n]; [lia|]. destruct i as [|i]; simpl.
    + lia.
    + rewrite IH by (simpl in Hil; lia). lia.
Qed.

Lemma byte_at_insert_eq (l : list Z) (i : nat) (v : Z) :
  (i < length l)%nat -> byte_at (<[i := v]> l) (Z.of_nat i) = v.
Proof.
  intros H. unfold byte_at.
  rewrite Nat2Z.id, list_lookup_insert_eq by exact H. reflexivity.
Qed.

Lemma byte_at_insert_ne (l : list Z) (i j : nat) (v : Z) :
  i <> j -> byte_at (<[i := v]> l) (Z.of_nat j) = byte_at l (Z.of_nat j).
Proof.
  intros H. unfold byte_at.
  rewrite Nat2Z.id, list_lookup_insert_ne by exact H. reflexivity.
Qed.

(** The byte stored at offset 3, when the sum reaches it. *)
Lemma checksum_value (ptr : list Z) (size : Z) :
  4 <= size -> (3 < length ptr)%nat ->
  byte_at (hdmi_infoframe_set_checksum ptr size) 3
  = (256 - byte_sum (take (Z.to_nat size) (<[3%nat := 0]> ptr))) mod 256.
Proof.
  intros Hs Hl. unfold hdmi_infoframe_set_checksum.
  change 3 with (Z.of_nat 3) at 1.
  rewrite byte_at_insert_eq by (rewrite length_insert; exact Hl).
  unfold u8.
  pose proof (csum_loop_sum (<[3%nat := 0]> ptr) (Z.to_nat size) 0 0) as H.
  change (Z.of_nat 0) with 0 in H.
  rewrite Nat.add_0_l in H. change (take 0 (<[3%nat:=0]> ptr)) with (@nil Z) in H.
  change (byte_sum []) with 0 in H.
  rewrite Z.add_0_l, Z.sub_0_r in H.
  rewrite <- Zminus_mod_idemp_r, H, Zminus_mod_idemp_r. reflexivity.
Qed.

(** C6, as amended: for every buffer and every size from 4 up to the length of
    the buffer, after hdmi_infoframe_set_checksum the first [size] bytes add
    up to 0 modulo 256 (the whole buffer when [size] is its length, as in the
    one call of the driver, with 17). *)
Theorem hdmi_infoframe_set_checksum_sum (ptr : list Z) (size : Z) :
  4 <= size -> size <= Z.of_nat (length ptr) ->
  byte_sum (take (Z.to_nat size) (hdmi_infoframe_set_checksum ptr size)) mod 256 = 0.
Proof.
  intros Hs Hl.
  assert (Hlen : (3 < length ptr)%nat) by lia.
  pose proof (checksum_value ptr size Hs Hlen) as Hv.
  unfold hdmi_infoframe_set_checksum in *.
  set (p0 := <[3%nat := 0]> ptr) in *.
  set (c := csum_loop p0 0 (Z.to_nat size) 0) in *.
  assert (Hl0 : (3 < length p0)%nat) by (unfold p0; rewrite length_insert; exact Hlen).
  rewrite byte_sum_take_insert by (try exact Hl0; lia).
  change (Z.of_nat 3) with 3.
  replace (byte_at p0 3) with 0
    by (unfold p0; change 3 with (Z.of_nat 3); rewrite byte_at_insert_eq;
        [reflexivity|exact Hlen]).
  change 3 with (Z.of_nat 3) in Hv. rewrite byte_at_insert_eq in Hv by exact Hl0.
  rewrite Hv.
  rewrite Z.sub_0_r, Zplus_mod_idemp_r.
  replace (byte_sum (take (Z.to_nat size) p0) + (256 - byte_sum (take (Z.to_nat size) p0)))
    with (1 * 256) by lia.
  apply Z_mod_mult.
Qed.

(** ** The AVI infoframe *)

Section AVI.
Context {Hd : Headers} {Cm : Common}.

(** C7: when the VIC is 128 or more, the buffer hdmi_config_AVI has packed when
    it writes the registers is 17 bytes long, its version byte is 3 (as is
    the version of the frame), its byte 7 is the VIC as [frame.video_code]
    holds it, an unsigned char: the VIC itself for every VIC up to 255, and
    all VICs are (a VIC is one byte of the infoframe); and its byte 3 is 256
    minus the sum of the 16 other bytes, modulo 256. The hypothesis on
    hdmi_avi_infoframe_pack_only says that it fills the 17-byte buffer it is
    given. *)
Theorem hdmi_config_AVI_extended_vic (h : dw_hdmi) (connector : drm_connector)
    (mode : drm_display_mode) :
  128 <= vic h ->
  (forall f, length (hdmi_avi_infoframe_pack_only f) = 17%nat) ->
  let frame := fst (hdmi_config_AVI_pack h connector mode) in
  let buf := snd (hdmi_config_AVI_pack h connector mode) in
  length buf = 17%nat /\
  avi_version frame = 3 /\
  byte_at buf 1 = 3 /\
  byte_at buf 7 = u8 (vic h) /\
  (vic h <= 255 -> byte_at buf 7 = vic h) /\
  byte_at buf 3 = (256 - (byte_sum (take 3 buf) + byte_sum (drop 4 buf))) mod 256.
Proof.
  intros Hlo Hlen. unfold hdmi_config_AVI_pack.
  destruct (Z.geb_spec (vic h) 128) as [_|Hc]; [|lia].
  cbv zeta.
  set (f0 := set_avi_scan_video HDMI_SCAN_MODE_NONE (vic h)
               (dw_hdmi_prep_avi_infoframe h connector mode)).
  set (b0 := hdmi_avi_infoframe_pack_only f0).
  assert (H0 : length b0 = 17%nat) by apply Hlen.
  set (b1 := <[1%nat := avi_version (set_avi_version 3 f0)]> b0).
  set (b2 := <[4%nat := Z.land (byte_at b1 4) 31]> b1).
  set (b3 := <[4%nat := u8 (Z.lor (byte_at b2 4)
                (Z.shiftl (Z.land (avi_colorspace (set_avi_version 3 f0)) 7) 5))]> b2).
  set (b4 := <[7%nat := avi_video_code (set_avi_version 3 f0)]> b3).
  assert (H4 : length b4 = 17%nat)
    by (unfold b4, b3, b2, b1; rewrite !length_insert; exact H0).
  simpl fst. simpl snd.
  assert (Hv : byte_at (hdmi_infoframe_set_checksum b4 17) 3
               = (256 - byte_sum (take 17 (<[3%nat := 0]> b4))) mod 256)
    by (apply (checksum_value b4 17); lia).
  unfold hdmi_infoframe_set_checksum in *.
  set (c := csum_loop (<[3%nat:=0]> b4) 0 (Z.to_nat 17) 0) in *.
  split; [rewrite !length_insert; exact H4|].
  split; [reflexivity|].
  split.
  { change 1 with (Z.of_nat 1). rewrite !byte_at_insert_ne by lia.
    unfold b4, b3, b2. rewrite !byte_at_insert_ne by lia.
    unfold b1. rewrite byte_at_insert_eq by lia. reflexivity. }
  assert (H7 : byte_at (<[3%nat:=u8 (256 - c)]> (<[3%nat:=0]> b4)) 7 = u8 (vic h)).
  { change 7 with (Z.of_nat 7). rewrite !byte_at_insert_ne by lia.
    unfold b4. rewrite byte_at_insert_eq
      by (unfold b3, b2, b1; rewrite !length_insert; lia).
    reflexivity. }
  split; [exact H7|].
  split; [intros Hhi; rewrite H7; unfold u8; apply Z.mod_small; lia|].
  rewrite Hv.
  rewrite take_ge by (rewrite length_insert; lia).
  rewrite (byte_sum_split (<[3%nat:=0]> b4) 3).
  rewrite byte_at_insert_eq by lia.
  rewrite !take_insert_ge, !drop_insert_lt by lia.
  f_equal. lia.
Qed.

End AVI.

(** ** The transaction engine: what every run does *)

Lemma log_nil (l : list event) : l = [] ++ l.
Proof. reflexivity. Qed.
Lemma log_cons (x : event) (t n l : list event) : t = n ++ l -> x :: t = (x :: n) ++ l.
Proof. intros ->. reflexivity. Qed.
Lemma log_app (a t n l : list event) : t = n ++ l -> a ++ t = (a ++ n) ++ l.
Proof. intros ->. apply app_assoc. Qed.

Lemma not_wait_timeout (l : list event) : Forall not_wait l -> Forall not_timeout l.
Proof. intros H. eapply Forall_impl; [exact H|]. intros ev Hev. apply Hev. Qed.

Ltac log_split :=
  repeat first [ apply log_nil | eapply log_cons | eapply log_app ].

Ltac ev_neq :=
  first [ assumption
        | apply not_wait_timeout; assumption
        | unfold not_wait, not_timeout, not_mutex; try split; repeat intro; discriminate ].

Ltac all_events :=
  repeat first [ apply List.Forall_nil
               | assumption
               | apply not_wait_timeout; assumption
               | apply List.Forall_cons; [ev_neq|]
               | match goal with
                 | |- Forall _ (_ ++ _) => apply Forall_app; split
                 end ].

Ltac run_prims :=
  unfold reinit_completion, dw_hdmi_qp_write, dw_hdmi_qp_read, slave_reg_postinc,
    dw_hdmi_qp_mod, mutex_lock, mutex_unlock;
  unfold emit, regmap_write, regmap_read; unfold modify, gets, ret, bind;
  cbn [fst snd].

Ltac fields :=
  unfold i2c_frame;
  cbn [fst snd log i2c lock slave_reg is_regaddr is_segment add_event set_i2c set_regm
       set_cmp set_slave_reg set_is_regaddr set_is_segment set_lock set_stat].

Ltac fields_in H :=
  cbn [log i2c lock slave_reg is_regaddr is_segment add_event set_i2c set_regm
       set_cmp set_slave_reg set_is_regaddr set_is_segment set_lock set_stat] in H.

Ltac reg_events :=
  repeat first [ apply List.Forall_nil
               | assumption
               | apply List.Forall_cons; [exact I|]
               | match goal with
                 | |- Forall _ (_ ++ _) => apply Forall_app; split
                 end ].

Section Engine.
Context {Hd : Headers} {E : Type} {Ev : Env E}.

Lemma i2c_outcome_app (r : Z) (new old : list event) :
  i2c_outcome r new -> Forall not_timeout old -> i2c_outcome r (new ++ old).
Proof.
  intros [Hr Hn | Hr Hn | older Hr Hn Ho] Hold.
  - apply oc_done; [exact Hr | all_events].
  - apply oc_nack; [exact Hr | all_events].
  - apply (oc_timeout _ _ (older ++ old)); [exact Hr | rewrite Hn; reflexivity | all_events].
Qed.

Lemma wait_run (h : dw_hdmi) (e : E) :
  exists (dn : bool) (h' : dw_hdmi) (e' : E) (mid : list event),
    wait_for_completion_timeout (h, e) = Some ((if dn then 1 else 0), (h', e')) /\
    log h' = EvWait dn :: mid ++ log h /\
    Forall not_wait mid /\
    Forall not_mutex mid /\
    lock (i2c h') = lock (i2c h) /\
    slave_reg (i2c h') = slave_reg (i2c h) /\
    is_regaddr (i2c h') = is_regaddr (i2c h) /\
    is_segment (i2c h') = is_segment (i2c h).
Proof.
  unfold wait_for_completion_timeout, dw_hdmi_qp_main_hardirq, dw_hdmi_qp_read,
    dw_hdmi_qp_write, regmap_write, regmap_read, bind, emit, modify, gets, ret.
  cbn [fst snd].
  destruct (irq_window e (regm h)) as [[e1 r1] irq].
  destruct irq; cbn -[u8 u32 Z.land Z.lor].
  - match goal with |- context [negb (?x =? 0)] => set (istat := x) end.
    destruct (istat =? 0); cbn -[u8 u32 Z.land Z.lor].
    + eexists _, _, _, [_]. split; [reflexivity|]. cbn.
      repeat split; try reflexivity; all_events.
    + exists true. eexists _, _, [_; _]. split; [reflexivity|].
      cbn -[u8 u32 Z.land Z.lor].
      repeat split; try reflexivity; all_events.
  - eexists _, _, _, []. split; [reflexivity|]. cbn.
    repeat split; try reflexivity; all_events.
Qed.

Ltac step_wait :=
  match goal with
  | |- context [wait_for_completion_timeout (?h1, ?e1)] =>
      let dn := fresh "dn" in let h2 := fresh "h" in let e2 := fresh "e" in
      let mid := fresh "mid" in
      destruct (wait_run h1 e1)
        as (dn & h2 & e2 & mid & -> & Hlog & Hnw & Hnm & Hlock & Hsr & Hra & Hseg);
      cbn [log i2c lock slave_reg is_regaddr is_segment add_event set_i2c set_regm
           set_cmp set_slave_reg] in Hlog, Hlock, Hsr, Hra, Hseg
  end.

Lemma i2c_write_loop_run (buf : list Z) (h : dw_hdmi) (e : E) :
  exists (r : Z) (h' : dw_hdmi) (e' : E) (new : list event),
    i2c_write_loop buf (h, e) = Some (r, (h', e')) /\
    i2c_frame h h' new /\ i2c_outcome r new /\
    is_regaddr (i2c h') = is_regaddr (i2c h) /\
    is_segment (i2c h') = is_segment (i2c h).
Proof.
  revert h e. induction buf as [|b rest IH]; intros h e.
  - exists 0, h, e, []. repeat split; try reflexivity; try all_events.
    apply oc_done; [reflexivity | all_events].
  - cbn [i2c_write_loop]. run_prims. step_wait.
    destruct dn; cbn [Z.eqb negb fst snd].
    + (* completed *)
      destruct (Z.land (stat (i2c h0)) I2CM_NACK_RCVD_IRQ =? 0); cbn [negb fst snd].
      * match goal with |- context [i2c_write_loop rest (?h3, ?e3)] =>
          destruct (IH h3 e3)
            as (r & h' & e' & new & Hrun & (Hl & Hm & Hk) & Hout & Hra' & Hseg')
        end.
        fields_in Hl; fields_in Hk; fields_in Hra'; fields_in Hseg'.
        rewrite Hlog in Hl.
        eexists r, h', e', _. split; [exact Hrun|].
        split; [split; [rewrite Hl; log_split | split; [|congruence]]|].
        { all_events. }
        split; [|split; congruence].
        apply i2c_outcome_app; [exact Hout | all_events].
      * eexists _, _, _, _. split; [reflexivity|]. fields.
        split; [split; [rewrite Hlog; log_split | split; [|congruence]]|].
        { all_events. }
        split; [|split; congruence].
        apply oc_nack; [reflexivity | all_events].
    + (* timeout *)
      eexists _, _, _, _. split; [reflexivity|]. fields.
      split; [split; [rewrite Hlog; log_split | split; [|congruence]]|].
      { all_events. }
      split; [|split; congruence].
      eapply oc_timeout; [reflexivity | reflexivity | all_events].
Qed.

Lemma i2c_read_loop_run (buf : list Z) (h : dw_hdmi) (e : E) :
  exists (r : Z) (buf' : list Z) (h' : dw_hdmi) (e' : E) (new : list event),
    i2c_read_loop buf (h, e) = Some ((r, buf'), (h', e')) /\
    i2c_frame h h' new /\ i2c_outcome r new /\
    is_regaddr (i2c h') = is_regaddr (i2c h) /\
    is_segment (i2c h') = is_segment (i2c h) /\
    length buf' = length buf.
Proof.
  revert h e. induction buf as [|b rest IH]; intros h e.
  - exists 0, [], h, e, []. repeat split; try reflexivity; try all_events.
    apply oc_done; [reflexivity | all_events].
  - cbn [i2c_read_loop]. run_prims. step_wait.
    destruct dn; cbn [Z.eqb negb fst snd].
    + (* completed *)
      destruct (Z.land (stat (i2c h0)) I2CM_NACK_RCVD_IRQ =? 0); cbn [negb fst snd].
      * match goal with |- context [i2c_read_loop rest (?h3, ?e3)] =>
          destruct (IH h3 e3)
            as (r & buf' & h' & e' & new & -> & (Hl & Hm & Hk) & Hout & Hra' & Hseg' & Hlen)
        end.
        fields_in Hl; fields_in Hk; fields_in Hra'; fields_in Hseg'.
        rewrite Hlog in Hl. cbn [fst snd].
        eexists r, _, h', e', _. split; [reflexivity|].
        split; [split; [rewrite Hl; log_split | split; [|congruence]]|].
        { all_events. }
        split; [apply i2c_outcome_app; [exact Hout | all_events]|].
        split; [congruence|]. split; [congruence|].
        cbn [length]. congruence.
      * eexists _, _, _, _, _. split; [reflexivity|]. fields.
        split; [split; [rewrite Hlog; log_split | split; [|congruence]]|].
        { all_events. }
        split; [apply oc_nack; [reflexivity | all_events]|].
        split; [congruence|]. split; [congruence|]. reflexivity.
    + (* timeout *)
      eexists _, _, _, _, _. split; [reflexivity|]. fields.
      split; [split; [rewrite Hlog; log_split | split; [|congruence]]|].
      { all_events. }
      split; [eapply oc_timeout; [reflexivity | reflexivity | all_events]|].
      split; [congruence|]. split; [congruence|]. reflexivity.
Qed.

Lemma i2c_outcome_neg (r : Z) (new : list event) :
  i2c_outcome r new -> (r <? 0) = false -> r = 0.
Proof.
  intros [Hr _ | Hr _ | older Hr _ _] Hlt; [exact Hr | | ];
    subst r; vm_compute in Hlt; discriminate.
Qed.

Lemma dw_hdmi_qp_i2c_read_run (buf : list Z) (h : dw_hdmi) (e : E) :
  exists (r : Z) (buf' : list Z) (h' : dw_hdmi) (e' : E) (new : list event),
    dw_hdmi_qp_i2c_read buf (h, e) = Some ((r, buf'), (h', e')) /\
    i2c_frame h h' new /\ i2c_outcome r new /\
    is_regaddr (i2c h') = true /\
    length buf' = length buf.
Proof.
  unfold dw_hdmi_qp_i2c_read. run_prims.
  destruct (is_regaddr (i2c h)) eqn:Hra; cbn [negb fst snd].
  - destruct (i2c_read_loop_run buf h e)
      as (r & buf' & h' & e' & new & -> & (Hl & Hm & Hk) & Hout & Hra' & Hseg' & Hlen).
    cbn [fst snd].
    destruct (r =? 0) eqn:Hr.
    + apply Z.eqb_eq in Hr. subst r.
      eexists _, _, _, _, _. split; [reflexivity|]. fields.
      repeat split; try eassumption; try congruence.
    + eexists _, _, _, _, _. split; [reflexivity|]. fields.
      repeat split; try eassumption; try congruence.
  - match goal with |- context [i2c_read_loop buf (?h3, ?e3)] =>
      destruct (i2c_read_loop_run buf h3 e3)
        as (r & buf' & h' & e' & new & -> & (Hl & Hm & Hk) & Hout & Hra' & Hseg' & Hlen)
    end.
    fields_in Hl; fields_in Hk; fields_in Hra'. cbn [fst snd].
    destruct (r =? 0) eqn:Hr.
    + apply Z.eqb_eq in Hr. subst r.
      eexists _, _, _, _, _. split; [reflexivity|]. fields.
      repeat split; try eassumption; try congruence.
    + eexists _, _, _, _, _. split; [reflexivity|]. fields.
      repeat split; try eassumption; try congruence.
Qed.

Lemma dw_hdmi_qp_i2c_write_run (buf : list Z) (h : dw_hdmi) (e : E) :
  buf <> [] ->
  exists (r : Z) (h' : dw_hdmi) (e' : E) (new : list event),
    dw_hdmi_qp_i2c_write buf (h, e) = Some (r, (h', e')) /\
    i2c_frame h h' new /\ i2c_outcome r new /\
    is_regaddr (i2c h') = true.
Proof.
  intros Hne. unfold dw_hdmi_qp_i2c_write. run_prims.
  destruct (is_regaddr (i2c h)) eqn:Hra; cbn [negb fst snd].
  - destruct (i2c_write_loop_run buf h e)
      as (r & h' & e' & new & -> & (Hl & Hm & Hk) & Hout & Hra' & Hseg').
    eexists _, _, _, _. split; [reflexivity|].
    repeat split; try eassumption; congruence.
  - destruct buf as [|b0 rest]; [congruence|].
    match goal with |- context [i2c_write_loop rest (?h3, ?e3)] =>
      destruct (i2c_write_loop_run rest h3 e3)
        as (r & h' & e' & new & -> & (Hl & Hm & Hk) & Hout & Hra' & Hseg')
    end.
    fields_in Hl; fields_in Hk; fields_in Hra'.
    eexists _, _, _, _. split; [reflexivity|].
    repeat split; try eassumption; congruence.
Qed.

Lemma len_nonzero (m : i2c_msg) : (len m =? 0) = false -> buf m <> [].
Proof.
  unfold len. intros H Hb. rewrite Hb in H. discriminate.
Qed.

Lemma xfer_loop_run (msgs : list i2c_msg) (h : dw_hdmi) (e : E) :
  existsb (fun m => len m =? 0) msgs = false ->
  exists (r : Z) (msgs' : list i2c_msg) (h' : dw_hdmi) (e' : E) (new : list event),
    xfer_loop msgs 0 (h, e) = Some ((r, msgs'), (h', e')) /\
    i2c_frame h h' new /\ i2c_outcome r new /\
    length msgs' = length msgs.
Proof.
  revert h e. induction msgs as [|m rest IH]; intros h e Hlen.
  - exists 0, [], h, e, []. repeat split; try reflexivity; try all_events.
    apply oc_done; [reflexivity | all_events].
  - cbn [existsb] in Hlen. apply orb_false_elim in Hlen as [Hm Hrest].
    cbn [xfer_loop].
    assert (Hhead : exists (r : Z) (m' : i2c_msg) (h1 : dw_hdmi) (e1 : E) (new : list event),
      (if (addr m =? DDC_SEGMENT_ADDR) && (len m =? 1) then
         modify (set_i2c (set_is_segment true)) ;;
         dw_hdmi_qp_mod DDC_SEGMENT_ADDR I2CM_SEG_ADDR I2CM_INTERFACE_CONTROL1 ;;
         dw_hdmi_qp_mod (hd 0 (buf m)) I2CM_SEG_PTR I2CM_INTERFACE_CONTROL1 ;;
         ret (0, m)
       else if negb (Z.land (flags m) I2C_M_RD =? 0) then
         y <- dw_hdmi_qp_i2c_read (buf m) ;;
         ret (fst y, set_buf (snd y) m)
       else
         y <- dw_hdmi_qp_i2c_write (buf m) ;;
         ret (y, m))%M (h, e) = Some ((r, m'), (h1, e1)) /\
      i2c_frame h h1 new /\ i2c_outcome r new).
    { destruct ((addr m =? DDC_SEGMENT_ADDR) && (len m =? 1)).
      - run_prims. eexists _, _, _, _, _. split; [reflexivity|]. fields.
        split; [split; [log_split | split; [all_events | reflexivity]]|].
        apply oc_done; [reflexivity | all_events].
      - destruct (negb (Z.land (flags m) I2C_M_RD =? 0)).
        + destruct (dw_hdmi_qp_i2c_read_run (buf m) h e)
            as (r & buf' & h1 & e1 & new & Hrun & Hfr & Hout & _).
          unfold bind at 1. rewrite Hrun. unfold ret. cbn [fst snd].
          eexists _, _, _, _, _. split; [reflexivity|]. cbn [fst snd]. split; eassumption.
        + destruct (dw_hdmi_qp_i2c_write_run (buf m) h e (len_nonzero m Hm))
            as (r & h1 & e1 & new & Hrun & Hfr & Hout & _).
          unfold bind at 1. rewrite Hrun. unfold ret. cbn [fst snd].
          eexists _, _, _, _, _. split; [reflexivity|]. cbn [fst snd]. split; eassumption. }
    destruct Hhead as (r & m' & h1 & e1 & new & Hrun & (Hl & Hmx & Hk) & Hout).
    unfold bind at 1. rewrite Hrun. cbn [fst snd].
    destruct (r <? 0) eqn:Hneg.
    + unfold ret. eexists _, _, _, _, _. split; [reflexivity|].
      repeat split; try eassumption; try reflexivity.
    + apply (i2c_outcome_neg r new Hout) in Hneg as Hr0. subst r.
      destruct (IH h1 e1 Hrest)
        as (r2 & msgs' & h2 & e2 & new2 & Hrun2 & (Hl2 & Hm2 & Hk2) & Hout2 & Hlen2).
      unfold bind at 1. rewrite Hrun2. unfold ret. cbn [fst snd].
      eexists _, _, _, _, (new2 ++ new). split; [reflexivity|].
      split; [split; [rewrite Hl2, Hl; apply app_assoc | split; [all_events | congruence]]|].
      split.
      * apply i2c_outcome_app; [exact Hout2|].
        destruct Hout as [_ Hn | Hr _ | older Hr _ _]; [exact Hn | discriminate | discriminate].
      * cbn [length]. congruence.
Qed.

Lemma not_timeout_In (l : list event) : Forall not_timeout l -> ~ In (EvWait false) l.
Proof.
  intros H Hin. rewrite List.Forall_forall in H. exact (H _ Hin eq_refl).
Qed.

Lemma update_bits_cleared (orig mask : Z) :
  Z.land (u32 (regmap_update_bits orig mask 0)) mask = 0.
Proof.
  unfold u32, regmap_update_bits.
  rewrite <- Z.land_ones by lia.
  apply Z.bits_inj'. intros n Hn.
  rewrite !Z.land_spec, Z.lor_spec, !Z.land_spec, Z.lnot_spec, Z.bits_0 by exact Hn.
  destruct (Z.testbit orig n), (Z.testbit mask n), (Z.testbit (Z.ones 32) n); reflexivity.
Qed.

Lemma lens_nonzero (msgs : list i2c_msg) :
  Forall (fun m => len m <> 0) msgs -> existsb (fun m => len m =? 0) msgs = false.
Proof.
  intros Hlen. apply not_true_is_false. intros Hex.
  apply existsb_exists in Hex as (m & Hin & Hm).
  rewrite List.Forall_forall in Hlen. apply (Hlen m Hin). apply Z.eqb_eq. exact Hm.
Qed.

(** dw_hdmi_qp_i2c_xfer once the two checks have passed. *)
Lemma dw_hdmi_qp_i2c_xfer_run (h : dw_hdmi) (e : E) (m0 : i2c_msg) (ms : list i2c_msg) :
  (u8 (addr m0) =? DDC_CI_ADDR) = false ->
  existsb (fun m => len m =? 0) (m0 :: ms) = false ->
  exists (r : Z) (msgs' : list i2c_msg) (h' : dw_hdmi) (e' : E) (new : list event) (a orig : Z),
    dw_hdmi_qp_i2c_xfer (m0 :: ms) (h, e)
    = Some ((if r =? 0 then Z.of_nat (length (m0 :: ms)) else r, msgs'), (h', e')) /\
    log h' = EvMutexUnlock
             :: EvUpdateBits MAINUNIT_1_INT_MASK_N
                  (Z.lor I2CM_OP_DONE_MASK_N I2CM_NACK_RCVD_MASK_N) 0
             :: new
             ++ EvUpdateBits I2CM_INTERFACE_CONTROL0 I2CM_SLVADDR a
             :: EvUpdateBits MAINUNIT_1_INT_MASK_N
                  (Z.lor I2CM_NACK_RCVD_MASK_N I2CM_OP_DONE_MASK_N)
                  (Z.lor I2CM_NACK_RCVD_MASK_N I2CM_OP_DONE_MASK_N)
             :: EvMutexLock :: log h /\
    Forall not_mutex new /\
    i2c_outcome r new /\
    lock (i2c h') = false /\
    regm h' !! MAINUNIT_1_INT_MASK_N
    = Some (u32 (regmap_update_bits orig
                   (Z.lor I2CM_OP_DONE_MASK_N I2CM_NACK_RCVD_MASK_N) 0)) /\
    length msgs' = length (m0 :: ms).
Proof.
  intros Hci Hlen. unfold dw_hdmi_qp_i2c_xfer. rewrite Hci, Hlen.
  run_prims.
  match goal with |- context [xfer_loop (m0 :: ms) 0 (?h1, ?e1)] =>
    destruct (xfer_loop_run (m0 :: ms) h1 e1 Hlen)
      as (r & msgs' & h' & e' & new & -> & (Hl & Hm & Hk) & Hout & Hlen')
  end.
  fields_in Hl; fields_in Hk. cbn [fst snd].
  eexists r, msgs', _, e', new, _, _. split; [reflexivity|]. fields.
  split; [rewrite Hl; reflexivity|].
  split; [exact Hm|]. split; [exact Hout|]. split; [reflexivity|].
  split; [|exact Hlen'].
  cbn [regm set_i2c set_regm add_event]. rewrite lookup_insert_eq. reflexivity.
Qed.

(** C4, as amended: when the first message is addressed to the DDC/CI address
    0x37 (the low eight bits of its address: the driver keeps it in a u8),
    the transfer is refused with -EOPNOTSUPP whatever the number of messages,
    and nothing at all has been done: the device, registers and log included,
    and the world are as before. When the first message is addressed
    elsewhere and no message is empty, the transfer is not refused, whatever
    the addresses of the later messages. *)
Theorem dw_hdmi_qp_i2c_xfer_ddc_ci (h : dw_hdmi) (e : E) (m0 : i2c_msg) (ms : list i2c_msg) :
  (u8 (addr m0) = DDC_CI_ADDR ->
   dw_hdmi_qp_i2c_xfer (m0 :: ms) (h, e) = Some ((- EOPNOTSUPP, m0 :: ms), (h, e))) /\
  (u8 (addr m0) <> DDC_CI_ADDR ->
   Forall (fun m => len m <> 0) (m0 :: ms) ->
   exists (r : Z) (msgs' : list i2c_msg) (w' : dw_hdmi * E),
     dw_hdmi_qp_i2c_xfer (m0 :: ms) (h, e) = Some ((r, msgs'), w') /\
     r <> - EOPNOTSUPP).
Proof.
  split.
  - intros Ha. unfold dw_hdmi_qp_i2c_xfer. rewrite Ha. reflexivity.
  - intros Hci Hlen.
    assert (Hci' : (u8 (addr m0) =? DDC_CI_ADDR) = false) by (apply Z.eqb_neq; exact Hci).
    destruct (dw_hdmi_qp_i2c_xfer_run h e m0 ms Hci' (lens_nonzero _ Hlen))
      as (r & msgs' & h' & e' & new & a & orig & Hrun & _ & _ & Hout & _).
    eexists _, msgs', (h', e'). split; [exact Hrun|].
    destruct Hout as [Hr _ | Hr _ | older Hr _ _]; subst r.
    + cbn [Z.eqb length]. unfold EOPNOTSUPP. lia.
    + vm_compute. discriminate.
    + vm_compute. discriminate.
Qed.


(** C9: a transfer that passes the two checks takes the mutex and unmasks
    the DONE and NACK interrupts first, and, however the messages end (all
    done, a NACK, a timeout), masks the two interrupts again and releases the
    mutex last: on return the two mask bits of MAINUNIT_1_INT_MASK_N are 0
    and the mutex is free, and between the unmasking and the masking the
    mutex is not touched. *)
Theorem dw_hdmi_qp_i2c_xfer_masks_and_unlocks (h : dw_hdmi) (e : E)
    (m0 : i2c_msg) (ms : list i2c_msg) :
  u8 (addr m0) <> DDC_CI_ADDR ->
  Forall (fun m => len m <> 0) (m0 :: ms) ->
  exists (r : Z) (msgs' : list i2c_msg) (h' : dw_hdmi) (e' : E) (mid : list event),
    dw_hdmi_qp_i2c_xfer (m0 :: ms) (h, e) = Some ((r, msgs'), (h', e')) /\
    (r = Z.of_nat (length (m0 :: ms)) \/ r = - EIO \/ r = - EAGAIN) /\
    Z.land (default 0 (regm h' !! MAINUNIT_1_INT_MASK_N))
      (Z.lor I2CM_OP_DONE_MASK_N I2CM_NACK_RCVD_MASK_N) = 0 /\
    lock (i2c h') = false /\
    log h' = EvMutexUnlock
             :: EvUpdateBits MAINUNIT_1_INT_MASK_N
                  (Z.lor I2CM_OP_DONE_MASK_N I2CM_NACK_RCVD_MASK_N) 0
             :: mid
             ++ EvUpdateBits MAINUNIT_1_INT_MASK_N
                  (Z.lor I2CM_NACK_RCVD_MASK_N I2CM_OP_DONE_MASK_N)
                  (Z.lor I2CM_NACK_RCVD_MASK_N I2CM_OP_DONE_MASK_N)
             :: EvMutexLock :: log h /\
    Forall not_mutex mid.
Proof.
  intros Hci Hlen.
  assert (Hci' : (u8 (addr m0) =? DDC_CI_ADDR) = false) by (apply Z.eqb_neq; exact Hci).
  assert (Hlen' : existsb (fun m => len m =? 0) (m0 :: ms) = false)
    by (apply lens_nonzero; exact Hlen).
  destruct (dw_hdmi_qp_i2c_xfer_run h e m0 ms Hci' Hlen')
    as (r & msgs' & h' & e' & new & a & orig & Hrun & Hlog & Hm & Hout & Hlock & Hreg & _).
  eexists _, msgs', h', e', (new ++ [EvUpdateBits I2CM_INTERFACE_CONTROL0 I2CM_SLVADDR a]).
  split; [exact Hrun|].
  split.
  { destruct Hout as [Hr _ | Hr _ | older Hr _ _]; subst r.
    - left. reflexivity.
    - right. left. reflexivity.
    - right. right. reflexivity. }
  split; [rewrite Hreg; apply update_bits_cleared|].
  split; [exact Hlock|].
  split; [rewrite Hlog, <- app_assoc; reflexivity|].
  all_events.
Qed.

End Engine.

(** ** The register address of a transfer *)

Section Regaddr.
Context {Hd : Headers} {E : Type} {Ev : Env E}.

Lemma bind_ext {A B : Type} (c c' : M E A) (k k' : A -> M E B) (w : dw_hdmi * E) :
  c w = c' w ->
  (forall a w', c w = Some (a, w') -> k a w' = k' a w') ->
  bind c k w = bind c' k' w.
Proof.
  intros Hc Hk. unfold bind. rewrite <- Hc.
  destruct (c w) as [[a w']|]; [apply Hk; reflexivity | reflexivity].
Qed.

Lemma dw_hdmi_qp_i2c_read_regaddr (buf : list Z) (h h1 : dw_hdmi) (e e1 : E)
    (x : Z * list Z) :
  dw_hdmi_qp_i2c_read buf (h, e) = Some (x, (h1, e1)) -> is_regaddr (i2c h1) = true.
Proof.
  destruct (dw_hdmi_qp_i2c_read_run buf h e)
    as (r & buf' & h' & e' & new & Hrun & _ & _ & Hra & _).
  rewrite Hrun. intros [= _ <- _]. exact Hra.
Qed.

Lemma dw_hdmi_qp_i2c_write_regaddr (buf : list Z) (h h1 : dw_hdmi) (e e1 : E) (r : Z) :
  dw_hdmi_qp_i2c_write buf (h, e) = Some (r, (h1, e1)) -> is_regaddr (i2c h1) = true.
Proof.
  destruct buf as [|b0 rest].
  - unfold dw_hdmi_qp_i2c_write, bind, gets, ret, undefined. cbn [fst snd].
    destruct (is_regaddr (i2c h)) eqn:Hra; cbn [negb i2c_write_loop].
    + unfold ret. intros [= _ <- _]. exact Hra.
    + discriminate.
  - destruct (dw_hdmi_qp_i2c_write_run (b0 :: rest) h e)
      as (r' & h' & e' & new & Hrun & _ & _ & Hra); [discriminate|].
    rewrite Hrun. intros [= _ <- _]. exact Hra.
Qed.

Lemma spec_msg_head (m : i2c_msg) (h : dw_hdmi) (e : E) :
  (if negb (Z.land (flags m) I2C_M_RD =? 0) then
     y <- dw_hdmi_qp_i2c_read (buf m) ;;
     ret (fst y, set_buf (snd y) m)
   else
     y <- dw_hdmi_qp_i2c_write (buf m) ;;
     ret (y, m)) (h, e)
  = spec_msg (is_regaddr (i2c h)) m (h, e).
Proof.
  unfold spec_msg.
  destruct (negb (Z.land (flags m) I2C_M_RD =? 0)).
  - unfold dw_hdmi_qp_i2c_read, spec_read_data, bind, gets, modify, ret. cbn [fst snd].
    destruct (is_regaddr (i2c h)); reflexivity.
  - unfold dw_hdmi_qp_i2c_write, bind, gets, modify, ret, undefined. cbn [fst snd].
    destruct (is_regaddr (i2c h)); cbn [negb]; [reflexivity|].
    destruct (buf m); reflexivity.
Qed.

End Regaddr.

(** ** The scenario with the sink *)

Lemma u32_land (x m : Z) : 0 <= m < 2 ^ 32 -> Z.land (u32 x) m = Z.land x m.
Proof.
  intros Hm. unfold u32. rewrite <- Z.land_ones by lia.
  rewrite <- Z.land_assoc. f_equal.
  rewrite Z.land_comm, Z.land_ones by lia. apply Z.mod_small. exact Hm.
Qed.

Lemma update_bits_field (orig mask val : Z) :
  Z.land (regmap_update_bits orig mask val) mask = Z.land val mask.
Proof.
  unfold regmap_update_bits. apply Z.bits_inj'. intros n Hn.
  rewrite !Z.land_spec, Z.lor_spec, !Z.land_spec, Z.lnot_spec by exact Hn.
  destruct (Z.testbit orig n), (Z.testbit mask n), (Z.testbit val n); reflexivity.
Qed.

Lemma update_bits_other (orig mask val m : Z) :
  Z.land m mask = 0 ->
  Z.land (regmap_update_bits orig mask val) m = Z.land orig m.
Proof.
  intros Hd. unfold regmap_update_bits. apply Z.bits_inj'. intros n Hn.
  assert (Hb : Z.testbit m n && Z.testbit mask n = false)
    by (rewrite <- Z.land_spec, Hd; apply Z.bits_0).
  rewrite !Z.land_spec, Z.lor_spec, !Z.land_spec, Z.lnot_spec by exact Hn.
  destruct (Z.testbit orig n), (Z.testbit mask n), (Z.testbit val n), (Z.testbit m n);
    try reflexivity; discriminate.
Qed.

Section Sink.
Context {Hd : Headers} {HL : SinkLayout Hd}.

(** The command register after the address and the read command have been
    programmed: the command field holds the read command, the address field
    the register pointer. *)
Lemma read_command_fields (orig r : Z) :
  0 <= r < 256 ->
  let ctrl := u32 (regmap_update_bits
                     (u32 (regmap_update_bits orig I2CM_ADDR (Z.shiftl r 12)))
                     I2CM_WR_MASK I2CM_FM_READ) in
  Z.land ctrl I2CM_WR_MASK = I2CM_FM_READ /\
  Z.shiftr (Z.land ctrl I2CM_ADDR) 12 = r.
Proof.
  intros Hr ctrl. unfold ctrl. split.
  - rewrite u32_land by apply wr_mask_u32.
    rewrite update_bits_field. apply fm_read_in_mask.
  - rewrite u32_land by apply addr_mask_u32.
    rewrite update_bits_other by apply addr_mask_disjoint.
    rewrite u32_land by apply addr_mask_u32.
    rewrite update_bits_field, addr_field by exact Hr.
    rewrite Z.shiftr_shiftl_l by lia. apply Z.shiftl_0_r.
Qed.

Lemma done_irq_filtered :
  u8 (Z.land I2CM_OP_DONE_IRQ
        (Z.lor (Z.lor I2CM_OP_DONE_IRQ I2CM_READ_REQUEST_IRQ) I2CM_NACK_RCVD_IRQ))
  = I2CM_OP_DONE_IRQ.
Proof.
  replace (Z.land I2CM_OP_DONE_IRQ
             (Z.lor (Z.lor I2CM_OP_DONE_IRQ I2CM_READ_REQUEST_IRQ) I2CM_NACK_RCVD_IRQ))
    with I2CM_OP_DONE_IRQ.
  - unfold u8. apply Z.mod_small. pose proof done_irq_u8. lia.
  - apply Z.bits_inj'. intros n Hn.
    rewrite Z.land_spec, !Z.lor_spec.
    destruct (Z.testbit I2CM_OP_DONE_IRQ n); reflexivity.
Qed.

(** Reading from the sink: every byte is acknowledged, the buffer receives
    the sink registers from the register pointer on. *)
Lemma sink_read_loop (phy_ret : Z) (buf : list Z) (h : dw_hdmi) (c0 : Z) :
  0 <= slave_reg (i2c h) < 256 ->
  exists h' : dw_hdmi,
    i2c_read_loop (Ev := sink_env phy_ret) buf (h, c0)
    = Some ((0, incrementing c0 (slave_reg (i2c h)) (length buf)), (h', c0)).
Proof.
  revert h. induction buf as [|b rest IH]; intros h Hr.
  - exists h. reflexivity.
  - cbn [i2c_read_loop].
    unfold reinit_completion, slave_reg_postinc, wait_for_completion_timeout,
      dw_hdmi_qp_main_hardirq, dw_hdmi_qp_write, dw_hdmi_qp_read, dw_hdmi_qp_mod.
    unfold emit, regmap_write, regmap_read. unfold modify, gets, ret, bind.
    cbn [fst snd regm i2c set_i2c set_regm add_event set_cmp set_slave_reg
         slave_reg irq_window sink_env].
    rewrite !lookup_insert_eq. cbn [default from_option id].
    unfold sink_window. rewrite !lookup_insert_eq. cbn [default from_option id].
    destruct (read_command_fields (default 0 (regm h !! I2CM_INTERFACE_CONTROL0))
                (slave_reg (i2c h)) Hr) as [Hcmd Haddr].
    cbv zeta in Hcmd, Haddr. rewrite Hcmd, Haddr, Z.eqb_refl.
    cbn [fst snd regm i2c set_i2c set_regm add_event set_cmp set_slave_reg set_stat
         slave_reg stat cmp].
    rewrite !lookup_insert_eq. cbn [default from_option id].
    rewrite done_irq_filtered.
    destruct (Z.eqb_spec I2CM_OP_DONE_IRQ 0) as [H0|_];
      [pose proof done_irq_u8; lia|].
    cbn [negb fst snd regm i2c set_i2c set_regm add_event set_cmp set_slave_reg set_stat
         slave_reg stat cmp Z.eqb].
    rewrite done_not_nack. cbn [Z.eqb negb].
    cbn [fst snd regm i2c set_i2c set_regm add_event set_cmp set_slave_reg set_stat].
    rewrite (lookup_insert_ne _ MAINUNIT_1_INT_CLEAR) by (apply not_eq_sym, rddata_not_clear).
    rewrite (lookup_insert_ne _ MAINUNIT_1_INT_STATUS) by (apply not_eq_sym, rddata_not_status).
    rewrite lookup_insert_eq. cbn [default from_option id].
    match goal with |- context [i2c_read_loop rest (?h3, ?e3)] =>
      destruct (IH h3) as (h' & ->)
    end.
    { cbn [slave_reg i2c set_i2c set_regm add_event set_cmp set_slave_reg set_stat].
      unfold u8. apply Z.mod_pos_bound. lia. }
    cbn [fst snd slave_reg i2c set_i2c set_regm add_event set_cmp set_slave_reg set_stat].
    exists h'. cbn [length incrementing].
    do 3 f_equal.
    unfold u8. rewrite Z.land_ones with (n := 8) by lia.
    change (2 ^ 8) with 256. rewrite !Zmod_mod. reflexivity.
Qed.

Lemma sink_read (phy_ret : Z) (data : list Z) (h1 : dw_hdmi) (c0 : Z) :
  length data = 8%nat ->
  slave_reg (i2c h1) = 0 \/ is_regaddr (i2c h1) = false ->
  exists h2 : dw_hdmi,
    dw_hdmi_qp_i2c_read (Ev := sink_env phy_ret) data (h1, c0)
    = Some ((0, map (fun k => u8 (c0 + k)) [0; 1; 2; 3; 4; 5; 6; 7]), (h2, c0)).
Proof.
  intros Hlen Hh1. unfold dw_hdmi_qp_i2c_read.
  unfold modify, gets, ret, bind. cbn [fst snd].
  destruct (is_regaddr (i2c h1)) eqn:Hra; cbn [negb fst snd].
  - destruct Hh1 as [Hsr|Hf]; [|discriminate].
    destruct (sink_read_loop phy_ret data h1 c0) as (h2 & ->); [rewrite Hsr; lia|].
    rewrite Hsr, Hlen. cbn [fst snd Z.eqb].
    eexists. reflexivity.
  - match goal with |- context [i2c_read_loop data (?h3, c0)] =>
      destruct (sink_read_loop phy_ret data h3 c0) as (h2 & ->);
        [cbn [slave_reg i2c set_i2c set_slave_reg set_is_regaddr]; lia|]
    end.
    cbn [slave_reg i2c set_i2c set_slave_reg set_is_regaddr]. rewrite Hlen.
    cbn [fst snd Z.eqb].
    eexists. reflexivity.
Qed.

(** C1, as amended: the two-message transfer of the scenario, a write of the
    register address 0x00 followed by a read of 8 bytes, both to address [a],
    against the sink that acknowledges everything. When [a] is the DDC/CI
    address 0x37 (in its low eight bits) the transfer is refused with
    -EOPNOTSUPP and nothing is done. For every other address it returns 2,
    the number of messages, and the read buffer holds the 8 values
    [c0], [c0 + 1], ... [c0 + 7] (modulo 256), [c0] being the content of
    register 0 of the sink. *)
Theorem dw_hdmi_qp_i2c_xfer_register_read (phy_ret : Z) (h : dw_hdmi) (c0 a : Z)
    (data : list Z) :
  length data = 8%nat ->
  (u8 a = DDC_CI_ADDR ->
   dw_hdmi_qp_i2c_xfer (Ev := sink_env phy_ret) (sample_msgs a I2C_M_RD 0 data) (h, c0)
   = Some ((- EOPNOTSUPP, sample_msgs a I2C_M_RD 0 data), (h, c0))) /\
  (u8 a <> DDC_CI_ADDR ->
   exists h' : dw_hdmi,
     dw_hdmi_qp_i2c_xfer (Ev := sink_env phy_ret) (sample_msgs a I2C_M_RD 0 data) (h, c0)
     = Some ((2, sample_msgs a I2C_M_RD 0
                   (map (fun k => u8 (c0 + k)) [0; 1; 2; 3; 4; 5; 6; 7])),
             (h', c0))).
Proof.
  intros Hlen. split.
  - intros Ha. unfold sample_msgs, dw_hdmi_qp_i2c_xfer. cbn [addr]. rewrite Ha. reflexivity.
  - intros Ha. apply Z.eqb_neq in Ha.
    assert (Hl8 : len {| addr := a; flags := I2C_M_RD; buf := data |} = 8)
      by (unfold len; cbn [buf]; rewrite Hlen; reflexivity).
    unfold sample_msgs, dw_hdmi_qp_i2c_xfer. cbn [addr]. rewrite Ha.
    cbn [existsb xfer_loop addr flags buf]. rewrite Hl8.
    change (len {| addr := a; flags := 0; buf := [0] |}) with 1.
    cbn [Z.eqb Pos.eqb orb andb].
    rewrite Z.land_0_l, Z.land_diag. cbn [Z.eqb negb].
    destruct (Z.eqb_spec I2C_M_RD 0) as [H0|_]; [destruct (rd_flag H0)|].
    cbn [negb]. rewrite andb_false_r, andb_true_r.
    destruct (a =? DDC_SEGMENT_ADDR).
    + (* the first message selects a segment *)
      cbn [andb]. run_prims. cbn [Z.ltb Z.compare].
      match goal with |- context [dw_hdmi_qp_i2c_read data (?h1, c0)] =>
        destruct (sink_read phy_ret data h1 c0 Hlen) as (h2 & ->); [right; reflexivity|]
      end.
      cbn [fst snd Z.ltb Z.compare Z.eqb set_buf addr flags buf].
      eexists. reflexivity.
    + (* the first message writes the register address *)
      cbn [andb]. unfold dw_hdmi_qp_i2c_write. run_prims.
      cbn [is_regaddr i2c set_i2c set_is_regaddr set_is_segment negb i2c_write_loop].
      unfold ret. cbn [fst snd Z.ltb Z.compare].
      match goal with |- context [dw_hdmi_qp_i2c_read data (?h1, c0)] =>
        destruct (sink_read phy_ret data h1 c0 Hlen) as (h2 & ->); [left; reflexivity|]
      end.
      cbn [fst snd Z.ltb Z.compare Z.eqb set_buf addr flags buf].
      eexists. reflexivity.
Qed.

End Sink.

(** ** Setup and power *)

Lemma u32_small (x : Z) : 0 <= x < 2 ^ 32 -> u32 x = x.
Proof. intros H. unfold u32. apply Z.mod_small. exact H. Qed.

Lemma header_word_u32 (v l : Z) :
  0 <= v < 256 -> 0 <= l < 256 ->
  u32 (Z.lor (Z.shiftl v 8) (Z.shiftl l 16)) = Z.lor (Z.shiftl v 8) (Z.shiftl l 16).
Proof.
  intros Hv Hl. unfold u32. rewrite <- Z.land_ones by lia.
  apply Z.bits_inj'. intros n Hn.
  rewrite Z.land_spec, Z.lor_spec, !Z.shiftl_spec by exact Hn.
  destruct (Z.ltb_spec n 32) as [Hlt|Hge].
  - rewrite Z.ones_spec_low by lia. apply andb_true_r.
  - rewrite Z.ones_spec_high by lia. rewrite andb_false_r.
    assert (Hlog : forall x, 0 <= x < 256 -> Z.log2 x < 8).
    { intros x Hx. destruct (Z.eq_dec x 0) as [->|Hnz]; [simpl; lia|].
      apply Z.log2_lt_pow2; lia. }
    pose proof (Hlog v Hv). pose proof (Hlog l Hl).
    rewrite (Z.bits_above_log2 v), (Z.bits_above_log2 l) by lia.
    reflexivity.
Qed.

Section Setup.
Context {Hd : Headers} {E : Type} {Ev : Env E} {Cm : Common}.

Lemma avi_write_words_run (buf idx : list Z) (val : Z) (h : dw_hdmi) (e : E) :
  exists (h' : dw_hdmi) (new : list event),
    avi_write_words buf idx val (h, e) = Some (tt, (h', e)) /\
    log h' = new ++ log h /\ Forall reg_event new /\
    phy_enabled h' = phy_enabled h /\ bridge_is_on h' = bridge_is_on h.
Proof.
  revert val h. induction idx as [|i idx IH]; intros val h.
  - exists h, []. repeat split; reg_events.
  - cbn [avi_write_words]. cbv zeta. run_prims.
    match goal with |- context [avi_write_words buf idx ?v (?h1, e)] =>
      destruct (IH v h1) as (h' & new & -> & Hl & Hf & Hp & Hb)
    end.
    cbn [log phy_enabled bridge_is_on add_event set_regm] in Hl, Hp, Hb.
    eexists h', _. split; [reflexivity|].
    split; [rewrite Hl; log_split|]. split; [reg_events|]. split; assumption.
Qed.

Lemma hdmi_config_AVI_run (connector : drm_connector) (mode : drm_display_mode)
    (h : dw_hdmi) (e : E) :
  let frame := fst (hdmi_config_AVI_pack h connector mode) in
  exists (h' : dw_hdmi) (later : list event),
    hdmi_config_AVI connector mode (h, e) = Some (tt, (h', e)) /\
    log h' = later
             ++ EvWrite PKT_AVI_CONTENTS0
                  (u32 (Z.lor (Z.shiftl (avi_version frame) 8)
                              (Z.shiftl (avi_length frame) 16)))
             :: log h /\
    Forall reg_event later /\
    phy_enabled h' = phy_enabled h /\ bridge_is_on h' = bridge_is_on h.
Proof.
  intros frame. unfold hdmi_config_AVI. run_prims.
  match goal with |- context [avi_write_words ?b ?i ?v (?h1, e)] =>
    destruct (avi_write_words_run b i v h1 e) as (h' & new & -> & Hl & Hf & Hp & Hb)
  end.
  cbn [log phy_enabled bridge_is_on add_event set_regm] in Hl, Hp, Hb.
  eexists _, _. split; [reflexivity|].
  cbn [fst snd log phy_enabled bridge_is_on add_event set_regm].
  split; [rewrite Hl; log_split|]. split; [reg_events|]. split; assumption.
Qed.

Lemma drmi_write_words_run (buffer : list Z) (flen i : Z) (n : nat) (val : Z)
    (h : dw_hdmi) (e : E) :
  exists (h' : dw_hdmi) (new : list event),
    drmi_write_words buffer flen i n val (h, e) = Some (tt, (h', e)) /\
    log h' = new ++ log h /\ Forall reg_event new /\
    phy_enabled h' = phy_enabled h /\ bridge_is_on h' = bridge_is_on h.
Proof.
  revert i val h. induction n as [|n IH]; intros i val h.
  - exists h, []. repeat split; reg_events.
  - cbn [drmi_write_words]. cbv zeta.
    destruct ((i mod 4 =? 3) || (i =? flen)); run_prims.
    + match goal with |- context [drmi_write_words buffer flen ?j n ?v (?h1, e)] =>
        destruct (IH j v h1) as (h' & new & -> & Hl & Hf & Hp & Hb)
      end.
      cbn [log phy_enabled bridge_is_on add_event set_regm] in Hl, Hp, Hb.
      eexists h', _. split; [reflexivity|].
      split; [rewrite Hl; log_split|]. split; [reg_events|]. split; assumption.
    + match goal with |- context [drmi_write_words buffer flen ?j n ?v (?h1, e)] =>
        destruct (IH j v h1) as (h' & new & -> & Hl & Hf & Hp & Hb)
      end.
      eexists h', _. split; [reflexivity|].
      split; [exact Hl|]. split; [reg_events|]. split; assumption.
Qed.

Lemma hdmi_config_drm_infoframe_run (connector : drm_connector) (h : dw_hdmi) (e : E) :
  exists (h' : dw_hdmi) (new : list event),
    hdmi_config_drm_infoframe connector (h, e) = Some (tt, (h', e)) /\
    log h' = new ++ log h /\ Forall reg_event new /\
    phy_enabled h' = phy_enabled h /\ bridge_is_on h' = bridge_is_on h.
Proof.
  unfold hdmi_config_drm_infoframe. run_prims.
  destruct (use_drm_infoframe h); cbn [negb];
    [|exists h, []; repeat split; reg_events].
  assert (Hstop : forall h1 : dw_hdmi,
            log h1 = [EvUpdateBits PKTSCHED_PKT_EN PKTSCHED_DRMI_TX_EN 0] ++ log h ->
            phy_enabled h1 = phy_enabled h -> bridge_is_on h1 = bridge_is_on h ->
            exists (h' : dw_hdmi) (new : list event),
              Some (tt, (h1, e)) = Some (tt, (h', e)) /\
              log h' = new ++ log h /\ Forall reg_event new /\
              phy_enabled h' = phy_enabled h /\ bridge_is_on h' = bridge_is_on h).
  { intros h1 Hl Hp Hb. eexists h1, _. split; [reflexivity|].
    split; [exact Hl|]. split; [reg_events|]. split; assumption. }
  destruct (hdr_sink_eotf h =? 0); [apply Hstop; reflexivity|].
  destruct (hdr_output_metadata connector) as [eotf|]; [|apply Hstop; reflexivity].
  destruct (Z.land (hdr_sink_eotf h) (BIT eotf) =? 0); [apply Hstop; reflexivity|].
  destruct (drm_hdmi_infoframe_set_hdr_metadata connector) as [frame|];
    [|apply Hstop; reflexivity].
  destruct (hdmi_drm_infoframe_pack frame) as [buffer|]; [|apply Hstop; reflexivity].
  clear Hstop. cbn [fst snd].
  match goal with |- context [drmi_write_words ?b ?l ?i ?n ?v (?h1, e)] =>
    destruct (drmi_write_words_run b l i n v h1 e) as (h' & new & -> & Hl & Hf & Hp & Hb)
  end.
  cbn [log phy_enabled bridge_is_on add_event set_regm] in Hl, Hp, Hb.
  eexists _, _. split; [reflexivity|].
  cbn [fst snd log phy_enabled bridge_is_on add_event set_regm].
  split; [rewrite Hl; log_split|]. split; [reg_events|]. split; assumption.
Qed.

(** C2, as amended: the first register access of hdmi_config_AVI is the
    write to PKT_AVI_CONTENTS0 of [(version << 8) | (length << 16)]: the
    frame version in bits 8 to 15 and the frame length in bits 16 to 23
    (version and length are unsigned chars). Everything later is a register
    access too. *)
Theorem hdmi_config_AVI_first_word (connector : drm_connector) (mode : drm_display_mode)
    (h : dw_hdmi) (e : E) :
  let frame := fst (hdmi_config_AVI_pack h connector mode) in
  0 <= avi_version frame < 256 ->
  0 <= avi_length frame < 256 ->
  exists (h' : dw_hdmi) (later : list event),
    hdmi_config_AVI connector mode (h, e) = Some (tt, (h', e)) /\
    log h' = later
             ++ EvWrite PKT_AVI_CONTENTS0
                  (Z.lor (Z.shiftl (avi_version frame) 8) (Z.shiftl (avi_length frame) 16))
             :: log h /\
    Forall reg_event later.
Proof.
  intros frame Hv Hl.
  destruct (hdmi_config_AVI_run connector mode h e) as (h' & later & Hrun & Hlog & Hf & _).
  exists h', later. split; [exact Hrun|]. split; [|exact Hf].
  rewrite Hlog. fold frame. rewrite header_word_u32 by assumption. reflexivity.
Qed.

(** C3, as amended: when the PHY init returns an error [r], the setup stops
    there and returns [r]: it has written no register and has not marked the
    PHY enabled; [phy.enabled], [bridge_is_on] and [disabled] are as they
    were on entry. dw_hdmi_qp_update_power marks the bridge on before it
    calls the setup and drops the value the setup returns: when it powers
    the bridge on and the PHY init fails, [bridge_is_on] is left true, with
    [phy.enabled] unchanged and no register written. *)
Theorem dw_hdmi_qp_setup_phy_failure (connector : drm_connector) (mode : drm_display_mode)
    (h : dw_hdmi) (e : E) :
  let r := fst (phy_ops_init e (display_info connector) (previous_mode h)) in
  r <> 0 ->
  (exists (h' : dw_hdmi) (e' : E),
     dw_hdmi_qp_setup connector mode (h, e) = Some (r, (h', e')) /\
     phy_enabled h' = phy_enabled h /\
     bridge_is_on h' = bridge_is_on h /\
     disabled h' = disabled h /\
     regm h' = regm h /\
     log h' = EvPhyInit r :: log h) /\
  (disabled h = false ->
   force h = DRM_FORCE_ON \/ force h = DRM_FORCE_ON_DIGITAL
     \/ (force h = DRM_FORCE_UNSPECIFIED /\ rxsense h = true) ->
   bridge_is_on h = false ->
   curr_conn h = Some connector ->
   exists (h' : dw_hdmi) (e' : E),
     dw_hdmi_qp_update_power (h, e) = Some (tt, (h', e')) /\
     bridge_is_on h' = true /\
     phy_enabled h' = phy_enabled h /\
     disabled h' = false /\
     regm h' = regm h /\
     log h' = EvPhyInit r :: log h).
Proof.
  intros r Hr.
  assert (Hsetup : forall (m : drm_display_mode) (h0 : dw_hdmi),
            previous_mode h0 = previous_mode h ->
            exists (h' : dw_hdmi) (e' : E),
              dw_hdmi_qp_setup connector m (h0, e) = Some (r, (h', e')) /\
              phy_enabled h' = phy_enabled h0 /\
              bridge_is_on h' = bridge_is_on h0 /\
              disabled h' = disabled h0 /\
              regm h' = regm h0 /\
              log h' = EvPhyInit r :: log h0).
  { intros m h0 Hprev. unfold dw_hdmi_qp_setup, phy_init. run_prims.
    destruct (negb (Z.land (mode_flags m) DRM_MODE_FLAG_DBLCLK =? 0));
      cbn [fst snd previous_mode set_video set_hdmi_data];
      rewrite Hprev; fold r;
      destruct (phy_ops_init e (display_info connector) (previous_mode h)) as [r0 e1] eqn:Hphy;
      cbn [fst] in r; subst r;
      destruct (Z.eqb_spec r0 0) as [H0|_]; try contradiction;
      cbn [negb fst snd]; eexists _, _; (split; [reflexivity|]);
      repeat split; reflexivity. }
  split; [apply Hsetup; reflexivity|].
  intros Hdis Hforce Hoff Hconn.
  unfold dw_hdmi_qp_update_power. run_prims. rewrite Hdis, Hoff, Hconn.
  assert (Hon : (if decide (force h = DRM_FORCE_UNSPECIFIED)
                 then if rxsense h then DRM_FORCE_ON else DRM_FORCE_OFF
                 else force h) <> DRM_FORCE_OFF).
  { destruct Hforce as [Hf | [Hf | [Hf Hrx]]]; rewrite Hf; [| |rewrite Hrx];
      cbn; discriminate. }
  destruct (decide (_ = DRM_FORCE_OFF)) as [Hcontra|_]; [destruct (Hon Hcontra)|].
  cbn [negb fst snd].
  destruct (Hsetup (previous_mode h) (set_bridge_is_on true h) eq_refl)
    as (h' & e' & -> & Hp & Hb & Hd' & Hreg & Hlog).
  cbn [phy_enabled bridge_is_on disabled regm log set_bridge_is_on] in Hp, Hb, Hd', Hreg, Hlog.
  exists h', e'. split; [reflexivity|].
  repeat split; congruence.
Qed.


End Setup.

(** * Further properties *)

(** ** The transaction engine in detail *)

Lemma waits_app (l1 l2 : list event) : waits (l1 ++ l2) = (waits l1 + waits l2)%nat.
Proof.
  induction l1 as [|ev l1 IH]; [reflexivity|].
  destruct ev; cbn [app waits]; rewrite IH; reflexivity.
Qed.

Lemma written_app (reg : Z) (l1 l2 : list event) :
  written reg (l1 ++ l2) = written reg l2 ++ written reg l1.
Proof.
  induction l1 as [|ev l1 IH]; [cbn; rewrite app_nil_r; reflexivity|].
  destruct ev; cbn [app written]; try exact IH.
  destruct (reg0 =? reg); [rewrite IH, app_assoc; reflexivity | exact IH].
Qed.

Lemma irq_events_ack {Hd : Headers} (l : list event) :
  Forall irq_event l -> Forall data_or_ack l.
Proof.
  intros H. eapply Forall_impl; [exact H|].
  intros ev [-> | [v ->]]; [exact I | right; reflexivity].
Qed.

Lemma irq_events_written {Hd : Headers} (reg : Z) (l : list event) :
  reg <> MAINUNIT_1_INT_CLEAR -> Forall irq_event l -> written reg l = [].
Proof.
  intros Hne H. induction H as [|ev l Hev _ IH]; [reflexivity|].
  destruct Hev as [-> | [v ->]]; cbn [written]; [exact IH|].
  destruct (Z.eqb_spec MAINUNIT_1_INT_CLEAR reg) as [Heq|_]; [congruence | exact IH].
Qed.

Ltac acks :=
  repeat first [ apply List.Forall_nil
               | assumption
               | apply List.Forall_cons; [first [exact I | left; reflexivity | right; reflexivity]|]
               | match goal with
                 | |- Forall _ (_ ++ _) => apply Forall_app; split
                 end ].

Section EngineDetail.
Context {Hd : Headers} {E : Type} {Ev : Env E}.

Lemma i2c_detail_app (h' : dw_hdmi) (r : Z) (new old : list event) :
  i2c_detail h' r new -> Forall data_or_ack old -> i2c_detail h' r (new ++ old).
Proof.
  intros [Hr Hn | older Hr Hn Hs | older Hr Hn] Hold.
  - apply od_done; [exact Hr | acks].
  - apply (od_nack _ _ _ (older ++ old)); [exact Hr | rewrite Hn; reflexivity | exact Hs].
  - apply (od_timeout _ _ _ (older ++ old)); [exact Hr | rewrite Hn; reflexivity].
Qed.

Lemma wait_detail (h : dw_hdmi) (e : E) :
  exists (dn : bool) (h' : dw_hdmi) (e' : E) (mid : list event),
    wait_for_completion_timeout (h, e) = Some ((if dn then 1 else 0), (h', e')) /\
    log h' = EvWait dn :: mid ++ log h /\
    waits mid = 0%nat /\
    Forall irq_event mid /\
    slave_reg (i2c h') = slave_reg (i2c h) /\
    is_regaddr (i2c h') = is_regaddr (i2c h).
Proof.
  unfold wait_for_completion_timeout, dw_hdmi_qp_main_hardirq, dw_hdmi_qp_read,
    dw_hdmi_qp_write, regmap_write, regmap_read, bind, emit, modify, gets, ret.
  cbn [fst snd].
  destruct (irq_window e (regm h)) as [[e1 r1] irq].
  destruct irq; cbn -[u8 u32 Z.land Z.lor].
  - match goal with |- context [negb (?x =? 0)] => set (istat := x) end.
    destruct (istat =? 0); cbn -[u8 u32 Z.land Z.lor].
    + eexists _, _, _, [_]. split; [reflexivity|]. cbn.
      repeat split; try reflexivity.
      apply List.Forall_cons; [left; reflexivity | apply List.Forall_nil].
    + exists true. eexists _, _, [_; _]. split; [reflexivity|].
      cbn -[u8 u32 Z.land Z.lor].
      repeat split; try reflexivity.
      apply List.Forall_cons; [right; eexists; reflexivity|].
      apply List.Forall_cons; [left; reflexivity | apply List.Forall_nil].
  - eexists _, _, _, []. split; [reflexivity|]. cbn.
    repeat split; try reflexivity. apply List.Forall_nil.
Qed.

Ltac step_detail :=
  match goal with
  | |- context [wait_for_completion_timeout (?h1, ?e1)] =>
      let dn := fresh "dn" in let h2 := fresh "h" in let e2 := fresh "e" in
      let mid := fresh "mid" in
      destruct (wait_detail h1 e1)
        as (dn & h2 & e2 & mid & -> & Hlog & Hw & Hirq & Hsr & Hra);
      pose proof (irq_events_ack _ Hirq) as Hack;
      cbn [log i2c lock slave_reg is_regaddr is_segment add_event set_i2c set_regm
           set_cmp set_slave_reg] in Hlog, Hsr, Hra
  end.

Lemma u8_advance (r w : Z) : u8 (u8 (r + 1) + w) = u8 (r + (1 + w)).
Proof.
  unfold u8. rewrite Zplus_mod_idemp_l. f_equal. lia.
Qed.

Lemma i2c_write_loop_detail (buf : list Z) (h : dw_hdmi) (e : E) :
  exists (r : Z) (h' : dw_hdmi) (e' : E) (new : list event),
    i2c_write_loop buf (h, e) = Some (r, (h', e')) /\
    log h' = new ++ log h /\
    i2c_detail h' r new /\
    u8 (slave_reg (i2c h')) = u8 (slave_reg (i2c h) + Z.of_nat (waits new)) /\
    (waits new <= length buf)%nat /\
    (r = 0 -> waits new = length buf) /\
    (I2CM_INTERFACE_WRDATA_0_3 <> MAINUNIT_1_INT_CLEAR ->
     I2CM_INTERFACE_WRDATA_0_3 <> I2CM_CONTROL0 ->
     written I2CM_INTERFACE_WRDATA_0_3 new = map u32 (take (waits new) buf)) /\
    is_regaddr (i2c h') = is_regaddr (i2c h).
Proof.
  revert h e. induction buf as [|b rest IH]; intros h e.
  - exists 0, h, e, []. cbn [waits length]. rewrite Z.add_0_r.
    repeat split; try reflexivity. apply od_done; [reflexivity | acks].
  - cbn [i2c_write_loop]. run_prims. step_detail.
    destruct dn; cbn [Z.eqb negb fst snd].
    + (* completed *)
      destruct (Z.land (stat (i2c h0)) I2CM_NACK_RCVD_IRQ =? 0) eqn:Hnack; cbn [negb fst snd].
      * match goal with |- context [i2c_write_loop rest (?h3, ?e3)] =>
          destruct (IH h3 e3)
            as (r & h' & e' & new & Hrun & Hl & Hout & Hp & Hle & Hall & Hdata & Hra')
        end.
        fields_in Hl; fields_in Hp; fields_in Hra'.
        rewrite Hlog in Hl. rewrite Hsr in Hp.
        eexists r, h', e', _. split; [exact Hrun|].
        split; [rewrite Hl; log_split|].
        split; [apply i2c_detail_app; [exact Hout | acks]|].
        rewrite !written_app, !waits_app. cbn [waits written length].
        rewrite written_app, waits_app, Hw. cbn [waits written].
        rewrite !Nat.add_0_r, Nat.add_1_r, Z.eqb_refl.
        split; [rewrite Hp, u8_advance; f_equal; lia|].
        split; [lia|]. split; [intros Hr; rewrite (Hall Hr); reflexivity|].
        split; [|congruence].
        intros Hclr Hctl. rewrite (irq_events_written _ _ Hclr Hirq), (Hdata Hclr Hctl).
        reflexivity.
      * eexists _, _, _, _. split; [reflexivity|]. fields.
        split; [rewrite Hlog; log_split|].
        split.
        { eapply od_nack; [reflexivity | reflexivity |].
          fields. apply Z.eqb_neq. exact Hnack. }
        cbn [waits written app]. rewrite written_app, waits_app, Hw. cbn [waits written].
        rewrite Z.eqb_refl.
        split; [rewrite Hsr; unfold u8; rewrite Zmod_mod; reflexivity|].
        split; [cbn [length]; lia|]. split; [discriminate|].
        split; [|congruence].
        intros Hclr Hctl. rewrite (irq_events_written _ _ Hclr Hirq).
        destruct (Z.eqb_spec I2CM_CONTROL0 I2CM_INTERFACE_WRDATA_0_3) as [Heq|_];
          [congruence | reflexivity].
    + (* timeout *)
      eexists _, _, _, _. split; [reflexivity|]. fields.
      split; [rewrite Hlog; log_split|].
      split; [eapply od_timeout; reflexivity|].
      cbn [waits written app]. rewrite written_app, waits_app, Hw. cbn [waits written].
      rewrite Z.eqb_refl.
      split; [rewrite Hsr; unfold u8; rewrite Zmod_mod; reflexivity|].
      split; [cbn [length]; lia|]. split; [discriminate|].
      split; [|congruence].
      intros Hclr Hctl. rewrite (irq_events_written _ _ Hclr Hirq).
      destruct (Z.eqb_spec I2CM_CONTROL0 I2CM_INTERFACE_WRDATA_0_3) as [Heq|_];
        [congruence | reflexivity].
Qed.

Lemma u8_is_byte (x : Z) : is_byte (u8 x).
Proof. unfold is_byte, u8. apply Z.mod_pos_bound. lia. Qed.

Lemma i2c_read_loop_detail (buf : list Z) (h : dw_hdmi) (e : E) :
  exists (r : Z) (buf' : list Z) (h' : dw_hdmi) (e' : E) (new : list event) (stored : nat),
    i2c_read_loop buf (h, e) = Some ((r, buf'), (h', e')) /\
    log h' = new ++ log h /\
    i2c_detail h' r new /\
    u8 (slave_reg (i2c h')) = u8 (slave_reg (i2c h) + Z.of_nat (waits new)) /\
    waits new = (stored + (if (r =? 0)%Z then 0 else 1))%nat /\
    (waits new <= length buf)%nat /\
    (r = 0 -> stored = length buf) /\
    length buf' = length buf /\
    drop stored buf' = drop stored buf /\
    Forall is_byte (take stored buf') /\
    is_regaddr (i2c h') = is_regaddr (i2c h).
Proof.
  revert h e. induction buf as [|b rest IH]; intros h e.
  - exists 0, [], h, e, [], 0%nat. cbn [waits length]. rewrite Z.add_0_r.
    repeat split; try reflexivity; try (apply od_done; [reflexivity | acks]).
    apply List.Forall_nil.
  - cbn [i2c_read_loop]. run_prims. step_detail.
    destruct dn; cbn [Z.eqb negb fst snd].
    + (* completed *)
      destruct (Z.land (stat (i2c h0)) I2CM_NACK_RCVD_IRQ =? 0) eqn:Hnack; cbn [negb fst snd].
      * match goal with |- context [i2c_read_loop rest (?h3, ?e3)] =>
          destruct (IH h3 e3)
            as (r & buf' & h' & e' & new & stored & -> & Hl & Hout & Hp & Hst & Hle & Hall
                & Hlen & Hdrop & Hbytes & Hra')
        end.
        fields_in Hl; fields_in Hp; fields_in Hra'.
        rewrite Hlog in Hl. rewrite Hsr in Hp. cbn [fst snd].
        eexists r, _, h', e', _, (S stored). split; [reflexivity|].
        split; [rewrite Hl; log_split|].
        split; [apply i2c_detail_app; [exact Hout | acks]|].
        rewrite !waits_app. cbn [waits length]. rewrite waits_app, Hw. cbn [waits].
        rewrite !Nat.add_0_r, Nat.add_1_r.
        split; [rewrite Hp, u8_advance; f_equal; lia|].
        split; [rewrite Hst; reflexivity|].
        split; [lia|]. split; [intros Hr; rewrite (Hall Hr); reflexivity|].
        split; [congruence|].
        split; [exact Hdrop|].
        split; [|congruence].
        cbn [take]. apply List.Forall_cons; [apply u8_is_byte | exact Hbytes].
      * eexists _, _, _, _, _, 0%nat. split; [reflexivity|]. fields.
        split; [rewrite Hlog; log_split|].
        split.
        { eapply od_nack; [reflexivity | reflexivity |].
          fields. apply Z.eqb_neq. exact Hnack. }
        cbn [waits app]. rewrite waits_app, Hw. cbn [waits].
        split; [rewrite Hsr; unfold u8; rewrite Zmod_mod; reflexivity|].
        split; [reflexivity|].
        split; [cbn [length]; lia|]. split; [discriminate|].
        split; [reflexivity|]. split; [reflexivity|].
        split; [apply List.Forall_nil | congruence].
    + (* timeout *)
      eexists _, _, _, _, _, 0%nat. split; [reflexivity|]. fields.
      split; [rewrite Hlog; log_split|].
      split; [eapply od_timeout; reflexivity|].
      cbn [waits app]. rewrite waits_app, Hw. cbn [waits].
      split; [rewrite Hsr; unfold u8; rewrite Zmod_mod; reflexivity|].
      split; [reflexivity|].
      split; [cbn [length]; lia|]. split; [discriminate|].
      split; [reflexivity|]. split; [reflexivity|].
      split; [apply List.Forall_nil | congruence].
Qed.

Lemma i2c_detail_state (h1 h2 : dw_hdmi) (r : Z) (new : list event) :
  stat (i2c h2) = stat (i2c h1) -> i2c_detail h1 r new -> i2c_detail h2 r new.
Proof.
  intros Hs [Hr Hn | older Hr Hn Hk | older Hr Hn].
  - apply od_done; assumption.
  - eapply od_nack; [exact Hr | exact Hn | rewrite Hs; exact Hk].
  - eapply od_timeout; [exact Hr | exact Hn].
Qed.

Lemma i2c_detail_result (h' : dw_hdmi) (r : Z) (new : list event) :
  i2c_detail h' r new -> r = 0 \/ r = - EIO \/ r = - EAGAIN.
Proof. intros [Hr _ | older Hr _ _ | older Hr _]; auto. Qed.

Lemma dw_hdmi_qp_i2c_read_detail (buf : list Z) (h : dw_hdmi) (e : E) :
  exists (r : Z) (buf' : list Z) (h' : dw_hdmi) (e' : E) (new : list event) (stored : nat),
    dw_hdmi_qp_i2c_read buf (h, e) = Some ((r, buf'), (h', e')) /\
    log h' = new ++ log h /\
    i2c_detail h' r new /\
    u8 (slave_reg (i2c h'))
    = u8 ((if is_regaddr (i2c h) then slave_reg (i2c h) else 0) + Z.of_nat (waits new)) /\
    waits new = (stored + (if (r =? 0)%Z then 0 else 1))%nat /\
    (waits new <= length buf)%nat /\
    (r = 0 -> stored = length buf) /\
    length buf' = length buf /\
    drop stored buf' = drop stored buf /\
    Forall is_byte (take stored buf') /\
    is_regaddr (i2c h') = true.
Proof.
  unfold dw_hdmi_qp_i2c_read. run_prims.
  destruct (is_regaddr (i2c h)) eqn:Hra; cbn [negb fst snd];
    match goal with |- context [i2c_read_loop buf (?h3, ?e3)] =>
      destruct (i2c_read_loop_detail buf h3 e3)
        as (r & buf' & h' & e' & new & stored & -> & Hl & Hout & Hp & Hst & Hle & Hall
            & Hlen & Hdrop & Hbytes & Hra')
    end;
    fields_in Hl; fields_in Hp; fields_in Hra'; cbn [fst snd];
    destruct (r =? 0) eqn:Hr;
    [ apply Z.eqb_eq in Hr; subst r | | apply Z.eqb_eq in Hr; subst r | ];
    eexists _, buf', _, e', new, stored; (split; [reflexivity|]); fields;
    (split; [exact Hl|]);
    (split; [eapply i2c_detail_state; [|exact Hout]; reflexivity|]);
    (split; [exact Hp|]); (split; [rewrite ?Hr; exact Hst|]); (split; [exact Hle|]);
    (split; [first [exact Hall | intros Hr0; rewrite Hr0 in Hr; discriminate]|]);
    (split; [exact Hlen|]); (split; [exact Hdrop|]); (split; [exact Hbytes|]);
    congruence.
Qed.

Lemma dw_hdmi_qp_i2c_write_detail (buf : list Z) (h : dw_hdmi) (e : E) :
  buf <> [] ->
  let data := if is_regaddr (i2c h) then buf else tail buf in
  exists (r : Z) (h' : dw_hdmi) (e' : E) (new : list event),
    dw_hdmi_qp_i2c_write buf (h, e) = Some (r, (h', e')) /\
    log h' = new ++ log h /\
    i2c_detail h' r new /\
    u8 (slave_reg (i2c h'))
    = u8 ((if is_regaddr (i2c h) then slave_reg (i2c h) else hd 0 buf)
          + Z.of_nat (waits new)) /\
    (waits new <= length data)%nat /\
    (r = 0 -> waits new = length data) /\
    (I2CM_INTERFACE_WRDATA_0_3 <> MAINUNIT_1_INT_CLEAR ->
     I2CM_INTERFACE_WRDATA_0_3 <> I2CM_CONTROL0 ->
     written I2CM_INTERFACE_WRDATA_0_3 new = map u32 (take (waits new) data)) /\
    is_regaddr (i2c h') = true.
Proof.
  intros Hne. unfold dw_hdmi_qp_i2c_write. run_prims.
  destruct (is_regaddr (i2c h)) eqn:Hra; cbn [negb fst snd]; cbv zeta.
  - destruct (i2c_write_loop_detail buf h e)
      as (r & h' & e' & new & -> & Hl & Hout & Hp & Hle & Hall & Hdata & Hra').
    eexists _, _, _, _. split; [reflexivity|].
    repeat split; try eassumption; congruence.
  - destruct buf as [|b0 rest]; [congruence|].
    match goal with |- context [i2c_write_loop rest (?h3, ?e3)] =>
      destruct (i2c_write_loop_detail rest h3 e3)
        as (r & h' & e' & new & -> & Hl & Hout & Hp & Hle & Hall & Hdata & Hra')
    end.
    fields_in Hl; fields_in Hp; fields_in Hra'. cbn [hd tail].
    eexists _, _, _, _. split; [reflexivity|].
    split; [exact Hl|]. split; [exact Hout|].
    split; [rewrite Hp; unfold u8; rewrite Zplus_mod_idemp_l; reflexivity|].
    repeat split; try eassumption; congruence.
Qed.

Lemma msg_frame_refl (m : i2c_msg) : msg_frame m m.
Proof. repeat split; reflexivity. Qed.

Lemma msgs_frame_refl (msgs : list i2c_msg) : Forall2 msg_frame msgs msgs.
Proof. induction msgs; constructor; [apply msg_frame_refl | assumption]. Qed.

Lemma xfer_loop_detail (msgs : list i2c_msg) (h : dw_hdmi) (e : E) :
  existsb (fun m => len m =? 0) msgs = false ->
  exists (r : Z) (msgs' : list i2c_msg) (h' : dw_hdmi) (e' : E) (new : list event),
    xfer_loop msgs 0 (h, e) = Some ((r, msgs'), (h', e')) /\
    log h' = new ++ log h /\
    i2c_detail h' r new /\
    Forall2 msg_frame msgs msgs' /\
    (waits new <= bus_bytes (is_regaddr (i2c h)) msgs)%nat /\
    (r = 0 -> waits new = bus_bytes (is_regaddr (i2c h)) msgs).
Proof.
  revert h e. induction msgs as [|m rest IH]; intros h e Hlen.
  - exists 0, [], h, e, []. repeat split; try reflexivity; [|constructor].
    apply od_done; [reflexivity | acks].
  - cbn [existsb] in Hlen. apply orb_false_elim in Hlen as [Hm Hrest].
    cbn [xfer_loop bus_bytes].
    assert (Hhead : exists (r : Z) (m' : i2c_msg) (h1 : dw_hdmi) (e1 : E) (new : list event)
                           (n : nat),
      (if (addr m =? DDC_SEGMENT_ADDR) && (len m =? 1) then
         modify (set_i2c (set_is_segment true)) ;;
         dw_hdmi_qp_mod DDC_SEGMENT_ADDR I2CM_SEG_ADDR I2CM_INTERFACE_CONTROL1 ;;
         dw_hdmi_qp_mod (hd 0 (buf m)) I2CM_SEG_PTR I2CM_INTERFACE_CONTROL1 ;;
         ret (0, m)
       else if negb (Z.land (flags m) I2C_M_RD =? 0) then
         y <- dw_hdmi_qp_i2c_read (buf m) ;;
         ret (fst y, set_buf (snd y) m)
       else
         y <- dw_hdmi_qp_i2c_write (buf m) ;;
         ret (y, m))%M (h, e) = Some ((r, m'), (h1, e1)) /\
      log h1 = new ++ log h /\ i2c_detail h1 r new /\ msg_frame m m' /\
      (waits new <= n)%nat /\ (r = 0 -> waits new = n) /\
      (if (addr m =? DDC_SEGMENT_ADDR) && (len m =? 1)
       then bus_bytes (is_regaddr (i2c h)) rest
       else if negb (Z.land (flags m) I2C_M_RD =? 0)
            then (length (buf m) + bus_bytes true rest)%nat
            else ((if is_regaddr (i2c h) then length (buf m) else length (buf m) - 1)
                  + bus_bytes true rest)%nat)
      = (n + bus_bytes (is_regaddr (i2c h1)) rest)%nat).
    { destruct ((addr m =? DDC_SEGMENT_ADDR) && (len m =? 1)).
      - run_prims. eexists _, _, _, _, _, 0%nat. split; [reflexivity|]. fields.
        split; [log_split|]. split; [apply od_done; [reflexivity | acks]|].
        split; [apply msg_frame_refl|]. cbn [waits].
        split; [lia|]. split; reflexivity.
      - destruct (Z.land (flags m) I2C_M_RD =? 0) eqn:Hrd; cbn [negb].
        + destruct (dw_hdmi_qp_i2c_write_detail (buf m) h e (len_nonzero m Hm))
            as (r & h1 & e1 & new & Hrun & Hl & Hout & _ & Hle & Hall & _ & Hra).
          cbv zeta in Hle, Hall.
          unfold bind at 1. rewrite Hrun. unfold ret. cbn [fst snd].
          eexists _, _, _, _, _, _. split; [reflexivity|]. cbn [fst snd].
          split; [exact Hl|]. split; [exact Hout|]. split; [apply msg_frame_refl|].
          split; [exact Hle|]. split; [exact Hall|].
          rewrite Hra. destruct (is_regaddr (i2c h)); [reflexivity|].
          f_equal. destruct (buf m); cbn; lia.
        + destruct (dw_hdmi_qp_i2c_read_detail (buf m) h e)
            as (r & buf' & h1 & e1 & new & stored & Hrun & Hl & Hout & _ & Hst & Hle & Hall
                & Hlen' & _ & _ & Hra).
          unfold bind at 1. rewrite Hrun. unfold ret. cbn [fst snd].
          eexists _, _, _, _, _, _. split; [reflexivity|]. cbn [fst snd].
          split; [exact Hl|]. split; [exact Hout|].
          split.
          { repeat split; try reflexivity; [exact Hlen'|].
            intros H0. apply Z.eqb_neq in Hrd. contradiction. }
          split; [exact Hle|].
          split; [intros Hr; rewrite Hst, Hr, (Hall Hr); cbn; lia|].
          rewrite Hra. reflexivity. }
    destruct Hhead as (r & m' & h1 & e1 & new & n & Hrun & Hl & Hout & Hfr & Hle & Hall & ->).
    unfold bind at 1. rewrite Hrun. cbn [fst snd].
    destruct (r <? 0) eqn:Hneg.
    + unfold ret. eexists _, _, _, _, _. split; [reflexivity|].
      split; [exact Hl|]. split; [exact Hout|].
      split; [constructor; [exact Hfr | apply msgs_frame_refl]|].
      split; [lia|]. intros Hr. subst r. vm_compute in Hneg. discriminate.
    + assert (Hr0 : r = 0).
      { destruct (i2c_detail_result _ _ _ Hout) as [Hr | [Hr | Hr]];
          [exact Hr | |]; subst r; vm_compute in Hneg; discriminate. }
      subst r.
      destruct (IH h1 e1 Hrest)
        as (r2 & msgs' & h2 & e2 & new2 & Hrun2 & Hl2 & Hout2 & Hfr2 & Hle2 & Hall2).
      unfold bind at 1. rewrite Hrun2. unfold ret. cbn [fst snd].
      eexists _, _, _, _, (new2 ++ new). split; [reflexivity|].
      split; [rewrite Hl2, Hl; apply app_assoc|].
      split.
      { apply i2c_detail_app; [exact Hout2|].
        destruct Hout as [_ Hn | older Hr _ _ | older Hr _];
          [exact Hn | discriminate | discriminate]. }
      split; [constructor; assumption|].
      rewrite waits_app, (Hall eq_refl).
      split; [lia|]. intros Hr2. rewrite (Hall2 Hr2). lia.
Qed.

(** dw_hdmi_qp_i2c_xfer once the two checks have passed, in detail. *)
Lemma dw_hdmi_qp_i2c_xfer_detail (h : dw_hdmi) (e : E) (m0 : i2c_msg) (ms : list i2c_msg) :
  (u8 (addr m0) =? DDC_CI_ADDR) = false ->
  existsb (fun m => len m =? 0) (m0 :: ms) = false ->
  exists (r : Z) (msgs' : list i2c_msg) (h' : dw_hdmi) (e' : E) (new tail : list event),
    dw_hdmi_qp_i2c_xfer (m0 :: ms) (h, e)
    = Some ((if r =? 0 then Z.of_nat (length (m0 :: ms)) else r, msgs'), (h', e')) /\
    log h' = EvMutexUnlock
             :: EvUpdateBits MAINUNIT_1_INT_MASK_N
                  (Z.lor I2CM_OP_DONE_MASK_N I2CM_NACK_RCVD_MASK_N) 0
             :: new ++ tail ++ log h /\
    Forall data_or_ack tail /\
    waits tail = 0%nat /\
    i2c_detail h' r new /\
    Forall2 msg_frame (m0 :: ms) msgs' /\
    (waits new <= bus_bytes false (m0 :: ms))%nat /\
    (r = 0 -> waits new = bus_bytes false (m0 :: ms)).
Proof.
  intros Hci Hlen. unfold dw_hdmi_qp_i2c_xfer. rewrite Hci, Hlen.
  run_prims.
  match goal with |- context [xfer_loop (m0 :: ms) 0 (?h1, ?e1)] =>
    destruct (xfer_loop_detail (m0 :: ms) h1 e1 Hlen)
      as (r & msgs' & h' & e' & new & -> & Hl & Hout & Hfr & Hle & Hall)
  end.
  fields_in Hl. fields_in Hle. fields_in Hall. cbn [fst snd].
  eexists r, msgs', _, e', new, [_; _; _]. split; [reflexivity|]. fields.
  split; [rewrite Hl; reflexivity|].
  split; [acks|]. split; [reflexivity|].
  split; [eapply i2c_detail_state; [|exact Hout]; reflexivity|].
  split; [exact Hfr|]. split; [exact Hle | exact Hall].
Qed.

(** X1: dw_hdmi_qp_i2c_xfer refuses a transfer with -EOPNOTSUPP exactly when
    its first message is addressed to the DDC/CI address (in the low eight
    bits) or one of its messages, at any position, is empty; a refused
    transfer has done nothing: the messages, the device, its registers and
    log, and the world are as before. *)
Theorem dw_hdmi_qp_i2c_xfer_refusal (h : dw_hdmi) (e : E) (m0 : i2c_msg) (ms : list i2c_msg) :
  exists (r : Z) (msgs' : list i2c_msg) (w' : dw_hdmi * E),
    dw_hdmi_qp_i2c_xfer (m0 :: ms) (h, e) = Some ((r, msgs'), w') /\
    (r = - EOPNOTSUPP <->
     u8 (addr m0) = DDC_CI_ADDR \/ Exists (fun m => len m = 0) (m0 :: ms)) /\
    (r = - EOPNOTSUPP -> msgs' = m0 :: ms /\ w' = (h, e)).
Proof.
  destruct (u8 (addr m0) =? DDC_CI_ADDR) eqn:Hci.
  { exists (- EOPNOTSUPP), (m0 :: ms), (h, e).
    split; [unfold dw_hdmi_qp_i2c_xfer; rewrite Hci; reflexivity|].
    apply Z.eqb_eq in Hci. split; [split; auto | auto]. }
  destruct (existsb (fun m => len m =? 0) (m0 :: ms)) eqn:Hlen.
  { exists (- EOPNOTSUPP), (m0 :: ms), (h, e).
    split; [unfold dw_hdmi_qp_i2c_xfer; rewrite Hci, Hlen; reflexivity|].
    split; [split; [intros _ | reflexivity] | auto].
    right. apply existsb_exists in Hlen as (m & Hin & Hm).
    apply List.Exists_exists. exists m. split; [exact Hin | apply Z.eqb_eq; exact Hm]. }
  destruct (dw_hdmi_qp_i2c_xfer_detail h e m0 ms Hci Hlen)
    as (r & msgs' & h' & e' & new & tl & Hrun & _ & _ & _ & Hout & _).
  eexists _, msgs', (h', e'). split; [exact Hrun|].
  assert (Hr : (if r =? 0 then Z.of_nat (length (m0 :: ms)) else r) <> - EOPNOTSUPP).
  { destruct (i2c_detail_result _ _ _ Hout) as [-> | [-> | ->]].
    - cbn [Z.eqb length]. unfold EOPNOTSUPP. lia.
    - vm_compute. discriminate.
    - vm_compute. discriminate. }
  split; [|intros Heq; destruct (Hr Heq)].
  split; [intros Heq; destruct (Hr Heq)|].
  intros [Ha | Hex]; exfalso.
  - apply Z.eqb_neq in Hci. exact (Hci Ha).
  - apply List.Exists_exists in Hex as (m & Hin & Hm).
    assert (Ht : existsb (fun m => len m =? 0) (m0 :: ms) = true)
      by (apply existsb_exists; exists m; split; [exact Hin | apply Z.eqb_eq; exact Hm]).
    rewrite Ht in Hlen. discriminate.
Qed.

(** X2: a transfer returns -EIO only after an operation that completed with a
    NACK: the interrupt status the handler latched last in [i2c->stat] has
    the NACK bit, and the last events of the transfer are that completed
    wait, the write of the software-reset value 0x01 to I2CM_CONTROL0, the
    re-masking of the two interrupts and the release of the mutex. *)
Theorem dw_hdmi_qp_i2c_xfer_nack (h : dw_hdmi) (e : E) (m0 : i2c_msg) (ms : list i2c_msg) :
  exists (r : Z) (msgs' : list i2c_msg) (h' : dw_hdmi) (e' : E) (new : list event),
    dw_hdmi_qp_i2c_xfer (m0 :: ms) (h, e) = Some ((r, msgs'), (h', e')) /\
    log h' = new ++ log h /\
    (r = - EIO ->
     Z.land (stat (i2c h')) I2CM_NACK_RCVD_IRQ <> 0 /\
     exists older : list event,
       new = EvMutexUnlock
             :: EvUpdateBits MAINUNIT_1_INT_MASK_N
                  (Z.lor I2CM_OP_DONE_MASK_N I2CM_NACK_RCVD_MASK_N) 0
             :: EvWrite I2CM_CONTROL0 0x01 :: EvWait true :: older).
Proof.
  destruct (u8 (addr m0) =? DDC_CI_ADDR) eqn:Hci.
  { exists (- EOPNOTSUPP), (m0 :: ms), h, e, [].
    split; [unfold dw_hdmi_qp_i2c_xfer; rewrite Hci; reflexivity|].
    split; [reflexivity | discriminate]. }
  destruct (existsb (fun m => len m =? 0) (m0 :: ms)) eqn:Hlen.
  { exists (- EOPNOTSUPP), (m0 :: ms), h, e, [].
    split; [unfold dw_hdmi_qp_i2c_xfer; rewrite Hci, Hlen; reflexivity|].
    split; [reflexivity | discriminate]. }
  destruct (dw_hdmi_qp_i2c_xfer_detail h e m0 ms Hci Hlen)
    as (r & msgs' & h' & e' & new & tl & Hrun & Hlog & _ & _ & Hout & _).
  eexists _, msgs', h', e', _. split; [exact Hrun|].
  split; [rewrite Hlog; log_split|].
  destruct Hout as [-> _ | older -> -> Hs | older -> ->].
  - cbn [Z.eqb length]. unfold EIO. lia.
  - intros _. split; [exact Hs|]. eexists. cbn [app]. reflexivity.
  - vm_compute. discriminate.
Qed.

(** X3: when the data register and the interrupt-clear register are not the
    command register, a transfer writes to I2CM_CONTROL0 (the software
    reset) exactly when it fails with -EIO or -EAGAIN: a transfer that
    completes, and one that is refused, never resets the controller. *)
Theorem dw_hdmi_qp_i2c_xfer_reset_on_failure (h : dw_hdmi) (e : E)
    (m0 : i2c_msg) (ms : list i2c_msg) :
  I2CM_CONTROL0 <> I2CM_INTERFACE_WRDATA_0_3 ->
  I2CM_CONTROL0 <> MAINUNIT_1_INT_CLEAR ->
  exists (r : Z) (msgs' : list i2c_msg) (h' : dw_hdmi) (e' : E) (new : list event),
    dw_hdmi_qp_i2c_xfer (m0 :: ms) (h, e) = Some ((r, msgs'), (h', e')) /\
    log h' = new ++ log h /\
    ((exists v : Z, In (EvWrite I2CM_CONTROL0 v) new) <-> r = - EIO \/ r = - EAGAIN).
Proof.
  intros Hwr Hclr.
  assert (Hnone : forall l : list event,
            Forall data_or_ack l -> ~ exists v : Z, In (EvWrite I2CM_CONTROL0 v) l).
  { intros l Hl [v Hin]. rewrite List.Forall_forall in Hl.
    destruct (Hl _ Hin) as [Heq | Heq]; [exact (Hwr Heq) | exact (Hclr Heq)]. }
  destruct (u8 (addr m0) =? DDC_CI_ADDR) eqn:Hci.
  { exists (- EOPNOTSUPP), (m0 :: ms), h, e, [].
    split; [unfold dw_hdmi_qp_i2c_xfer; rewrite Hci; reflexivity|].
    split; [reflexivity|]. split; [intros [v []] | intros [Hr | Hr]; discriminate]. }
  destruct (existsb (fun m => len m =? 0) (m0 :: ms)) eqn:Hlen.
  { exists (- EOPNOTSUPP), (m0 :: ms), h, e, [].
    split; [unfold dw_hdmi_qp_i2c_xfer; rewrite Hci, Hlen; reflexivity|].
    split; [reflexivity|]. split; [intros [v []] | intros [Hr | Hr]; discriminate]. }
  destruct (dw_hdmi_qp_i2c_xfer_detail h e m0 ms Hci Hlen)
    as (r & msgs' & h' & e' & new & tl & Hrun & Hlog & Htl & _ & Hout & _).
  eexists _, msgs', h', e', _. split; [exact Hrun|].
  split; [rewrite Hlog; log_split|].
  destruct Hout as [-> Hn | older -> -> Hs | older -> ->].
  - split.
    + intros Hex. exfalso. revert Hex. apply Hnone.
      apply List.Forall_cons; [exact I|]. apply List.Forall_cons; [exact I|]. acks.
    + cbn [Z.eqb length]. unfold EIO, EAGAIN. lia.
  - split; [intros _; left; reflexivity|].
    intros _. exists 1. right. right. left. reflexivity.
  - split; [intros _; right; reflexivity|].
    intros _. exists 1. right. right. left. reflexivity.
Qed.

(** X4: dw_hdmi_qp_i2c_read returns 0, -EIO or -EAGAIN. It starts one bus
    operation (one wait) for each byte it stores, and one more when it
    fails; it stores every byte of the buffer exactly when it returns 0. The
    bytes stored are values below 256, the rest of the buffer is as it was
    and the buffer keeps its length. The register pointer starts from 0
    unless a register address has been set in the transfer, and has advanced
    by one, modulo 256, for each operation started, the failed one
    included. *)
Theorem dw_hdmi_qp_i2c_read_bytes (buf : list Z) (h : dw_hdmi) (e : E) :
  exists (r : Z) (buf' : list Z) (h' : dw_hdmi) (e' : E) (new : list event) (stored : nat),
    dw_hdmi_qp_i2c_read buf (h, e) = Some ((r, buf'), (h', e')) /\
    log h' = new ++ log h /\
    (r = 0 \/ r = - EIO \/ r = - EAGAIN) /\
    waits new = (stored + (if (r =? 0)%Z then 0 else 1))%nat /\
    (r = 0 <-> stored = length buf) /\
    length buf' = length buf /\
    drop stored buf' = drop stored buf /\
    Forall (fun b => 0 <= b < 256) (take stored buf') /\
    u8 (slave_reg (i2c h'))
    = u8 ((if is_regaddr (i2c h) then slave_reg (i2c h) else 0) + Z.of_nat (waits new)).
Proof.
  destruct (dw_hdmi_qp_i2c_read_detail buf h e)
    as (r & buf' & h' & e' & new & stored & Hrun & Hl & Hout & Hp & Hst & Hle & Hall
        & Hlen & Hdrop & Hbytes & _).
  exists r, buf', h', e', new, stored. split; [exact Hrun|]. split; [exact Hl|].
  split; [exact (i2c_detail_result _ _ _ Hout)|]. split; [exact Hst|].
  split; [|repeat split; assumption].
  split; [exact Hall|]. intros Hs.
  destruct (Z.eqb_spec r 0) as [Hr|Hr]; [exact Hr | lia].
Qed.

(** X5: dw_hdmi_qp_i2c_write on a buffer that is not empty returns 0, -EIO
    or -EAGAIN. When no register address has been set in the transfer, its
    first byte is the register address and the rest is the data; otherwise
    the whole buffer is data. It starts one bus operation at a time, at most
    one for each data byte and one for each when it returns 0, and the
    register pointer has advanced from the register address by one, modulo
    256, for each operation started. When the data register is neither the
    interrupt-clear nor the command register, the values written to it are
    the data bytes of the operations started, in their order. *)
Theorem dw_hdmi_qp_i2c_write_bytes (buf : list Z) (h : dw_hdmi) (e : E) :
  buf <> [] ->
  I2CM_INTERFACE_WRDATA_0_3 <> MAINUNIT_1_INT_CLEAR ->
  I2CM_INTERFACE_WRDATA_0_3 <> I2CM_CONTROL0 ->
  let data := if is_regaddr (i2c h) then buf else tail buf in
  let reg := if is_regaddr (i2c h) then slave_reg (i2c h) else hd 0 buf in
  exists (r : Z) (h' : dw_hdmi) (e' : E) (new : list event),
    dw_hdmi_qp_i2c_write buf (h, e) = Some (r, (h', e')) /\
    log h' = new ++ log h /\
    (r = 0 \/ r = - EIO \/ r = - EAGAIN) /\
    (waits new <= length data)%nat /\
    (r = 0 -> waits new = length data) /\
    written I2CM_INTERFACE_WRDATA_0_3 new = map u32 (take (waits new) data) /\
    u8 (slave_reg (i2c h')) = u8 (reg + Z.of_nat (waits new)) /\
    is_regaddr (i2c h') = true.
Proof.
  intros Hne Hclr Hctl data reg.
  destruct (dw_hdmi_qp_i2c_write_detail buf h e Hne)
    as (r & h' & e' & new & Hrun & Hl & Hout & Hp & Hle & Hall & Hdata & Hra).
  exists r, h', e', new. split; [exact Hrun|]. split; [exact Hl|].
  split; [exact (i2c_detail_result _ _ _ Hout)|].
  split; [exact Hle|]. split; [exact Hall|].
  split; [exact (Hdata Hclr Hctl)|]. split; [exact Hp | exact Hra].
Qed.

(** X6: a transfer starts one bus operation at a time, and no more of them
    than its messages ask for: one for each byte read or written, none for
    the register address (the first byte of the first write, when no read or
    write came before it) and none for a segment pointer message. When it
    returns the number of messages it has started all of them. *)
Theorem dw_hdmi_qp_i2c_xfer_operations (h : dw_hdmi) (e : E) (m0 : i2c_msg) (ms : list i2c_msg) :
  exists (r : Z) (msgs' : list i2c_msg) (h' : dw_hdmi) (e' : E) (new : list event),
    dw_hdmi_qp_i2c_xfer (m0 :: ms) (h, e) = Some ((r, msgs'), (h', e')) /\
    log h' = new ++ log h /\
    (waits new <= bus_bytes false (m0 :: ms))%nat /\
    (r = Z.of_nat (length (m0 :: ms)) -> waits new = bus_bytes false (m0 :: ms)).
Proof.
  assert (Hnum : - EOPNOTSUPP <> Z.of_nat (length (m0 :: ms))) by (unfold EOPNOTSUPP; lia).
  destruct (u8 (addr m0) =? DDC_CI_ADDR) eqn:Hci.
  { exists (- EOPNOTSUPP), (m0 :: ms), h, e, [].
    split; [unfold dw_hdmi_qp_i2c_xfer; rewrite Hci; reflexivity|].
    split; [reflexivity|]. split; [cbn [waits]; lia|]. intros Hr. destruct (Hnum Hr). }
  destruct (existsb (fun m => len m =? 0) (m0 :: ms)) eqn:Hlen.
  { exists (- EOPNOTSUPP), (m0 :: ms), h, e, [].
    split; [unfold dw_hdmi_qp_i2c_xfer; rewrite Hci, Hlen; reflexivity|].
    split; [reflexivity|]. split; [cbn [waits]; lia|]. intros Hr. destruct (Hnum Hr). }
  destruct (dw_hdmi_qp_i2c_xfer_detail h e m0 ms Hci Hlen)
    as (r & msgs' & h' & e' & new & tl & Hrun & Hlog & Htl & Hwt & Hout & _ & Hle & Hall).
  eexists _, msgs', h', e', _. split; [exact Hrun|].
  split; [rewrite Hlog; log_split|].
  cbn [waits]. rewrite !waits_app, Hwt, Nat.add_0_r.
  split; [exact Hle|]. intros Hr. apply Hall.
  destruct (i2c_detail_result _ _ _ Hout) as [-> | [-> | ->]];
    [reflexivity | exfalso | exfalso];
    unfold EIO, EAGAIN in Hr;
    match type of Hr with (if ?c then _ else _) = _ =>
      let v := eval vm_compute in c in change c with v in Hr
    end; cbn [length] in Hr; lia.
Qed.

(** X7: a transfer of at least one message returns, with the number of
    messages, -EIO, -EAGAIN or -EOPNOTSUPP. It hands every message back with
    its address, its flags and the length of its buffer as they were; only
    the contents of the buffers of read messages may differ, and a write
    message is untouched. *)
Theorem dw_hdmi_qp_i2c_xfer_messages (h : dw_hdmi) (e : E) (m0 : i2c_msg) (ms : list i2c_msg) :
  exists (r : Z) (msgs' : list i2c_msg) (w' : dw_hdmi * E),
    dw_hdmi_qp_i2c_xfer (m0 :: ms) (h, e) = Some ((r, msgs'), w') /\
    (r = Z.of_nat (length (m0 :: ms)) \/ r = - EIO \/ r = - EAGAIN \/ r = - EOPNOTSUPP) /\
    Forall2 msg_frame (m0 :: ms) msgs'.
Proof.
  destruct (u8 (addr m0) =? DDC_CI_ADDR) eqn:Hci.
  { exists (- EOPNOTSUPP), (m0 :: ms), (h, e).
    split; [unfold dw_hdmi_qp_i2c_xfer; rewrite Hci; reflexivity|].
    split; [auto | apply msgs_frame_refl]. }
  destruct (existsb (fun m => len m =? 0) (m0 :: ms)) eqn:Hlen.
  { exists (- EOPNOTSUPP), (m0 :: ms), (h, e).
    split; [unfold dw_hdmi_qp_i2c_xfer; rewrite Hci, Hlen; reflexivity|].
    split; [auto | apply msgs_frame_refl]. }
  destruct (dw_hdmi_qp_i2c_xfer_detail h e m0 ms Hci Hlen)
    as (r & msgs' & h' & e' & new & tl & Hrun & _ & _ & _ & Hout & Hfr & _).
  eexists _, msgs', (h', e'). split; [exact Hrun|]. split; [|exact Hfr].
  destruct (i2c_detail_result _ _ _ Hout) as [-> | [-> | ->]]; auto.
Qed.

End EngineDetail.

(** ** Setup and power management *)

Lemma regs_only_refl (h : dw_hdmi) : regs_only h h.
Proof. unfold regs_only. destruct h; reflexivity. Qed.

Lemma regs_only_trans (h1 h2 h3 : dw_hdmi) :
  regs_only h1 h2 -> regs_only h2 h3 -> regs_only h1 h3.
Proof.
  unfold regs_only. intros H12 H23. rewrite H23. rewrite H12. reflexivity.
Qed.

Lemma regs_only_kept (h h' : dw_hdmi) :
  regs_only h h' ->
  lifecycle_kept h h' /\ phy_enabled h' = phy_enabled h /\
  bridge_is_on h' = bridge_is_on h /\ vic h' = vic h /\ hdmi_data h' = hdmi_data h.
Proof.
  unfold regs_only, lifecycle_kept. intros ->. cbn. repeat split; reflexivity.
Qed.

Lemma reg_event_not_phy (l : list event) :
  Forall reg_event l -> Forall (fun ev => ~ phy_event ev) l.
Proof.
  intros H. eapply Forall_impl; [exact H|]. intros [] Hev; cbn in *; tauto.
Qed.

Ltac no_phy :=
  repeat first [ apply List.Forall_nil
               | assumption
               | apply reg_event_not_phy; assumption
               | apply List.Forall_cons; [intros []|]
               | match goal with
                 | |- Forall _ (_ ++ _) => apply Forall_app; split
                 end ].

Ltac regs_frame :=
  repeat first [ apply regs_only_refl
               | reflexivity
               | eassumption
               | eapply regs_only_trans; [eassumption|]
               | eapply regs_only_trans; [|eassumption] ].

Section SetupDetail.
Context {Hd : Headers} {E : Type} {Ev : Env E} {Cm : Common}.

Lemma avi_write_words_regs (buf idx : list Z) (val : Z) (h : dw_hdmi) (e : E) :
  exists (h' : dw_hdmi) (new : list event),
    avi_write_words buf idx val (h, e) = Some (tt, (h', e)) /\
    log h' = new ++ log h /\ Forall reg_event new /\ regs_only h h'.
Proof.
  revert val h. induction idx as [|i idx IH]; intros val h.
  - exists h, []. repeat split; [reg_events | apply regs_only_refl].
  - cbn [avi_write_words]. cbv zeta. run_prims.
    match goal with |- context [avi_write_words buf idx ?v (?h1, e)] =>
      destruct (IH v h1) as (h' & new & -> & Hl & Hf & Hr)
    end.
    cbn [log add_event set_regm] in Hl.
    eexists h', _. split; [reflexivity|].
    split; [rewrite Hl; log_split|]. split; [reg_events|].
    eapply regs_only_trans; [|exact Hr]. reflexivity.
Qed.

Lemma hdmi_config_AVI_regs (connector : drm_connector) (mode : drm_display_mode)
    (h : dw_hdmi) (e : E) :
  exists (h' : dw_hdmi) (new : list event),
    hdmi_config_AVI connector mode (h, e) = Some (tt, (h', e)) /\
    log h' = new ++ log h /\ Forall reg_event new /\ regs_only h h'.
Proof.
  unfold hdmi_config_AVI. run_prims.
  match goal with |- context [avi_write_words ?b ?i ?v (?h1, e)] =>
    destruct (avi_write_words_regs b i v h1 e) as (h' & new & -> & Hl & Hf & Hr)
  end.
  cbn [log add_event set_regm] in Hl.
  eexists _, _. split; [reflexivity|].
  cbn [fst snd log add_event set_regm].
  split; [rewrite Hl; log_split|]. split; [reg_events|].
  eapply regs_only_trans; [eapply regs_only_trans; [|exact Hr]|]; reflexivity.
Qed.

Lemma drmi_write_words_regs (buffer : list Z) (flen i : Z) (n : nat) (val : Z)
    (h : dw_hdmi) (e : E) :
  exists (h' : dw_hdmi) (new : list event),
    drmi_write_words buffer flen i n val (h, e) = Some (tt, (h', e)) /\
    log h' = new ++ log h /\ Forall reg_event new /\ regs_only h h'.
Proof.
  revert i val h. induction n as [|n IH]; intros i val h.
  - exists h, []. repeat split; [reg_events | apply regs_only_refl].
  - cbn [drmi_write_words]. cbv zeta.
    destruct ((i mod 4 =? 3) || (i =? flen)); run_prims.
    + match goal with |- context [drmi_write_words buffer flen ?j n ?v (?h1, e)] =>
        destruct (IH j v h1) as (h' & new & -> & Hl & Hf & Hr)
      end.
      cbn [log add_event set_regm] in Hl.
      eexists h', _. split; [reflexivity|].
      split; [rewrite Hl; log_split|]. split; [reg_events|].
      eapply regs_only_trans; [|exact Hr]. reflexivity.
    + match goal with |- context [drmi_write_words buffer flen ?j n ?v (?h1, e)] =>
        destruct (IH j v h1) as (h' & new & -> & Hl & Hf & Hr)
      end.
      eexists h', _. split; [reflexivity|].
      split; [exact Hl|]. split; [reg_events | exact Hr].
Qed.

Lemma hdmi_config_drm_infoframe_regs (connector : drm_connector) (h : dw_hdmi) (e : E) :
  exists (h' : dw_hdmi) (new : list event),
    hdmi_config_drm_infoframe connector (h, e) = Some (tt, (h', e)) /\
    log h' = new ++ log h /\ Forall reg_event new /\ regs_only h h'.
Proof.
  unfold hdmi_config_drm_infoframe. run_prims.
  destruct (use_drm_infoframe h); cbn [negb];
    [|exists h, []; repeat split; [reg_events | apply regs_only_refl]].
  assert (Hstop : forall h1 : dw_hdmi,
            log h1 = [EvUpdateBits PKTSCHED_PKT_EN PKTSCHED_DRMI_TX_EN 0] ++ log h ->
            regs_only h h1 ->
            exists (h' : dw_hdmi) (new : list event),
              Some (tt, (h1, e)) = Some (tt, (h', e)) /\
              log h' = new ++ log h /\ Forall reg_event new /\ regs_only h h').
  { intros h1 Hl Hr. eexists h1, _. split; [reflexivity|].
    split; [exact Hl|]. split; [reg_events | exact Hr]. }
  destruct (hdr_sink_eotf h =? 0); [apply Hstop; reflexivity|].
  destruct (hdr_output_metadata connector) as [eotf|]; [|apply Hstop; reflexivity].
  destruct (Z.land (hdr_sink_eotf h) (BIT eotf) =? 0); [apply Hstop; reflexivity|].
  destruct (drm_hdmi_infoframe_set_hdr_metadata connector) as [frame|];
    [|apply Hstop; reflexivity].
  destruct (hdmi_drm_infoframe_pack frame) as [buffer|]; [|apply Hstop; reflexivity].
  clear Hstop. cbn [fst snd].
  match goal with |- context [drmi_write_words ?b ?l ?i ?n ?v (?h1, e)] =>
    destruct (drmi_write_words_regs b l i n v h1 e) as (h' & new & -> & Hl & Hf & Hr)
  end.
  cbn [log add_event set_regm] in Hl.
  eexists _, _. split; [reflexivity|].
  cbn [fst snd log add_event set_regm].
  split; [rewrite Hl; log_split|]. split; [reg_events|].
  eapply regs_only_trans; [eapply regs_only_trans; [|exact Hr]|]; reflexivity.
Qed.

(** dw_hdmi_qp_setup, whatever the sink and the PHY. *)
Lemma dw_hdmi_qp_setup_detail (connector : drm_connector) (mode : drm_display_mode)
    (h : dw_hdmi) (e : E) :
  let p := phy_ops_init e (display_info connector) (previous_mode h) in
  exists (h' : dw_hdmi) (new : list event),
    dw_hdmi_qp_setup connector mode (h, e) = Some (fst p, (h', snd p)) /\
    log h' = new ++ EvPhyInit (fst p) :: log h /\
    Forall (fun ev => ~ phy_event ev) new /\
    (fst p <> 0 -> new = [] /\ regm h' = regm h) /\
    (fst p = 0 -> sink_is_hdmi h = false ->
     new = [EvUpdateBits LINK_CONFIG0 OPMODE_DVI OPMODE_DVI;
            EvUpdateBits HDCP2LOGIC_CONFIG0 HDCP2_BYPASS HDCP2_BYPASS] /\
     exists orig : Z,
       regm h' !! LINK_CONFIG0 = Some (u32 (regmap_update_bits orig OPMODE_DVI OPMODE_DVI))) /\
    phy_enabled h' = (if fst p =? 0 then true else phy_enabled h) /\
    bridge_is_on h' = bridge_is_on h /\
    lifecycle_kept h h'.
Proof.
  intros p. unfold dw_hdmi_qp_setup, phy_init, drm_scdc_readb, drm_scdc_writeb,
    drm_scdc_set_high_tmds_clock_ratio, drm_scdc_set_scrambling.
  run_prims.
  assert (Htail : forall (h1 : dw_hdmi) (e1 : E) (mid : list event),
            log h1 = mid ++ EvPhyInit 0 :: log h ->
            Forall (fun ev => ~ phy_event ev) mid ->
            phy_enabled h1 = true -> bridge_is_on h1 = bridge_is_on h ->
            lifecycle_kept h h1 ->
            exists (h' : dw_hdmi) (new : list event),
              match
                match hdmi_config_AVI connector mode (h1, e1) with
                | Some (_, w') => hdmi_config_drm_infoframe connector w'
                | None => None
                end
              with
              | Some (_, w') => Some (0, w')
              | None => None
              end = Some (0, (h', e1)) /\
              log h' = new ++ EvPhyInit 0 :: log h /\
              Forall (fun ev => ~ phy_event ev) new /\
              (0 <> 0 -> new = [] /\ regm h' = regm h) /\
              (0 = 0 -> true = false ->
               new = [EvUpdateBits LINK_CONFIG0 OPMODE_DVI OPMODE_DVI;
                      EvUpdateBits HDCP2LOGIC_CONFIG0 HDCP2_BYPASS HDCP2_BYPASS] /\
               exists orig : Z,
                 regm h' !! LINK_CONFIG0
                 = Some (u32 (regmap_update_bits orig OPMODE_DVI OPMODE_DVI))) /\
              phy_enabled h' = true /\
              bridge_is_on h' = bridge_is_on h /\
              lifecycle_kept h h').
  { intros h1 e1 mid Hl Hmid Hpe Hon Hk.
    destruct (hdmi_config_AVI_regs connector mode h1 e1) as (h2 & l2 & -> & Hl2 & Hf2 & Hr2).
    destruct (hdmi_config_drm_infoframe_regs connector h2 e1) as (h3 & l3 & -> & Hl3 & Hf3 & Hr3).
    apply regs_only_kept in Hr2 as (Hk2 & Hp2 & Hb2 & _).
    apply regs_only_kept in Hr3 as (Hk3 & Hp3 & Hb3 & _).
    exists h3, (l3 ++ l2 ++ mid). split; [reflexivity|].
    split; [rewrite Hl3, Hl2, Hl, <- !app_assoc; reflexivity|].
    split; [no_phy|]. split; [intros Hc; destruct (Hc eq_refl)|].
    split; [discriminate|].
    split; [congruence|]. split; [congruence|].
    unfold lifecycle_kept in *. intuition congruence. }
  destruct (negb (Z.land (mode_flags mode) DRM_MODE_FLAG_DBLCLK =? 0));
    cbn [fst snd previous_mode sink_is_hdmi hdmi_data video_mode set_video set_hdmi_data
         set_video_mode set_pix_repet_factor add_event set_regm set_phy_enabled];
    fold p;
    destruct p as [r0 e0]; cbn [fst snd];
    (destruct (Z.eqb_spec r0 0) as [->|Hne]; cbn [negb fst snd];
     [| eexists _, []; (split; [reflexivity|]);
        (split; [reflexivity|]); (split; [no_phy|]);
        (split; [intros _; split; reflexivity|]);
        (split; [intros H0; destruct (Hne H0)|]);
        (split; [reflexivity|]); (split; [reflexivity|]);
        unfold lifecycle_kept; cbn; repeat split; reflexivity ]);
    cbn [fst snd previous_mode sink_is_hdmi hdmi_data video_mode set_video
         set_hdmi_data set_video_mode set_pix_repet_factor add_event set_regm
         set_phy_enabled];
    (destruct (sink_is_hdmi h); cbn [fst snd];
     [| eexists _, [_; _]; (split; [reflexivity|]);
        (split; [reflexivity|]); (split; [no_phy|]);
        (split; [intros Hc; destruct (Hc eq_refl)|]);
        (split; [intros _ _; split; [reflexivity|];
                 cbn [regm add_event set_regm]; rewrite lookup_insert_eq;
                 eexists; reflexivity|]);
        (split; [reflexivity|]); (split; [reflexivity|]);
        unfold lifecycle_kept; cbn; repeat split; reflexivity ]);
    cbn [mtmdsclock hdmi_data video_mode set_video set_hdmi_data set_video_mode
         set_pix_repet_factor add_event set_regm set_phy_enabled];
    match goal with
    | |- context [if ?c >? HDMI14_MAX_TMDSCLK then _ else _] =>
        destruct (c >? HDMI14_MAX_TMDSCLK)
    end;
    match goal with
    | |- context [dw_hdmi_support_scdc ?h1 ?di] => destruct (dw_hdmi_support_scdc h1 di)
    end; cbn [fst snd];
    match goal with |- context [hdmi_config_AVI connector mode (?h1, e0)] =>
      eapply (Htail h1 e0);
        [ cbn [log add_event set_regm set_phy_enabled set_video set_hdmi_data]; log_split
        | no_phy
        | reflexivity
        | reflexivity
        | unfold lifecycle_kept; cbn; repeat split; reflexivity ]
    end.
Qed.

(** X8: dw_hdmi_qp_setup returns what the PHY init returns, for every sink
    and mode. It calls the PHY init once, before any register access, with
    the display info of the connector and the previous mode, and calls no
    other PHY operation. When the PHY init fails nothing else is done;
    otherwise the PHY is marked enabled. The power state of the bridge and
    the lifecycle fields are as they were. *)
Theorem dw_hdmi_qp_setup_result (connector : drm_connector) (mode : drm_display_mode)
    (h : dw_hdmi) (e : E) :
  let p := phy_ops_init e (display_info connector) (previous_mode h) in
  exists (h' : dw_hdmi) (new : list event),
    dw_hdmi_qp_setup connector mode (h, e) = Some (fst p, (h', snd p)) /\
    log h' = new ++ EvPhyInit (fst p) :: log h /\
    Forall (fun ev => ~ phy_event ev) new /\
    (fst p <> 0 -> new = [] /\ regm h' = regm h) /\
    phy_enabled h' = (if fst p =? 0 then true else phy_enabled h) /\
    bridge_is_on h' = bridge_is_on h /\
    lifecycle_kept h h'.
Proof.
  intros p.
  destruct (dw_hdmi_qp_setup_detail connector mode h e)
    as (h' & new & Hrun & Hl & Hnp & Hfail & _ & Hpe & Hb & Hk).
  exists h', new. split; [exact Hrun|]. split; [exact Hl|]. split; [exact Hnp|].
  split; [exact Hfail|]. split; [exact Hpe|]. split; [exact Hb | exact Hk].
Qed.

(** X9: for a sink that is not HDMI (DVI mode), a setup whose PHY init
    succeeds does two register accesses and nothing else: it sets the HDCP2
    bypass and then the DVI operating mode. No infoframe is written, the
    scrambler is not touched and nothing is requested of the sink. The
    DVI bit of LINK_CONFIG0 is then set. *)
Theorem dw_hdmi_qp_setup_dvi (connector : drm_connector) (mode : drm_display_mode)
    (h : dw_hdmi) (e : E) :
  fst (phy_ops_init e (display_info connector) (previous_mode h)) = 0 ->
  sink_is_hdmi h = false ->
  0 <= OPMODE_DVI < 2 ^ 32 ->
  exists h' : dw_hdmi,
    dw_hdmi_qp_setup connector mode (h, e)
    = Some (0, (h', snd (phy_ops_init e (display_info connector) (previous_mode h)))) /\
    log h' = EvUpdateBits LINK_CONFIG0 OPMODE_DVI OPMODE_DVI
             :: EvUpdateBits HDCP2LOGIC_CONFIG0 HDCP2_BYPASS HDCP2_BYPASS
             :: EvPhyInit 0 :: log h /\
    Z.land (default 0 (regm h' !! LINK_CONFIG0)) OPMODE_DVI = OPMODE_DVI /\
    phy_enabled h' = true.
Proof.
  intros Hphy Hdvi Hmask.
  destruct (dw_hdmi_qp_setup_detail connector mode h e)
    as (h' & new & Hrun & Hl & _ & _ & Hnew & Hpe & _).
  destruct (Hnew Hphy Hdvi) as (-> & orig & Hreg).
  rewrite Hphy in Hrun, Hl, Hpe.
  exists h'. split; [exact Hrun|]. split; [exact Hl|]. split; [|exact Hpe].
  rewrite Hreg. cbn [default from_option id].
  rewrite u32_land by exact Hmask. rewrite update_bits_field. apply Z.land_diag.
Qed.

End SetupDetail.

Section Power.
Context {Hd : Headers} {E : Type} {Ev : Env E} {Cm : Common}.

Lemma power_wanted_off (h : dw_hdmi) :
  (if disabled h then DRM_FORCE_OFF
   else if decide (force h = DRM_FORCE_UNSPECIFIED)
        then (if rxsense h then DRM_FORCE_ON else DRM_FORCE_OFF)
        else force h) = DRM_FORCE_OFF
  <-> power_wanted h = false.
Proof.
  unfold power_wanted.
  destruct (disabled h), (force h), (rxsense h); vm_compute; split; congruence.
Qed.

(** dw_hdmi_qp_update_power, whatever the state. *)
Lemma dw_hdmi_qp_update_power_detail (h : dw_hdmi) (e : E) :
  (power_wanted h = false ->
   dw_hdmi_qp_update_power (h, e)
   = Some (tt, (if bridge_is_on h
                then set_bridge_is_on false
                       (if phy_enabled h
                        then set_phy_enabled false (add_event EvPhyDisable h) else h)
                else h,
                if bridge_is_on h && phy_enabled h then phy_ops_disable e else e))) /\
  (power_wanted h = true -> bridge_is_on h = true ->
   dw_hdmi_qp_update_power (h, e) = Some (tt, (h, e))) /\
  (power_wanted h = true -> bridge_is_on h = false ->
   dw_hdmi_qp_update_power (h, e)
   = match curr_conn h with
     | None => None
     | Some connector =>
         match dw_hdmi_qp_setup connector (previous_mode h) (set_bridge_is_on true h, e) with
         | Some (_, w') => Some (tt, w')
         | None => None
         end
     end).
Proof.
  unfold dw_hdmi_qp_update_power. run_prims.
  pose proof (power_wanted_off h) as Hoff.
  destruct (decide (_ = DRM_FORCE_OFF)) as [Hf|Hf].
  - apply Hoff in Hf. rewrite Hf.
    split; [intros _ | split; discriminate].
    unfold phy_disable.
    destruct (bridge_is_on h), (phy_enabled h); reflexivity.
  - assert (Hw : power_wanted h = true).
    { destruct (power_wanted h); [reflexivity|]. destruct Hf. apply Hoff. reflexivity. }
    rewrite Hw. split; [discriminate|].
    split; intros _ Hon; rewrite Hon; cbn [negb]; [reflexivity|].
    destruct (curr_conn h); reflexivity.
Qed.

Lemma lifecycle_kept_wanted (h h' : dw_hdmi) :
  lifecycle_kept h h' -> power_wanted h' = power_wanted h.
Proof.
  unfold lifecycle_kept, power_wanted. intros (_ & _ & _ & _ & _ & _ & Hf & _ & Hd' & Hr).
  rewrite Hf, Hd', Hr. reflexivity.
Qed.

(** dw_hdmi_qp_update_power when it returns. *)
Lemma dw_hdmi_qp_update_power_some (h h' : dw_hdmi) (e e' : E) :
  dw_hdmi_qp_update_power (h, e) = Some (tt, (h', e')) ->
  bridge_is_on h' = power_wanted h /\
  lifecycle_kept h h' /\
  ((phy_enabled h = true -> bridge_is_on h = true) ->
   phy_enabled h' = true -> bridge_is_on h' = true) /\
  (power_wanted h = false ->
   regm h' = regm h /\
   log h' = (if bridge_is_on h && phy_enabled h then [EvPhyDisable] else []) ++ log h /\
   phy_enabled h' = phy_enabled h && negb (bridge_is_on h) /\
   e' = (if bridge_is_on h && phy_enabled h then phy_ops_disable e else e)) /\
  (power_wanted h = true -> bridge_is_on h = true -> h' = h /\ e' = e).
Proof.
  destruct (dw_hdmi_qp_update_power_detail h e) as (Hoff & Hstay & Hon).
  destruct (power_wanted h) eqn:Hw.
  - destruct (bridge_is_on h) eqn:Hb.
    + rewrite (Hstay eq_refl eq_refl). intros [= <- <-].
      repeat split; try reflexivity; try discriminate; auto.
    + rewrite (Hon eq_refl eq_refl).
      destruct (curr_conn h) as [connector|]; [|discriminate].
      destruct (dw_hdmi_qp_setup_detail connector (previous_mode h) (set_bridge_is_on true h) e)
        as (h1 & new & Hrun & _ & _ & _ & _ & _ & Hb1 & Hk).
      rewrite Hrun. intros [= <- <-].
      cbn [bridge_is_on set_bridge_is_on] in Hb1.
      split; [exact Hb1|].
      split; [unfold lifecycle_kept in *; cbn in Hk; exact Hk|].
      split; [intros _ _; exact Hb1|]. split; discriminate.
  - rewrite (Hoff eq_refl). intros [= <- <-].
    destruct (bridge_is_on h) eqn:Hb, (phy_enabled h) eqn:Hp; cbn;
      unfold lifecycle_kept; cbn; repeat split; try reflexivity; try congruence.
    intros Hinv _. rewrite Hb. apply Hinv. reflexivity.
Qed.

Lemma dw_hdmi_qp_update_power_returns (h : dw_hdmi) (e : E) :
  curr_conn h <> None \/ power_wanted h = false \/ bridge_is_on h = true ->
  exists (h' : dw_hdmi) (e' : E), dw_hdmi_qp_update_power (h, e) = Some (tt, (h', e')).
Proof.
  intros Hok.
  destruct (dw_hdmi_qp_update_power_detail h e) as (Hoff & Hstay & Hon).
  destruct (power_wanted h) eqn:Hw; [|rewrite (Hoff eq_refl); eexists _, _; reflexivity].
  destruct (bridge_is_on h) eqn:Hb; [rewrite (Hstay eq_refl eq_refl); eexists _, _; reflexivity|].
  rewrite (Hon eq_refl eq_refl).
  destruct (curr_conn h) as [connector|];
    [|destruct Hok as [Hc | [Hc | Hc]]; [destruct (Hc eq_refl) | discriminate | discriminate]].
  destruct (dw_hdmi_qp_setup_detail connector (previous_mode h) (set_bridge_is_on true h) e)
    as (h1 & new & Hrun & _).
  rewrite Hrun. eexists _, _. reflexivity.
Qed.



End Power.

(** ** The callbacks *)

Section CallbackProps.
Context {Hd : Headers} {E : Type} {Ev : Env E} {Cm : Common}.

(** The world beside the hardware is not touched by dw_hdmi_qp_update_power. *)
Lemma dw_hdmi_qp_update_power_beside (h h' : dw_hdmi) (e e' : E) (k k' : dw_hdmi_sync) :
  dw_hdmi_qp_update_power (Ev := env_beside Ev) (h, (e, k)) = Some (tt, (h', (e', k'))) ->
  k' = k.
Proof.
  destruct (dw_hdmi_qp_update_power_detail (Ev := env_beside Ev) h (e, k))
    as (Hoff & Hstay & Hon).
  destruct (power_wanted h) eqn:Hw.
  - destruct (bridge_is_on h) eqn:Hb.
    + rewrite (Hstay eq_refl eq_refl). intros [= _ _ <-]. reflexivity.
    + rewrite (Hon eq_refl eq_refl).
      destruct (curr_conn h) as [connector|]; [|discriminate].
      destruct (dw_hdmi_qp_setup_detail (Ev := env_beside Ev)
                  connector (previous_mode h) (set_bridge_is_on true h) (e, k))
        as (h1 & new & Hrun & _).
      rewrite Hrun. cbn [phy_ops_init env_beside fst snd]. intros [= _ _ <-]. reflexivity.
  - rewrite (Hoff eq_refl).
    destruct (bridge_is_on h && phy_enabled h); cbn [phy_ops_disable env_beside fst snd];
      intros [= _ _ <-]; reflexivity.
Qed.

Ltac run_sync :=
  unfold hdmi_mutex_lock, hdmi_mutex_unlock, dw_handle_plugged_change, sync;
  unfold modify, gets, ret, bind; cbn [fst snd mutex plugged].

(** X12: dw_hdmi_qp_bridge_atomic_disable returns from every state, with the
    bridge disabled, without a connector and off, its mutex released and the
    codec notified "unplugged". It writes no register; it disables the PHY
    exactly when the bridge was on with its PHY enabled, and leaves the PHY
    flag cleared when the bridge was on. *)
Theorem dw_hdmi_qp_bridge_atomic_disable_state (h : dw_hdmi) (e : E) (k : dw_hdmi_sync) :
  exists h' : dw_hdmi,
    dw_hdmi_qp_bridge_atomic_disable (h, (e, k))
    = Some (tt, (h', (if bridge_is_on h && phy_enabled h then phy_ops_disable e else e,
                      {| mutex := false; plugged := false :: plugged k |}))) /\
    disabled h' = true /\ curr_conn h' = None /\ bridge_is_on h' = false /\
    phy_enabled h' = phy_enabled h && negb (bridge_is_on h) /\
    regm h' = regm h /\
    log h' = (if bridge_is_on h && phy_enabled h then [EvPhyDisable] else []) ++ log h /\
    force h' = force h /\ rxsense h' = rxsense h.
Proof.
  unfold dw_hdmi_qp_bridge_atomic_disable. run_sync.
  set (h0 := set_curr_conn None (set_disabled true h)).
  set (k0 := {| mutex := true; plugged := plugged k |}).
  destruct (dw_hdmi_qp_update_power_detail (Ev := env_beside Ev) h0 (e, k0)) as (Hoff & _).
  rewrite (Hoff eq_refl). cbn [fst snd].
  subst h0 k0. cbn [bridge_is_on phy_enabled set_curr_conn set_disabled].
  destruct (bridge_is_on h) eqn:Hb, (phy_enabled h) eqn:Hp; cbn [andb];
    (eexists; split; [reflexivity|]); cbn; rewrite ?Hb, ?Hp; repeat split; reflexivity.
Qed.

(** X13: dw_hdmi_qp_bridge_atomic_enable with a connector returns from every
    state, with the bridge enabled and bound to the connector, its mutex
    released and the codec notified "plugged" (whatever the power state and
    the outcome of the setup). The bridge is then on unless it is forced off
    or, nothing being forced, no receiver is sensed. When the bridge was on
    already, nothing is set up again: the device keeps its registers and its
    log. When it is powered on, the PHY is initialised once, before any
    register access, with the display info of the connector and the previous
    mode. *)
Theorem dw_hdmi_qp_bridge_atomic_enable_state (connector : drm_connector)
    (h : dw_hdmi) (e : E) (k : dw_hdmi_sync) :
  let on :=
    match force h with
    | DRM_FORCE_UNSPECIFIED => rxsense h
    | DRM_FORCE_OFF => false
    | DRM_FORCE_ON | DRM_FORCE_ON_DIGITAL => true
    end in
  let p := phy_ops_init e (display_info connector) (previous_mode h) in
  exists (h' : dw_hdmi) (e' : E),
    dw_hdmi_qp_bridge_atomic_enable (Some connector) (h, (e, k))
    = Some (tt, (h', (e', {| mutex := false; plugged := true :: plugged k |}))) /\
    disabled h' = false /\ curr_conn h' = Some connector /\
    force h' = force h /\ rxsense h' = rxsense h /\
    bridge_is_on h' = on /\
    (bridge_is_on h = true -> on = true -> regm h' = regm h /\ log h' = log h /\ e' = e) /\
    (bridge_is_on h = false -> on = true ->
     e' = snd p /\
     phy_enabled h' = (if fst p =? 0 then true else phy_enabled h) /\
     exists new : list event,
       log h' = new ++ EvPhyInit (fst p) :: log h /\
       Forall (fun ev => ~ phy_event ev) new).
Proof.
  intros on p.
  unfold dw_hdmi_qp_bridge_atomic_enable. run_sync.
  set (h0 := set_curr_conn (Some connector) (set_disabled false h)).
  set (k0 := {| mutex := true; plugged := plugged k |}).
  assert (Hw : power_wanted h0 = on) by reflexivity.
  destruct (dw_hdmi_qp_update_power_returns (Ev := env_beside Ev) h0 (e, k0))
    as (h' & [e' k'] & Hrun); [left; discriminate|].
  pose proof (dw_hdmi_qp_update_power_beside _ _ _ _ _ _ Hrun) as ->.
  destruct (dw_hdmi_qp_update_power_some (Ev := env_beside Ev) _ _ _ _ Hrun)
    as (Hb & Hk & _ & _ & Hstay).
  rewrite Hrun. cbn [fst snd]. exists h', e'. split; [reflexivity|].
  destruct Hk as (_ & _ & _ & _ & _ & _ & Hf & Hc & Hd' & Hr).
  split; [exact Hd'|]. split; [exact Hc|]. split; [exact Hf|]. split; [exact Hr|].
  split; [rewrite Hb; exact Hw|].
  split.
  - intros Hon Hwant. rewrite Hw in Hstay.
    destruct (Hstay Hwant Hon) as [-> [= ->]]. repeat split; reflexivity.
  - intros Hoff Hwant.
    destruct (dw_hdmi_qp_update_power_detail (Ev := env_beside Ev) h0 (e, k0)) as (_ & _ & Hon).
    rewrite Hw in Hon. rewrite (Hon Hwant Hoff) in Hrun.
    cbn [curr_conn h0 set_curr_conn] in Hrun.
    destruct (dw_hdmi_qp_setup_detail (Ev := env_beside Ev)
                connector (previous_mode h0) (set_bridge_is_on true h0) (e, k0))
      as (h1 & new & Hrun1 & Hl & Hnp & _ & _ & Hpe & _).
    rewrite Hrun1 in Hrun. cbn [phy_ops_init env_beside fst snd] in Hrun, Hl, Hpe.
    injection Hrun as <- <-.
    cbn [previous_mode phy_enabled log h0 set_curr_conn set_disabled set_bridge_is_on]
      in Hl, Hpe.
    split; [reflexivity|]. split; [exact Hpe|]. exists new. split; assumption.
Qed.


(** X15: the three callbacks keep the lifecycle invariant (the PHY is enabled
    only while the bridge is on; a bridge that is not disabled has a
    connector), and from a state in which it holds each of them returns: the
    setup is never run without a connector. After
    dw_hdmi_qp_bridge_atomic_disable the PHY is not enabled. *)
Theorem lifecycle_inv_kept (h : dw_hdmi) (e : E) (k : dw_hdmi_sync) :
  lifecycle_inv h ->
  (exists (h' : dw_hdmi) (w' : E * dw_hdmi_sync),
     dw_hdmi_qp_bridge_atomic_disable (h, (e, k)) = Some (tt, (h', w')) /\
     lifecycle_inv h' /\ phy_enabled h' = false) /\
  (forall connector : drm_connector,
   exists (h' : dw_hdmi) (w' : E * dw_hdmi_sync),
     dw_hdmi_qp_bridge_atomic_enable (Some connector) (h, (e, k)) = Some (tt, (h', w')) /\
     lifecycle_inv h') /\
  (forall f : drm_connector_force,
   exists (h' : dw_hdmi) (w' : E * dw_hdmi_sync),
     dw_hdmi_qp_connector_force f (h, (e, k)) = Some (tt, (h', w')) /\
     lifecycle_inv h').
Proof.
  intros [Hphy Hconn].
  assert (Hstep : forall h0 : dw_hdmi,
            phy_enabled h0 = phy_enabled h -> bridge_is_on h0 = bridge_is_on h ->
            (disabled h0 = false -> curr_conn h0 <> None) ->
            forall k0 : dw_hdmi_sync,
            exists (h' : dw_hdmi) (w' : E * dw_hdmi_sync),
              dw_hdmi_qp_update_power (Ev := env_beside Ev) (h0, (e, k0)) = Some (tt, (h', w')) /\
              lifecycle_inv h' /\ (disabled h0 = true -> phy_enabled h' = false)).
  { intros h0 Hp0 Hb0 Hc0 k0.
    destruct (dw_hdmi_qp_update_power_returns (Ev := env_beside Ev) h0 (e, k0))
      as (h' & w' & Hrun).
    { destruct (disabled h0) eqn:Hd0; [right; left; unfold power_wanted; rewrite Hd0; reflexivity|].
      left. apply Hc0. reflexivity. }
    exists h', w'. split; [exact Hrun|].
    destruct (dw_hdmi_qp_update_power_some (Ev := env_beside Ev) _ _ _ _ Hrun)
      as (Hb & Hk & Hinv & Hoff & _).
    destruct Hk as (_ & _ & _ & _ & _ & _ & _ & Hc & Hd' & _).
    split; [split|].
    - apply Hinv. rewrite Hp0, Hb0. exact Hphy.
    - rewrite Hd', Hc. exact Hc0.
    - intros Hd0.
      assert (Hw : power_wanted h0 = false) by (unfold power_wanted; rewrite Hd0; reflexivity).
      destruct (Hoff Hw) as (_ & _ & -> & _). rewrite Hp0, Hb0.
      destruct (phy_enabled h); [rewrite (Hphy eq_refl)|]; reflexivity. }
  split; [|split].
  - unfold dw_hdmi_qp_bridge_atomic_disable. run_sync.
    match goal with |- context [dw_hdmi_qp_update_power (?h0, (e, ?k0))] =>
      destruct (Hstep h0 eq_refl eq_refl ltac:(discriminate) k0)
        as (h' & [e' k'] & -> & Hinv & Hpe)
    end.
    cbn [fst snd]. eexists _, _. split; [reflexivity|].
    split; [exact Hinv | apply Hpe; reflexivity].
  - intros connector. unfold dw_hdmi_qp_bridge_atomic_enable. run_sync.
    match goal with |- context [dw_hdmi_qp_update_power (?h0, (e, ?k0))] =>
      destruct (Hstep h0 eq_refl eq_refl ltac:(discriminate) k0)
        as (h' & [e' k'] & -> & Hinv & _)
    end.
    cbn [fst snd]. eexists _, _. split; [reflexivity | exact Hinv].
  - intros f. unfold dw_hdmi_qp_connector_force. run_sync.
    match goal with |- context [dw_hdmi_qp_update_power (?h0, (e, ?k0))] =>
      destruct (Hstep h0 eq_refl eq_refl Hconn k0) as (h' & [e' k'] & -> & Hinv & _)
    end.
    cbn [fst snd]. eexists _, _. split; [reflexivity | exact Hinv].
Qed.

End CallbackProps.

(** ** The packet registers of the infoframes *)

Lemma land_shiftl_small (x y n : Z) :
  0 <= n -> 0 <= x < 2 ^ n -> Z.land x (Z.shiftl y n) = 0.
Proof.
  intros Hn Hx. apply Z.bits_inj'. intros k Hk.
  rewrite Z.land_spec, Z.bits_0.
  destruct (Z.ltb_spec k n) as [Hlt|Hge].
  - rewrite Z.shiftl_spec_low by exact Hlt. apply andb_false_r.
  - destruct (Z.eq_dec x 0) as [->|Hx0]; [rewrite Z.bits_0; reflexivity|].
    rewrite (Z.bits_above_log2 x k); [reflexivity | lia |].
    apply Z.lt_le_trans with n; [|exact Hge].
    apply Z.log2_lt_pow2; lia.
Qed.

Lemma lor_shiftl_small (x y n : Z) :
  0 <= n -> 0 <= x < 2 ^ n -> Z.lor x (Z.shiftl y n) = x + y * 2 ^ n.
Proof.
  intros Hn Hx.
  rewrite <- (Z.shiftl_mul_pow2 y n) by exact Hn.
  pose proof (Z.add_lor_land x (Z.shiftl y n)) as H.
  rewrite land_shiftl_small in H by assumption. lia.
Qed.

Lemma pack_lane (acc b j : Z) :
  0 <= j <= 3 -> 0 <= acc < 256 ^ j -> is_byte b ->
  u32 (Z.lor acc (Z.shiftl b (j * 8))) = acc + 256 ^ j * b /\
  0 <= acc + 256 ^ j * b < 256 ^ (j + 1).
Proof.
  intros Hj Hacc Hb. unfold is_byte in Hb.
  assert (Hpow : 256 ^ j = 2 ^ (j * 8)).
  { change 256 with (2 ^ 8). rewrite <- Z.pow_mul_r by lia. f_equal. lia. }
  assert (Hpos : 0 < 256 ^ j) by (apply Z.pow_pos_nonneg; lia).
  assert (Hnext : 256 ^ (j + 1) = 256 ^ j * 256) by (rewrite Z.pow_add_r by lia; reflexivity).
  assert (Hle : 256 ^ (j + 1) <= 2 ^ 32).
  { change (2 ^ 32) with (256 ^ 4). apply Z.pow_le_mono_r; lia. }
  rewrite lor_shiftl_small by (rewrite <- ?Hpow; lia).
  rewrite <- Hpow.
  assert (Hrange : 0 <= acc + b * 256 ^ j < 256 ^ (j + 1)) by nia.
  split; [|rewrite (Z.mul_comm (256 ^ j)); exact Hrange].
  unfold u32. rewrite Z.mod_small by lia. lia.
Qed.

Lemma payload_words_fuel (f1 f2 : nat) (base q : Z) (p : list Z) :
  (length p <= f1)%nat -> (length p <= f2)%nat ->
  payload_words f1 base q p = payload_words f2 base q p.
Proof.
  revert f2 q p. induction f1 as [|f1 IH]; intros f2 q p H1 H2.
  - destruct p; [|cbn in H1; lia]. destruct f2; reflexivity.
  - destruct p as [|b p]; [destruct f2; reflexivity|].
    destruct f2 as [|f2]; [cbn in H2; lia|].
    cbn [payload_words]. f_equal. cbn [length] in H1, H2.
    apply IH; rewrite length_drop; cbn [length]; lia.
Qed.

Lemma payload_words_start (base : Z) (p : list Z) :
  match p with
  | [] => []
  | _ :: _ =>
      EvWrite (base + 0 * 4) (0 + 256 ^ Z.of_nat 0 * le_bytes (take (4 - 0) p))
      :: payload_words (length p) base (0 + 1) (drop (4 - 0) p)
  end = payload_words (length p) base 0 p.
Proof.
  destruct p as [|b0 rest]; [reflexivity|].
  change (payload_words (length (b0 :: rest)) base 0 (b0 :: rest))
    with (EvWrite (base + 0 * 4) (le_bytes (take 4 (b0 :: rest)))
          :: payload_words (length rest) base (0 + 1) (drop 4 (b0 :: rest))).
  change (4 - 0)%nat with 4%nat. change (256 ^ Z.of_nat 0) with 1. f_equal.
  - f_equal. lia.
  - apply payload_words_fuel; rewrite length_drop; cbn [length]; lia.
Qed.

Lemma lane_index (q j : Z) :
  0 <= j < 4 -> (4 * q + j) mod 4 = j /\ (4 * q + j) / 4 = q.
Proof.
  intros Hj. split.
  - symmetry. apply (Z.mod_unique_pos _ _ q); lia.
  - symmetry. apply (Z.div_unique_pos _ _ q j); lia.
Qed.

Section Packing.
Context {Hd : Headers} {E : Type} {Ev : Env E}.

(** The loop of hdmi_config_drm_infoframe from byte [4 * q + j] of the
    payload on, [r] being the bytes still to come and [acc] the bytes of the
    current word gathered so far. *)
Lemma drmi_write_words_payload (buffer : list Z) (flen : Z) (r : list Z) (q : Z) (j : nat)
    (acc val : Z) (h : dw_hdmi) (e : E) :
  (j < 4)%nat ->
  (forall a : nat, (a < length r)%nat ->
     byte_at buffer (3 + (4 * q + Z.of_nat j + Z.of_nat a)) = nth a r 0) ->
  Forall is_byte r ->
  4 * q + Z.of_nat j + Z.of_nat (length r) = flen + 1 ->
  0 <= acc < 256 ^ Z.of_nat j ->
  (j <> 0%nat -> val = acc) ->
  exists h' : dw_hdmi,
    drmi_write_words buffer flen (4 * q + Z.of_nat j) (length r) val (h, e)
    = Some (tt, (h', e)) /\
    log h' = rev (match r with
                  | [] => []
                  | _ :: _ =>
                      EvWrite (PKT_DRMI_CONTENTS1 + q * 4)
                        (acc + 256 ^ Z.of_nat j * le_bytes (take (4 - j) r))
                      :: payload_words (length r) PKT_DRMI_CONTENTS1 (q + 1) (drop (4 - j) r)
                  end) ++ log h.
Proof.
  revert q j acc val h. induction r as [|b r IH]; intros q j acc val h Hj Hbuf Hbytes Hlen Hacc Hval.
  - exists h. split; reflexivity.
  - cbn [length drmi_write_words]. cbv zeta.
    destruct (lane_index q (Z.of_nat j)) as [Hmod Hdiv]; [lia|].
    rewrite Hmod, Hdiv.
    pose proof (Hbuf 0%nat ltac:(cbn; lia)) as Hb0. cbn [nth] in Hb0.
    rewrite Z.add_0_r in Hb0. rewrite Hb0.
    apply Forall_cons in Hbytes as [Hb Hbytes].
    assert (Hnext : forall a : nat, (a < length r)%nat ->
              byte_at buffer (3 + (4 * q + Z.of_nat j + 1 + Z.of_nat a)) = nth a r 0).
    { intros a Ha. specialize (Hbuf (S a) ltac:(cbn; lia)). cbn [nth] in Hbuf.
      rewrite <- Hbuf. f_equal. lia. }
    set (acc' := acc + 256 ^ Z.of_nat j * b).
    assert (Hv2 : u32 (Z.lor (if Z.of_nat j =? 0 then b else val)
                         (Z.shiftl b (Z.of_nat j * 8))) = acc'
                  /\ 0 <= acc' < 256 ^ (Z.of_nat j + 1)).
    { destruct j as [|j].
      - change (Z.of_nat 0) with 0 in *. cbn [Z.eqb].
        assert (acc = 0) by (change (256 ^ 0) with 1 in Hacc; lia). subst acc.
        rewrite Z.mul_0_l, Z.shiftl_0_r, Z.lor_diag. unfold acc', is_byte in *.
        change (256 ^ 0) with 1. change (256 ^ (0 + 1)) with 256.
        split; [rewrite u32_small; lia | lia].
      - rewrite (Hval ltac:(discriminate)).
        destruct (Z.eqb_spec (Z.of_nat (S j)) 0) as [H0|_]; [lia|].
        apply pack_lane; [lia | exact Hacc | exact Hb]. }
    destruct Hv2 as [Hv2 Hacc']. rewrite Hv2.
    assert (Hu : u32 acc' = acc').
    { apply u32_small. split; [lia|]. apply Z.lt_le_trans with (256 ^ (Z.of_nat j + 1)); [lia|].
      change (2 ^ 32) with (256 ^ 4). apply Z.pow_le_mono_r; lia. }
    cbn [length] in Hlen.
    destruct (Nat.eq_dec j 3%nat) as [->|Hj3].
    + (* the word is full *)
      change (Z.of_nat 3 =? 3) with true. cbn [orb]. run_prims.
      change (Z.of_nat 3) with 3 in *.
      replace (4 * q + 3 + 1) with (4 * (q + 1) + Z.of_nat 0) by lia.
      match goal with |- context [drmi_write_words _ _ _ _ _ (?h1, e)] =>
        destruct (IH (q + 1) 0%nat 0 acc' h1) as (h' & -> & Hl);
          [ lia
          | intros a Ha; rewrite <- (Hnext a Ha); f_equal; change (Z.of_nat 0) with 0; lia
          | exact Hbytes
          | change (Z.of_nat 0) with 0; lia
          | change (256 ^ Z.of_nat 0) with 1; lia
          | intros H0; destruct (H0 eq_refl)
          | ]
      end.
      exists h'. split; [reflexivity|]. rewrite Hl.
      cbn [log add_event set_regm]. rewrite Hu.
      change (4 - 3)%nat with 1%nat. change (4 - 0)%nat with 4%nat.
      change (take 1 (b :: r)) with [b]. change (drop 1 (b :: r)) with r.
      cbn [le_bytes payload_words rev]. rewrite <- app_assoc. cbn [app].
      replace (acc + 256 ^ 3 * (b + 256 * 0)) with acc' by (unfold acc'; lia).
      f_equal.
      destruct r as [|b1 r]; [reflexivity|].
      cbn [length payload_words]. do 3 f_equal.
      change (256 ^ Z.of_nat 0) with 1. lia.
    + destruct (Z.eqb_spec (Z.of_nat j) 3) as [H3|_]; [lia|]. cbn [orb].
      destruct r as [|b1 r].
      * (* the last byte *)
        cbn [length] in Hlen.
        destruct (Z.eqb_spec (4 * q + Z.of_nat j) flen) as [_|Hne]; [|lia].
        run_prims. cbn [drmi_write_words]. unfold ret.
        eexists. split; [reflexivity|].
        cbn [log add_event set_regm length payload_words rev app]. rewrite Hu.
        assert (Ht : take (4 - j) [b] = [b]) by (destruct j as [|[|[|]]]; try reflexivity; lia).
        assert (Hd' : drop (4 - j) [b] = []) by (destruct j as [|[|[|]]]; try reflexivity; lia).
        rewrite Ht, Hd'. cbn [le_bytes payload_words rev app].
        do 2 f_equal. unfold acc'. lia.
      * (* the word goes on *)
        cbn [length] in Hlen.
        destruct (Z.eqb_spec (4 * q + Z.of_nat j) flen) as [Heq|_]; [lia|].
        unfold ret at 1. unfold bind at 1.
        replace (4 * q + Z.of_nat j + 1) with (4 * q + Z.of_nat (S j)) by lia.
        destruct (IH q (S j) acc' acc' h) as (h' & -> & Hl);
          [ lia
          | intros a Ha; rewrite <- (Hnext a Ha); f_equal; lia
          | exact Hbytes
          | cbn [length]; lia
          | replace (Z.of_nat (S j)) with (Z.of_nat j + 1) by lia; exact Hacc'
          | reflexivity
          | ].
        exists h'. split; [reflexivity|]. rewrite Hl. f_equal. f_equal.
        replace (4 - j)%nat with (S (4 - S j)) by lia.
        change (take (S (4 - S j)) (b :: b1 :: r)) with (b :: take (4 - S j) (b1 :: r)).
        change (drop (S (4 - S j)) (b :: b1 :: r)) with (drop (4 - S j) (b1 :: r)).
        cbn [le_bytes]. f_equal.
        -- f_equal. unfold acc'.
           replace (Z.of_nat (S j)) with (Z.of_nat j + 1) by lia.
           rewrite Z.pow_add_r by lia. change (256 ^ 1) with 256. lia.
        -- apply payload_words_fuel; rewrite length_drop; cbn [length]; lia.
Qed.

Lemma pack_lane1 (acc b : Z) :
  0 <= acc < 256 -> is_byte b ->
  u32 (Z.lor acc (Z.shiftl b 8)) = acc + 256 * b /\ 0 <= acc + 256 * b < 65536.
Proof. intros Hacc Hb. exact (pack_lane acc b 1 ltac:(lia) Hacc Hb). Qed.

Lemma pack_lane2 (acc b : Z) :
  0 <= acc < 65536 -> is_byte b ->
  u32 (Z.lor acc (Z.shiftl b 16)) = acc + 65536 * b /\ 0 <= acc + 65536 * b < 16777216.
Proof. intros Hacc Hb. exact (pack_lane acc b 2 ltac:(lia) Hacc Hb). Qed.

Lemma pack_lane3 (acc b : Z) :
  0 <= acc < 16777216 -> is_byte b ->
  u32 (Z.lor acc (Z.shiftl b 24)) = acc + 16777216 * b.
Proof. intros Hacc Hb. exact (proj1 (pack_lane acc b 3 ltac:(lia) Hacc Hb)). Qed.

Lemma pack_word4 (a b c d : Z) :
  is_byte a -> is_byte b -> is_byte c -> is_byte d ->
  u32 (Z.lor (u32 (Z.lor (u32 (Z.lor (u32 (Z.lor a (Z.shiftl a 0))) (Z.shiftl b 8)))
                     (Z.shiftl c 16))) (Z.shiftl d 24))
  = le_bytes [a; b; c; d].
Proof.
  intros Ha Hb Hc Hd'. cbn [le_bytes].
  unfold is_byte in Ha.
  rewrite Z.shiftl_0_r, Z.lor_diag. rewrite (u32_small a) by lia.
  destruct (pack_lane1 a b Ha Hb) as [-> H1].
  destruct (pack_lane2 _ c H1 Hc) as [-> H2].
  rewrite (pack_lane3 _ d H2 Hd'). lia.
Qed.

Lemma pack_word2 (a b : Z) :
  is_byte a -> is_byte b ->
  u32 (Z.lor (u32 (Z.lor a (Z.shiftl a 0))) (Z.shiftl b 8)) = le_bytes [a; b].
Proof.
  intros Ha Hb. cbn [le_bytes].
  unfold is_byte in Ha.
  rewrite Z.shiftl_0_r, Z.lor_diag. rewrite (u32_small a) by lia.
  destruct (pack_lane1 a b Ha Hb) as [-> _]. lia.
Qed.

(** The packing loop of hdmi_config_AVI on a buffer of 17 bytes. *)
Lemma avi_write_words_payload (buf : list Z) (val : Z) (h : dw_hdmi) (e : E) :
  length buf = 17%nat -> Forall is_byte buf ->
  exists h' : dw_hdmi,
    avi_write_words buf [0; 1; 2; 3] val (h, e) = Some (tt, (h', e)) /\
    log h' = rev (payload_words 14 PKT_AVI_CONTENTS1 0 (drop 3 buf)) ++ log h.
Proof.
  intros Hlen Hbytes.
  do 17 (destruct buf as [|? buf]; [discriminate Hlen|]).
  destruct buf; [|discriminate Hlen]. clear Hlen.
  repeat match goal with
         | H : Forall is_byte (_ :: _) |- _ => apply Forall_cons in H as [? H]
         end.
  cbn [avi_write_words]. cbv zeta. run_prims.
  eexists. split; [reflexivity|].
  cbn [log add_event set_regm].
  change (drop 3 ?l) with (skipn 3 l). cbn [skipn payload_words rev app].
  change (take 4 ?l) with (firstn 4 l). cbn [firstn skipn].
  cbn [avi_pack_word].
  repeat match goal with
         | |- context [?a >=? ?b] =>
             let v := eval vm_compute in (a >=? b) in change (a >=? b) with v
         end.
  repeat match goal with
         | |- context [byte_at ?l ?i] =>
             let v := eval cbv in (byte_at l i) in change (byte_at l i) with v
         end.
  change (0 =? 0) with true. change (1 =? 0) with false.
  change (2 =? 0) with false. change (3 =? 0) with false.
  change (8 * 0) with 0. change (8 * 1) with 8. change (8 * 2) with 16. change (8 * 3) with 24.
  change (0 + 1) with 1. change (0 + 1 + 1) with 2. change (0 + 1 + 1 + 1) with 3.
  cbv iota.
  rewrite !pack_word4, !pack_word2 by assumption.
  rewrite !u32_small; try reflexivity.
  all: cbn [le_bytes]; unfold is_byte in *; lia.
Qed.

End Packing.

Lemma colorspace_bits (x y : Z) :
  0 <= x < 32 -> 0 <= y < 8 ->
  u8 (Z.lor x (Z.shiftl y 5)) = x + 32 * y /\
  Z.land (x + 32 * y) 0x1f = x /\ Z.shiftr (x + 32 * y) 5 = y.
Proof.
  intros Hx Hy.
  rewrite (lor_shiftl_small x y 5) by (change (2 ^ 5) with 32; lia).
  change (2 ^ 5) with 32.
  split; [unfold u8; rewrite Z.mod_small by lia; lia|].
  split.
  - change 0x1f with (Z.ones 5). rewrite Z.land_ones by lia. change (2 ^ 5) with 32.
    symmetry. apply (Z.mod_unique_pos _ _ y); lia.
  - rewrite Z.shiftr_div_pow2 by lia. change (2 ^ 5) with 32.
    symmetry. apply (Z.div_unique_pos _ _ y x); lia.
Qed.

Lemma land_low_bits (x : Z) (n : Z) : 0 <= n -> 0 <= Z.land x (Z.ones n) < 2 ^ n.
Proof. intros Hn. rewrite Z.land_ones by exact Hn. apply Z.mod_pos_bound. lia. Qed.

Section AVIBytes.
Context {Hd : Headers} {Cm : Common}.

(** The buffer of hdmi_config_AVI is the 17 bytes of the packed frame, patched
    or not. *)
Lemma hdmi_config_AVI_pack_bytes (h : dw_hdmi) (connector : drm_connector)
    (mode : drm_display_mode) :
  let packed := hdmi_avi_infoframe_pack_only
                  (set_avi_scan_video HDMI_SCAN_MODE_NONE (vic h)
                     (dw_hdmi_prep_avi_infoframe h connector mode)) in
  length packed = 17%nat -> Forall is_byte packed ->
  length (snd (hdmi_config_AVI_pack h connector mode)) = 17%nat /\
  Forall is_byte (snd (hdmi_config_AVI_pack h connector mode)).
Proof.
  intros packed Hlen Hbytes. unfold hdmi_config_AVI_pack. fold packed.
  destruct (vic h >=? 128); cbv zeta; cbn [snd]; [|split; [apply Hlen | apply Hbytes]].
  unfold hdmi_infoframe_set_checksum. rewrite !length_insert.
  split; [apply Hlen|].
  repeat apply Forall_insert; try apply u8_is_byte; try apply Hbytes.
  - match goal with |- is_byte (Z.land ?x _) => pose proof (land_low_bits x 5 ltac:(lia)) as Hl end.
    change (Z.ones 5) with 31 in Hl. change (2 ^ 5) with 32 in Hl.
    unfold is_byte. lia.
  - unfold is_byte. lia.
Qed.

End AVIBytes.

Section Infoframes.
Context {Hd : Headers} {E : Type} {Ev : Env E} {Cm : Common}.

(** X16: hdmi_config_AVI writes the 14 bytes that follow the 3-byte header
    in the packed buffer to the registers from PKT_AVI_CONTENTS1 on: four
    consecutive bytes little-endian in each of the first three, the last two
    bytes in the low half of the fourth, whose high half is zero. Before
    them it writes the header word to PKT_AVI_CONTENTS0, after them it
    clears the field-rate override and enables the AVI and GCP packets, and
    it does nothing else. *)
Theorem hdmi_config_AVI_words (connector : drm_connector) (mode : drm_display_mode)
    (h : dw_hdmi) (e : E) :
  let packed := hdmi_avi_infoframe_pack_only
                  (set_avi_scan_video HDMI_SCAN_MODE_NONE (vic h)
                     (dw_hdmi_prep_avi_infoframe h connector mode)) in
  length packed = 17%nat ->
  Forall (fun b => 0 <= b < 256) packed ->
  let frame := fst (hdmi_config_AVI_pack h connector mode) in
  let buf := snd (hdmi_config_AVI_pack h connector mode) in
  exists h' : dw_hdmi,
    hdmi_config_AVI connector mode (h, e) = Some (tt, (h', e)) /\
    length (drop 3 buf) = 14%nat /\
    log h' = EvUpdateBits PKTSCHED_PKT_EN (Z.lor PKTSCHED_AVI_TX_EN PKTSCHED_GCP_TX_EN)
               (Z.lor PKTSCHED_AVI_TX_EN PKTSCHED_GCP_TX_EN)
             :: EvUpdateBits PKTSCHED_PKT_CONFIG1 PKTSCHED_AVI_FIELDRATE 0
             :: rev (payload_words 14 PKT_AVI_CONTENTS1 0 (drop 3 buf))
             ++ EvWrite PKT_AVI_CONTENTS0
                  (u32 (Z.lor (Z.shiftl (avi_version frame) 8)
                              (Z.shiftl (avi_length frame) 16)))
             :: log h.
Proof.
  intros packed Hlen Hbytes frame buf.
  destruct (hdmi_config_AVI_pack_bytes h connector mode Hlen Hbytes) as [Hl17 Hb17].
  fold buf in Hl17, Hb17.
  unfold hdmi_config_AVI. run_prims. fold buf. fold frame.
  match goal with |- context [avi_write_words buf _ ?v (?h1, e)] =>
    destruct (avi_write_words_payload buf v h1 e Hl17 Hb17) as (h' & -> & Hl)
  end.
  cbn [log add_event set_regm] in Hl.
  eexists. split; [reflexivity|].
  split; [rewrite length_drop, Hl17; reflexivity|].
  cbn [fst snd log add_event set_regm]. rewrite Hl. reflexivity.
Qed.

(** X17: for a VIC of 128 or more, the patch that hdmi_config_AVI applies to
    the packed buffer touches the bytes 1, 3, 4 and 7 only: every other byte
    is as hdmi_avi_infoframe_pack_only left it. Of byte 4 it keeps the low
    five bits and replaces the high three by the low three bits of the
    colorspace of the frame. *)
Theorem hdmi_config_AVI_extended_vic_patch (h : dw_hdmi) (connector : drm_connector)
    (mode : drm_display_mode) :
  let frame0 := set_avi_scan_video HDMI_SCAN_MODE_NONE (vic h)
                  (dw_hdmi_prep_avi_infoframe h connector mode) in
  let packed := hdmi_avi_infoframe_pack_only frame0 in
  let buf := snd (hdmi_config_AVI_pack h connector mode) in
  128 <= vic h ->
  length packed = 17%nat ->
  Z.land (byte_at buf 4) 0x1f = Z.land (byte_at packed 4) 0x1f /\
  Z.shiftr (byte_at buf 4) 5 = Z.land (avi_colorspace frame0) 0x7 /\
  (forall k : nat, k <> 1%nat -> k <> 3%nat -> k <> 4%nat -> k <> 7%nat ->
   buf !! k = packed !! k).
Proof.
  intros frame0 packed buf Hvic Hp.
  assert (Hbuf : buf = hdmi_infoframe_set_checksum
                         (<[7%nat := avi_video_code (set_avi_version 3 frame0)]>
                            (<[4%nat := u8 (Z.lor (Z.land (byte_at packed 4) 0x1f)
                                              (Z.shiftl (Z.land (avi_colorspace frame0) 0x7) 5))]>
                               (<[4%nat := Z.land (byte_at packed 4) 0x1f]>
                                  (<[1%nat := avi_version (set_avi_version 3 frame0)]> packed))))
                         17).
  { unfold buf, hdmi_config_AVI_pack.
    destruct (Z.geb_spec (vic h) 128) as [_|Hc]; [|lia].
    cbv zeta. cbn [snd]. fold frame0. fold packed.
    change 4 with (Z.of_nat 4).
    rewrite (byte_at_insert_eq (<[1%nat:=_]> packed)) by (rewrite length_insert; lia).
    rewrite (byte_at_insert_ne packed 1 4) by lia. reflexivity. }
  pose proof (land_low_bits (byte_at packed 4) 5 ltac:(lia)) as Hx.
  pose proof (land_low_bits (avi_colorspace frame0) 3 ltac:(lia)) as Hy.
  change (Z.ones 5) with 0x1f in Hx. change (2 ^ 5) with 32 in Hx.
  change (Z.ones 3) with 0x7 in Hy. change (2 ^ 3) with 8 in Hy.
  destruct (colorspace_bits _ _ Hx Hy) as (Hu & Hlow & Hhigh).
  assert (H4 : byte_at buf 4
               = Z.land (byte_at packed 4) 0x1f + 32 * Z.land (avi_colorspace frame0) 0x7).
  { rewrite Hbuf. unfold hdmi_infoframe_set_checksum. change 4 with (Z.of_nat 4).
    rewrite !(byte_at_insert_ne _ 3 4) by lia.
    rewrite (byte_at_insert_ne _ 7 4) by lia.
    rewrite byte_at_insert_eq by (rewrite !length_insert; lia).
    exact Hu. }
  rewrite H4. split; [exact Hlow|]. split; [exact Hhigh|].
  intros k H1 H3 H4' H7. rewrite Hbuf. unfold hdmi_infoframe_set_checksum.
  rewrite !list_lookup_insert_ne by congruence. reflexivity.
Qed.

(** X18: when every check of hdmi_config_drm_infoframe passes, it writes the
    bytes of the packed buffer from offset 3 up to and including offset
    3 + length (length + 1 bytes) to the registers from PKT_DRMI_CONTENTS1
    on, four consecutive bytes little-endian to a register, the last
    register taking the bytes that remain. Before them it disables the
    packet and writes the header word to PKT_DRMI_CONTENTS0; after them it
    clears the field-rate override and enables the packet; it does nothing
    else. *)
Theorem hdmi_config_drm_infoframe_words (connector : drm_connector) (h : dw_hdmi) (e : E)
    (eotf : Z) (frame : hdmi_drm_infoframe) (buffer : list Z) :
  use_drm_infoframe h = true ->
  hdr_sink_eotf h <> 0 ->
  hdr_output_metadata connector = Some eotf ->
  Z.land (hdr_sink_eotf h) (BIT eotf) <> 0 ->
  drm_hdmi_infoframe_set_hdr_metadata connector = Some frame ->
  hdmi_drm_infoframe_pack frame = Some buffer ->
  0 <= drmi_length frame ->
  drmi_length frame + 4 <= Z.of_nat (length buffer) ->
  Forall (fun b => 0 <= b < 256) buffer ->
  let payload := take (Z.to_nat (drmi_length frame + 1)) (drop 3 buffer) in
  exists h' : dw_hdmi,
    hdmi_config_drm_infoframe connector (h, e) = Some (tt, (h', e)) /\
    Z.of_nat (length payload) = drmi_length frame + 1 /\
    log h' = EvUpdateBits PKTSCHED_PKT_EN PKTSCHED_DRMI_TX_EN PKTSCHED_DRMI_TX_EN
             :: EvUpdateBits PKTSCHED_PKT_CONFIG1 PKTSCHED_DRMI_FIELDRATE 0
             :: rev (payload_words (length payload) PKT_DRMI_CONTENTS1 0 payload)
             ++ EvWrite PKT_DRMI_CONTENTS0
                  (u32 (Z.lor (Z.shiftl (drmi_version frame) 8)
                              (Z.shiftl (drmi_length frame) 16)))
             :: EvUpdateBits PKTSCHED_PKT_EN PKTSCHED_DRMI_TX_EN 0
             :: log h.
Proof.
  intros Huse Hsink Hmeta Heotf Hframe Hpack Hlen0 Hlen Hbytes payload.
  assert (Hpl : length payload = Z.to_nat (drmi_length frame + 1)).
  { unfold payload. rewrite length_take_le; [reflexivity|]. rewrite length_drop. lia. }
  unfold hdmi_config_drm_infoframe. run_prims.
  rewrite Huse. cbn [negb].
  destruct (Z.eqb_spec (hdr_sink_eotf h) 0) as [H0|_]; [contradiction|].
  rewrite Hmeta.
  destruct (Z.eqb_spec (Z.land (hdr_sink_eotf h) (BIT eotf)) 0) as [H0|_]; [contradiction|].
  rewrite Hframe, Hpack. cbn [fst snd].
  rewrite <- Hpl.
  match goal with |- context [drmi_write_words buffer _ 0 _ ?v (?h1, e)] =>
    destruct (drmi_write_words_payload buffer (drmi_length frame) payload 0 0%nat 0 v h1 e)
      as (h' & Hrun & Hl)
  end.
  - lia.
  - intros a Ha. unfold payload, byte_at. rewrite nth_lookup.
    rewrite lookup_take_lt by lia. rewrite lookup_drop. do 2 f_equal. lia.
  - unfold payload. apply Forall_take, Forall_drop. exact Hbytes.
  - lia.
  - change (256 ^ Z.of_nat 0) with 1. lia.
  - intros H0. destruct (H0 eq_refl).
  - change (4 * 0 + Z.of_nat 0) with 0 in Hrun. rewrite Hrun.
    eexists. split; [reflexivity|]. split; [lia|].
    rewrite payload_words_start in Hl.
    cbn [fst snd log add_event set_regm]. rewrite Hl.
    cbn [log add_event set_regm]. reflexivity.
Qed.

(** X19: hdmi_config_drm_infoframe does nothing at all on a platform without
    the DRM infoframe. Otherwise it first disables the packet, and enables
    it again, as the last thing it does, exactly when the sink advertises an
    EOTF, output metadata are set, the sink supports their EOTF, and the
    frame is built and packed without error; when one of these fails
    nothing else is written and the enable bits of PKTSCHED_PKT_EN are
    left cleared. *)
Theorem hdmi_config_drm_infoframe_enable (connector : drm_connector) (h : dw_hdmi) (e : E) :
  let sent :=
    hdr_sink_eotf h <> 0 /\
    exists (eotf : Z) (frame : hdmi_drm_infoframe) (buffer : list Z),
      hdr_output_metadata connector = Some eotf /\
      Z.land (hdr_sink_eotf h) (BIT eotf) <> 0 /\
      drm_hdmi_infoframe_set_hdr_metadata connector = Some frame /\
      hdmi_drm_infoframe_pack frame = Some buffer in
  exists (h' : dw_hdmi) (new : list event),
    hdmi_config_drm_infoframe connector (h, e) = Some (tt, (h', e)) /\
    (use_drm_infoframe h = false -> h' = h) /\
    (use_drm_infoframe h = true ->
     log h' = new ++ EvUpdateBits PKTSCHED_PKT_EN PKTSCHED_DRMI_TX_EN 0 :: log h /\
     (sent ->
      exists older : list event,
        new = EvUpdateBits PKTSCHED_PKT_EN PKTSCHED_DRMI_TX_EN PKTSCHED_DRMI_TX_EN :: older) /\
     (~ sent ->
      new = [] /\
      Z.land (default 0 (regm h' !! PKTSCHED_PKT_EN)) PKTSCHED_DRMI_TX_EN = 0)).
Proof.
  intros sent. unfold hdmi_config_drm_infoframe. run_prims.
  destruct (use_drm_infoframe h); cbn [negb].
  { assert (Hstop : ~ sent ->
              exists (h' : dw_hdmi) (new : list event),
                Some (tt, (add_event (EvUpdateBits PKTSCHED_PKT_EN PKTSCHED_DRMI_TX_EN 0)
                             (set_regm (fun r => <[PKTSCHED_PKT_EN :=
                                u32 (regmap_update_bits (default 0 (r !! PKTSCHED_PKT_EN))
                                       PKTSCHED_DRMI_TX_EN 0)]> r) h), e))
                = Some (tt, (h', e)) /\
                (true = false -> h' = h) /\
                (true = true ->
                 log h' = new ++ EvUpdateBits PKTSCHED_PKT_EN PKTSCHED_DRMI_TX_EN 0 :: log h /\
                 (sent ->
                  exists older : list event,
                    new = EvUpdateBits PKTSCHED_PKT_EN PKTSCHED_DRMI_TX_EN PKTSCHED_DRMI_TX_EN
                          :: older) /\
                 (~ sent ->
                  new = [] /\
                  Z.land (default 0 (regm h' !! PKTSCHED_PKT_EN)) PKTSCHED_DRMI_TX_EN = 0))).
    { intros Hno. eexists _, []. split; [reflexivity|]. split; [discriminate|].
      intros _. split; [reflexivity|]. split; [intros Hs; destruct (Hno Hs)|].
      intros _. split; [reflexivity|].
      cbn [regm add_event set_regm]. rewrite lookup_insert_eq. cbn [default from_option id].
      apply update_bits_cleared. }
    destruct (Z.eqb_spec (hdr_sink_eotf h) 0) as [H0|Hsink];
      [apply Hstop; intros [Hs _]; exact (Hs H0)|].
    destruct (hdr_output_metadata connector) as [eotf|] eqn:Hmeta;
      [|apply Hstop; intros (_ & ? & ? & ? & ? & _); discriminate].
    destruct (Z.eqb_spec (Z.land (hdr_sink_eotf h) (BIT eotf)) 0) as [H0|Heotf];
      [apply Hstop; intros (_ & ? & ? & ? & [= <-] & Hne & _); exact (Hne H0)|].
    destruct (drm_hdmi_infoframe_set_hdr_metadata connector) as [frame|] eqn:Hframe;
      [|apply Hstop; intros (_ & ? & ? & ? & _ & _ & ? & _); discriminate].
    destruct (hdmi_drm_infoframe_pack frame) as [buffer|] eqn:Hpack;
      [|apply Hstop; intros (_ & ? & ? & ? & _ & _ & [= <-] & Hp); rewrite Hpack in Hp;
        discriminate].
    clear Hstop. cbn [fst snd].
    match goal with |- context [drmi_write_words ?b ?l ?i ?n ?v (?h1, e)] =>
      destruct (drmi_write_words_run b l i n v h1 e) as (h' & new & -> & Hl & _)
    end.
    cbn [log add_event set_regm] in Hl.
    eexists _, _. split; [reflexivity|]. split; [discriminate|].
    intros _. cbn [fst snd log add_event set_regm]. rewrite Hl.
    split; [log_split|]. split; [intros _; eexists; reflexivity|].
    intros Hno. destruct Hno. split; [exact Hsink|].
    exists eotf, frame, buffer. auto. }
  exists h, []. split; [reflexivity|]. split; [reflexivity | discriminate].
Qed.

End Infoframes.

(** ** Initialisation and the interrupt handler *)

Lemma update_bits_clear_twice (orig mask : Z) :
  u32 (regmap_update_bits (u32 (regmap_update_bits orig mask 0)) mask 0)
  = u32 (regmap_update_bits orig mask 0).
Proof.
  unfold u32, regmap_update_bits. rewrite <- !Z.land_ones by lia.
  apply Z.bits_inj'. intros n Hn.
  rewrite ?Z.land_spec, ?Z.lor_spec, ?Z.land_spec, ?Z.lnot_spec, ?Z.bits_0 by exact Hn.
  rewrite ?Z.land_spec, ?Z.lor_spec, ?Z.land_spec, ?Z.lnot_spec, ?Z.bits_0 by exact Hn.
  destruct (Z.testbit orig n), (Z.testbit mask n), (Z.testbit (Z.ones 32) n); reflexivity.
Qed.

Section Init.
Context {Hd : Headers} {E : Type} {Ev : Env E}.

Lemma dw_hdmi_qp_init_hw_run (h : dw_hdmi) (e : E) :
  NoDup init_hw_registers ->
  exists h' : dw_hdmi,
    dw_hdmi_qp_init_hw (h, e)
    = Some (tt, (h', match phy_ops_setup_hpd with Some f => f e | None => e end)) /\
    regm h' !! MAINUNIT_0_INT_MASK_N = Some 0 /\
    regm h' !! MAINUNIT_1_INT_MASK_N = Some 0 /\
    regm h' !! TIMER_BASE_CONFIG0 = Some 428571429 /\
    regm h' !! I2CM_CONTROL0 = Some 0x01 /\
    regm h' !! I2CM_FM_SCL_CONFIG0 = Some 0x085c085c /\
    regm h' !! I2CM_INTERFACE_CONTROL0
    = Some (u32 (regmap_update_bits (default 0 (regm h !! I2CM_INTERFACE_CONTROL0))
                   I2CM_FM_EN 0)) /\
    regm h' !! MAINUNIT_1_INT_CLEAR
    = Some (u32 (Z.lor I2CM_OP_DONE_CLEAR I2CM_NACK_RCVD_CLEAR)) /\
    (forall r : Z, r ∉ init_hw_registers -> regm h' !! r = regm h !! r) /\
    log h' = (match phy_ops_setup_hpd with Some _ => [EvPhySetupHpd] | None => [] end)
             ++ [EvWrite MAINUNIT_1_INT_CLEAR
                   (u32 (Z.lor I2CM_OP_DONE_CLEAR I2CM_NACK_RCVD_CLEAR));
                 EvUpdateBits I2CM_INTERFACE_CONTROL0 I2CM_FM_EN 0;
                 EvWrite I2CM_FM_SCL_CONFIG0 0x085c085c;
                 EvWrite I2CM_CONTROL0 0x01;
                 EvWrite TIMER_BASE_CONFIG0 428571429;
                 EvWrite MAINUNIT_1_INT_MASK_N 0;
                 EvWrite MAINUNIT_0_INT_MASK_N 0]
             ++ log h /\
    i2c h' = i2c h /\ bridge_is_on h' = bridge_is_on h /\ phy_enabled h' = phy_enabled h.
Proof.
  unfold init_hw_registers. intros Hnd.
  repeat match goal with
         | H : NoDup (_ :: _) |- _ => apply NoDup_cons in H as [? H]
         end.
  repeat match goal with
         | H : _ ∉ _ :: _ |- _ => apply not_elem_of_cons in H as [? H]
         end.
  unfold dw_hdmi_qp_init_hw, dw_hdmi_qp_i2c_init, phy_setup_hpd. run_prims.
  destruct phy_ops_setup_hpd as [f|]; cbn [fst snd];
    (eexists; split; [reflexivity|]);
    cbn [regm log i2c bridge_is_on phy_enabled add_event set_regm app];
    change (u32 0) with 0; change (u32 428571429) with 428571429;
    change (u32 1) with 1; change (u32 140249180) with 140249180;
    repeat split; try reflexivity;
    try (intros r Hr;
         repeat match goal with
                | H : _ ∉ _ :: _ |- _ => apply not_elem_of_cons in H as [? H]
                end);
    repeat first [ rewrite lookup_insert_eq | rewrite lookup_insert_ne by congruence ];
    reflexivity.
Qed.

(** X20: when the seven registers it programs are distinct,
    dw_hdmi_qp_init_hw leaves every main-unit interrupt masked (both mask
    registers hold 0), the timer base at 428571429, the I2C master reset
    with its SCL timing, fast mode disabled (the other bits of the control
    register kept) and the DONE and NACK interrupts cleared; no other
    register changes. It then calls the hot-plug setup of the PHY when the
    PHY has one, and does nothing else. *)
Theorem dw_hdmi_qp_init_hw_registers (h : dw_hdmi) (e : E) :
  NoDup init_hw_registers ->
  exists h' : dw_hdmi,
    dw_hdmi_qp_init_hw (h, e)
    = Some (tt, (h', match phy_ops_setup_hpd with Some f => f e | None => e end)) /\
    regm h' !! MAINUNIT_0_INT_MASK_N = Some 0 /\
    regm h' !! MAINUNIT_1_INT_MASK_N = Some 0 /\
    regm h' !! TIMER_BASE_CONFIG0 = Some 428571429 /\
    regm h' !! I2CM_CONTROL0 = Some 0x01 /\
    regm h' !! I2CM_FM_SCL_CONFIG0 = Some 0x085c085c /\
    regm h' !! I2CM_INTERFACE_CONTROL0
    = Some (u32 (regmap_update_bits (default 0 (regm h !! I2CM_INTERFACE_CONTROL0))
                   I2CM_FM_EN 0)) /\
    Z.land (default 0 (regm h' !! I2CM_INTERFACE_CONTROL0)) I2CM_FM_EN = 0 /\
    regm h' !! MAINUNIT_1_INT_CLEAR
    = Some (u32 (Z.lor I2CM_OP_DONE_CLEAR I2CM_NACK_RCVD_CLEAR)) /\
    (forall r : Z, r ∉ init_hw_registers -> regm h' !! r = regm h !! r) /\
    log h' = (match phy_ops_setup_hpd with Some _ => [EvPhySetupHpd] | None => [] end)
             ++ [EvWrite MAINUNIT_1_INT_CLEAR
                   (u32 (Z.lor I2CM_OP_DONE_CLEAR I2CM_NACK_RCVD_CLEAR));
                 EvUpdateBits I2CM_INTERFACE_CONTROL0 I2CM_FM_EN 0;
                 EvWrite I2CM_FM_SCL_CONFIG0 0x085c085c;
                 EvWrite I2CM_CONTROL0 0x01;
                 EvWrite TIMER_BASE_CONFIG0 428571429;
                 EvWrite MAINUNIT_1_INT_MASK_N 0;
                 EvWrite MAINUNIT_0_INT_MASK_N 0]
             ++ log h.
Proof.
  intros Hnd.
  destruct (dw_hdmi_qp_init_hw_run h e Hnd)
    as (h' & Hrun & H0 & H1 & Ht & Hc & Hs & Hi & Hclr & Hrest & Hl & _).
  exists h'. repeat split; try assumption.
  rewrite Hi. cbn [default from_option id]. apply update_bits_cleared.
Qed.

(** X21: dw_hdmi_qp_resume after dw_hdmi_qp_init_hw changes no register:
    programming the hardware again, as every resume does, leaves the
    register space as the first initialisation left it. *)
Theorem dw_hdmi_qp_resume_registers (h : dw_hdmi) (e : E) :
  NoDup init_hw_registers ->
  exists (h1 h2 : dw_hdmi) (e1 e2 : E),
    dw_hdmi_qp_init_hw (h, e) = Some (tt, (h1, e1)) /\
    dw_hdmi_qp_resume (h1, e1) = Some (tt, (h2, e2)) /\
    regm h2 = regm h1.
Proof.
  intros Hnd.
  destruct (dw_hdmi_qp_init_hw_run h e Hnd)
    as (h1 & Hrun1 & H0 & H1 & Ht & Hc & Hs & Hi & Hclr & Hrest & _).
  destruct (dw_hdmi_qp_init_hw_run h1 (match phy_ops_setup_hpd with
                                        | Some f => f e | None => e end) Hnd)
    as (h2 & Hrun2 & H0' & H1' & Ht' & Hc' & Hs' & Hi' & Hclr' & Hrest' & _).
  eexists h1, h2, _, _. split; [exact Hrun1|]. split; [exact Hrun2|].
  apply map_eq. intros r.
  destruct (decide (r ∈ init_hw_registers)) as [Hin|Hout]; [|apply Hrest'; exact Hout].
  unfold init_hw_registers in Hin.
  repeat (apply elem_of_cons in Hin as [->|Hin]); try congruence.
  - rewrite Hi', Hi. cbn [default from_option id]. rewrite update_bits_clear_twice. reflexivity.
  - apply elem_of_nil in Hin. destruct Hin.
Qed.

(** X22: dw_hdmi_qp_main_hardirq returns IRQ_HANDLED exactly when the status
    register is not 0. It keeps in [i2c->stat], an unsigned char, the DONE,
    READ_REQUEST and NACK bits of the status; when one of them is set it
    acknowledges them, and no other bit, in MAINUNIT_1_INT_CLEAR and posts
    the completion; otherwise it writes no register and leaves the
    completion as it was. It never takes a posted completion back, and it
    leaves the world, the mutex and the register pointer alone. *)
Theorem dw_hdmi_qp_main_hardirq_ack (h : dw_hdmi) (e : E) :
  let st := default 0 (regm h !! MAINUNIT_1_INT_STATUS) in
  let i2c_bits := Z.lor (Z.lor I2CM_OP_DONE_IRQ I2CM_READ_REQUEST_IRQ) I2CM_NACK_RCVD_IRQ in
  let seen := u8 (Z.land st i2c_bits) in
  exists h' : dw_hdmi,
    dw_hdmi_qp_main_hardirq (h, e)
    = Some ((if st =? 0 then IRQ_NONE else IRQ_HANDLED), (h', e)) /\
    stat (i2c h') = seen /\
    cmp (i2c h') = cmp (i2c h) || negb (seen =? 0) /\
    log h' = (if seen =? 0 then [] else [EvWrite MAINUNIT_1_INT_CLEAR seen])
             ++ EvRead MAINUNIT_1_INT_STATUS :: log h /\
    (seen = 0 -> regm h' = regm h) /\
    Z.land seen (Z.lnot i2c_bits) = 0 /\
    lock (i2c h') = lock (i2c h) /\
    slave_reg (i2c h') = slave_reg (i2c h) /\
    is_regaddr (i2c h') = is_regaddr (i2c h) /\
    is_segment (i2c h') = is_segment (i2c h).
Proof.
  intros st i2c_bits seen.
  assert (Hbits : Z.land seen (Z.lnot i2c_bits) = 0).
  { unfold seen, u8. change 256 with (2 ^ 8). rewrite <- Z.land_ones by lia.
    apply Z.bits_inj'. intros n Hn.
    rewrite !Z.land_spec, Z.lnot_spec, Z.bits_0 by exact Hn.
    destruct (Z.testbit st n), (Z.testbit i2c_bits n), (Z.testbit (Z.ones 8) n);
      reflexivity. }
  assert (Hu : u32 seen = seen).
  { apply u32_small. unfold seen, u8.
    pose proof (Z.mod_pos_bound (Z.land st i2c_bits) 256 ltac:(lia)). lia. }
  unfold dw_hdmi_qp_main_hardirq. run_prims.
  change (regm (add_event (EvRead MAINUNIT_1_INT_STATUS) h)) with (regm h).
  fold st. fold i2c_bits. fold seen.
  destruct (st =? 0); destruct (seen =? 0) eqn:Hseen; cbn [negb fst snd];
    (eexists; split; [reflexivity|]);
    cbn [regm log i2c stat cmp lock slave_reg is_regaddr is_segment add_event set_regm
         set_i2c set_stat set_cmp app];
    rewrite ?Hu, ?orb_false_r, ?orb_true_r;
    repeat split; try reflexivity; try exact Hbits;
    intros H0; rewrite H0 in Hseen; discriminate.
Qed.

End Init.

(** * The properties on the sample platform *)

#[local] Existing Instance sample_headers.
#[local] Existing Instance sample_common.

Lemma sample_layout : SinkLayout sample_headers.
Proof.
  split.
  5: { intros r Hr. cbn [I2CM_ADDR sample_headers].
       change 0xff000 with (Z.shiftl (Z.ones 8) 12).
       rewrite <- Z.shiftl_land, Z.land_ones by lia.
       change (2 ^ 8) with 256. rewrite Z.mod_small by exact Hr. reflexivity. }
  all: vm_compute; intuition congruence.
Qed.

(** C1 as stated fails: the messages of the scenario are addressed to 0x37,
    the DDC/CI address, and the transfer is refused with -EOPNOTSUPP; it does
    not return 2 and the read buffer is untouched. *)
Lemma dw_hdmi_qp_i2c_xfer_ddc_ci_scenario :
  dw_hdmi_qp_i2c_xfer (Ev := sink_env 0)
    (sample_msgs 0x37 I2C_M_RD 0x00 zeros8) (sample_hdmi 0 1 148500, 0x10)
  = Some ((- EOPNOTSUPP, sample_msgs 0x37 I2C_M_RD 0x00 zeros8),
          (sample_hdmi 0 1 148500, 0x10))
  /\ - EOPNOTSUPP <> 2.
Proof. split; [reflexivity | discriminate]. Qed.

(** The amended C1 at address 0x50 with a sink whose register 0 holds 0x10. *)
Lemma dw_hdmi_qp_i2c_xfer_register_read_witness :
  exists h' : dw_hdmi,
    dw_hdmi_qp_i2c_xfer (Ev := sink_env 0)
      (sample_msgs 0x50 I2C_M_RD 0x00 zeros8) (sample_hdmi 0 1 148500, 0x10)
    = Some ((2, sample_msgs 0x50 I2C_M_RD 0x00
                  (map (fun k => u8 (0x10 + k)) [0; 1; 2; 3; 4; 5; 6; 7])),
            (h', 0x10)).
Proof.
  apply (proj2 (dw_hdmi_qp_i2c_xfer_register_read (Hd := sample_headers)
                  (HL := sample_layout) 0 (sample_hdmi 0 1 148500) 0x10 0x50 zeros8
                  eq_refl)).
  vm_compute. discriminate.
Defined.

(** C2 as stated fails: for a frame of version 2 and length 13 the word
    written to PKT_AVI_CONTENTS0 is 0x0d0200, the version in bits 8 to 15,
    and not [2 | (13 << 16)]. *)
Lemma hdmi_config_AVI_first_word_sample :
  exists h' : dw_hdmi,
    hdmi_config_AVI (E := unit)
      (sample_connector 1) (sample_mode 148500) (sample_hdmi 16 1 148500, tt)
    = Some (tt, (h', tt)) /\
    avi_version sample_avi_frame = 2 /\
    avi_length sample_avi_frame = 13 /\
    last (log h') = Some (EvWrite 0xba0 0x0d0200) /\
    0x0d0200 <> Z.lor 2 (Z.shiftl 13 16).
Proof.
  eexists. split; [vm_compute; reflexivity|].
  repeat split; try reflexivity. discriminate.
Qed.

(** The amended C2 on the same frame. *)
Lemma hdmi_config_AVI_first_word_witness :
  exists (h' : dw_hdmi) (later : list event),
    hdmi_config_AVI (E := unit)
      (sample_connector 1) (sample_mode 148500) (sample_hdmi 16 1 148500, tt)
    = Some (tt, (h', tt)) /\
    log h' = later ++ [EvWrite 0xba0 (Z.lor (Z.shiftl 2 8) (Z.shiftl 13 16))] /\
    Forall reg_event later.
Proof.
  refine (hdmi_config_AVI_first_word (E := unit) (sample_connector 1) (sample_mode 148500)
            (sample_hdmi 16 1 148500) tt _ _);
    [change (0 <= 2 < 256) | change (0 <= 13 < 256)]; lia.
Defined.

(** C3 as stated fails: the bridge is off, the PHY init returns -22, and
    dw_hdmi_qp_update_power leaves the bridge marked on. *)
Lemma dw_hdmi_qp_update_power_phy_failure_sample :
  exists h' : dw_hdmi,
    dw_hdmi_qp_update_power (Ev := sink_env (-22))
      (sample_hdmi 16 1 148500, 0)
    = Some (tt, (h', 0)) /\
    bridge_is_on (sample_hdmi 16 1 148500) = false /\
    log h' = [EvPhyInit (-22)] /\
    bridge_is_on h' = true.
Proof.
  eexists. split; [vm_compute; reflexivity|]. repeat split; reflexivity.
Qed.

(** The amended C3 on the same device. *)
Lemma dw_hdmi_qp_setup_phy_failure_witness :
  (exists (h' : dw_hdmi) (e' : Z),
     dw_hdmi_qp_setup (Ev := sink_env (-22))
       (sample_connector 1) (sample_mode 148500) (sample_hdmi 16 1 148500, 0)
     = Some (-22, (h', e')) /\
     phy_enabled h' = false /\ bridge_is_on h' = false /\ disabled h' = false /\
     regm h' = ∅ /\ log h' = [EvPhyInit (-22)]) /\
  (exists (h' : dw_hdmi) (e' : Z),
     dw_hdmi_qp_update_power (Ev := sink_env (-22)) (sample_hdmi 16 1 148500, 0)
     = Some (tt, (h', e')) /\
     bridge_is_on h' = true /\ phy_enabled h' = false /\ disabled h' = false /\
     regm h' = ∅ /\ log h' = [EvPhyInit (-22)]).
Proof.
  destruct (dw_hdmi_qp_setup_phy_failure (Ev := sink_env (-22))
              (sample_connector 1) (sample_mode 148500) (sample_hdmi 16 1 148500) 0)
    as [Hsetup Hpower].
  - vm_compute. discriminate.
  - split; [exact Hsetup|].
    apply Hpower; [reflexivity | right; right; split; reflexivity | reflexivity | reflexivity].
Defined.

(** C4 as stated fails: with the DDC/CI address in the second message only,
    the transfer is carried out (a read command is issued) and returns 2. *)
Lemma dw_hdmi_qp_i2c_xfer_ddc_ci_second_message :
  exists h' : dw_hdmi,
    dw_hdmi_qp_i2c_xfer (Ev := sink_env 0)
      [ {| addr := 0x50; flags := 0; buf := [0x00] |};
        {| addr := 0x37; flags := I2C_M_RD; buf := [0] |} ]
      (sample_hdmi 0 1 148500, 0x10)
    = Some ((2, [ {| addr := 0x50; flags := 0; buf := [0x00] |};
                  {| addr := 0x37; flags := I2C_M_RD; buf := [0x10] |} ]),
            (h', 0x10)) /\
    2 <> - EOPNOTSUPP /\
    In (EvUpdateBits I2CM_INTERFACE_CONTROL0 I2CM_WR_MASK I2CM_FM_READ) (log h').
Proof.
  eexists. split; [vm_compute; reflexivity|].
  split; [discriminate|]. vm_compute. tauto.
Qed.

(** The amended C4 on the scenario of C1. *)
Lemma dw_hdmi_qp_i2c_xfer_ddc_ci_witness :
  dw_hdmi_qp_i2c_xfer (Ev := sink_env 0)
    (sample_msgs 0x37 I2C_M_RD 0x00 zeros8) (sample_hdmi 0 1 148500, 0x10)
  = Some ((- EOPNOTSUPP, sample_msgs 0x37 I2C_M_RD 0x00 zeros8),
          (sample_hdmi 0 1 148500, 0x10)).
Proof.
  apply (proj1 (dw_hdmi_qp_i2c_xfer_ddc_ci (Ev := sink_env 0) _ _ _ _)). reflexivity.
Defined.



(** C6 as stated fails: with a size of 3 the checksum byte is outside the
    bytes that are summed; neither the 17 bytes of the buffer nor its first 3
    add up to 0 modulo 256. *)
Lemma hdmi_infoframe_set_checksum_short_size :
  Forall (fun b => 0 <= b < 256) sample_buf /\
  hdmi_infoframe_set_checksum sample_buf 3
  = [0x82; 2; 13; 111; 5; 0; 0; 16; 0; 0; 0; 0; 0; 0; 0; 0; 0] /\
  byte_sum (hdmi_infoframe_set_checksum sample_buf 3) mod 256 <> 0 /\
  byte_sum (take 3 (hdmi_infoframe_set_checksum sample_buf 3)) mod 256 <> 0.
Proof.
  split; [repeat constructor; discriminate|].
  split; [reflexivity|]. split; vm_compute; discriminate.
Qed.

(** The amended C6 on the same buffer with its size, 17. *)
Lemma hdmi_infoframe_set_checksum_sum_witness :
  byte_sum (take (Z.to_nat 17) (hdmi_infoframe_set_checksum sample_buf 17)) mod 256 = 0.
Proof.
  apply hdmi_infoframe_set_checksum_sum; [lia | cbn; lia].
Defined.

(** C7 at VIC 193. *)
Lemma hdmi_config_AVI_extended_vic_witness :
  let frame := fst (hdmi_config_AVI_pack (sample_hdmi 193 1 594000)
                      (sample_connector 1) (sample_mode 594000)) in
  let buf := snd (hdmi_config_AVI_pack (sample_hdmi 193 1 594000)
                    (sample_connector 1) (sample_mode 594000)) in
  length buf = 17%nat /\
  avi_version frame = 3 /\
  byte_at buf 1 = 3 /\
  byte_at buf 7 = u8 193 /\
  (193 <= 255 -> byte_at buf 7 = 193) /\
  byte_at buf 3 = (256 - (byte_sum (take 3 buf) + byte_sum (drop 4 buf))) mod 256.
Proof.
  apply (hdmi_config_AVI_extended_vic (sample_hdmi 193 1 594000)
           (sample_connector 1) (sample_mode 594000)).
  - cbn. lia.
  - intros f. reflexivity.
Defined.

(** The scenario of C8: a controller that never raises an interrupt. The
    first byte read times out, the transfer returns -EAGAIN and
    I2CM_CONTROL0 holds 0x01. *)
Example dw_hdmi_qp_i2c_xfer_silent_controller :
  exists h' : dw_hdmi,
    dw_hdmi_qp_i2c_xfer (Ev := silent_env)
      (sample_msgs 0x50 I2C_M_RD 0x00 zeros8) (sample_hdmi 0 1 148500, tt)
    = Some ((- EAGAIN, sample_msgs 0x50 I2C_M_RD 0x00 zeros8), (h', tt)) /\
    In (EvWait false) (log h') /\
    regm h' !! I2CM_CONTROL0 = Some 0x01.
Proof.
  eexists. split; [vm_compute; reflexivity|].
  split; [vm_compute; tauto | reflexivity].
Qed.

(** C9 on the scenario of C1 at address 0x50. *)
Lemma dw_hdmi_qp_i2c_xfer_masks_and_unlocks_witness :
  exists (r : Z) (msgs' : list i2c_msg) (h' : dw_hdmi) (e' : Z) (mid : list event),
    dw_hdmi_qp_i2c_xfer (Ev := sink_env 0)
      (sample_msgs 0x50 I2C_M_RD 0x00 zeros8) (sample_hdmi 0 1 148500, 0x10)
    = Some ((r, msgs'), (h', e')) /\
    (r = 2 \/ r = - EIO \/ r = - EAGAIN) /\
    Z.land (default 0 (regm h' !! MAINUNIT_1_INT_MASK_N))
      (Z.lor I2CM_OP_DONE_MASK_N I2CM_NACK_RCVD_MASK_N) = 0 /\
    lock (i2c h') = false /\
    log h' = EvMutexUnlock
             :: EvUpdateBits MAINUNIT_1_INT_MASK_N
                  (Z.lor I2CM_OP_DONE_MASK_N I2CM_NACK_RCVD_MASK_N) 0
             :: mid
             ++ [EvUpdateBits MAINUNIT_1_INT_MASK_N
                   (Z.lor I2CM_NACK_RCVD_MASK_N I2CM_OP_DONE_MASK_N)
                   (Z.lor I2CM_NACK_RCVD_MASK_N I2CM_OP_DONE_MASK_N);
                 EvMutexLock] /\
    Forall not_mutex mid.
Proof.
  apply (dw_hdmi_qp_i2c_xfer_masks_and_unlocks (Ev := sink_env 0)
           (sample_hdmi 0 1 148500) 0x10).
  - vm_compute. discriminate.
  - repeat constructor; vm_compute; discriminate.
Defined.

(** ** The further properties on the sample platform *)

(** A sink that answers with a NACK: the first data byte written is refused,
    the transfer returns -EIO and the command register holds 0x01. *)
Example dw_hdmi_qp_i2c_xfer_nacking_sink :
  exists h' : dw_hdmi,
    dw_hdmi_qp_i2c_xfer (Ev := nack_env)
      [ {| addr := 0x50; flags := 0; buf := [0x00; 0xaa] |} ] (sample_hdmi 0 1 148500, tt)
    = Some ((- EIO, [ {| addr := 0x50; flags := 0; buf := [0x00; 0xaa] |} ]), (h', tt)) /\
    Z.land (stat (i2c h')) I2CM_NACK_RCVD_IRQ <> 0 /\
    regm h' !! I2CM_CONTROL0 = Some 0x01.
Proof.
  eexists. split; [vm_compute; reflexivity|].
  split; [vm_compute; discriminate | reflexivity].
Qed.

(** X3 on the register read of C1 at address 0x50. *)
Lemma dw_hdmi_qp_i2c_xfer_reset_on_failure_witness :
  exists (r : Z) (msgs' : list i2c_msg) (h' : dw_hdmi) (e' : Z) (new : list event),
    dw_hdmi_qp_i2c_xfer (Ev := sink_env 0)
      (sample_msgs 0x50 I2C_M_RD 0x00 zeros8) (sample_hdmi 0 1 148500, 0x10)
    = Some ((r, msgs'), (h', e')) /\
    log h' = new ++ [] /\
    ((exists v : Z, In (EvWrite I2CM_CONTROL0 v) new) <-> r = - EIO \/ r = - EAGAIN).
Proof.
  apply (dw_hdmi_qp_i2c_xfer_reset_on_failure (Ev := sink_env 0));
    vm_compute; discriminate.
Defined.

(** X5 on a write of two data bytes to register 0x10. *)
Lemma dw_hdmi_qp_i2c_write_bytes_witness :
  exists (r : Z) (h' : dw_hdmi) (e' : Z) (new : list event),
    dw_hdmi_qp_i2c_write (Ev := sink_env 0) [0x10; 0xaa; 0xbb] (sample_hdmi 0 1 148500, 0)
    = Some (r, (h', e')) /\
    log h' = new ++ [] /\
    (r = 0 \/ r = - EIO \/ r = - EAGAIN) /\
    (waits new <= 2)%nat /\
    (r = 0 -> waits new = 2%nat) /\
    written I2CM_INTERFACE_WRDATA_0_3 new = map u32 (take (waits new) [0xaa; 0xbb]) /\
    u8 (slave_reg (i2c h')) = u8 (0x10 + Z.of_nat (waits new)) /\
    is_regaddr (i2c h') = true.
Proof.
  apply (dw_hdmi_qp_i2c_write_bytes (Ev := sink_env 0) [0x10; 0xaa; 0xbb]
           (sample_hdmi 0 1 148500) 0);
    [discriminate | vm_compute; discriminate | vm_compute; discriminate].
Defined.

(** X9 on the sample device behind a DVI sink. *)
Lemma dw_hdmi_qp_setup_dvi_witness :
  exists h' : dw_hdmi,
    dw_hdmi_qp_setup (Ev := sink_env 0)
      (sample_connector 1) (sample_mode 148500) (sample_dvi 0 1 148500, 0)
    = Some (0, (h', 0)) /\
    log h' = [EvUpdateBits LINK_CONFIG0 OPMODE_DVI OPMODE_DVI;
              EvUpdateBits HDCP2LOGIC_CONFIG0 HDCP2_BYPASS HDCP2_BYPASS;
              EvPhyInit 0] /\
    Z.land (default 0 (regm h' !! LINK_CONFIG0)) OPMODE_DVI = OPMODE_DVI /\
    phy_enabled h' = true.
Proof.
  apply (dw_hdmi_qp_setup_dvi (Ev := sink_env 0)
           (sample_connector 1) (sample_mode 148500) (sample_dvi 0 1 148500) 0);
    [reflexivity | reflexivity | vm_compute; split; [discriminate | reflexivity]].
Defined.

(** X15 on the sample device, which is enabled, off and bound to a
    connector. *)
Lemma lifecycle_inv_kept_witness :
  (exists (h' : dw_hdmi) (w' : Z * dw_hdmi_sync),
     dw_hdmi_qp_bridge_atomic_disable (Ev := sink_env 0)
       (sample_hdmi 16 1 148500, (0, sample_sync)) = Some (tt, (h', w')) /\
     lifecycle_inv h' /\ phy_enabled h' = false) /\
  (forall connector : drm_connector,
   exists (h' : dw_hdmi) (w' : Z * dw_hdmi_sync),
     dw_hdmi_qp_bridge_atomic_enable (Ev := sink_env 0) (Some connector)
       (sample_hdmi 16 1 148500, (0, sample_sync)) = Some (tt, (h', w')) /\
     lifecycle_inv h') /\
  (forall f : drm_connector_force,
   exists (h' : dw_hdmi) (w' : Z * dw_hdmi_sync),
     dw_hdmi_qp_connector_force (Ev := sink_env 0) f
       (sample_hdmi 16 1 148500, (0, sample_sync)) = Some (tt, (h', w')) /\
     lifecycle_inv h').
Proof.
  apply (lifecycle_inv_kept (Ev := sink_env 0) (sample_hdmi 16 1 148500) 0 sample_sync).
  split; [discriminate | intros _; discriminate].
Defined.

(** The three callbacks in a row on the sample device: the bridge is
    enabled, which powers it on; forced off; and disabled. The PHY is
    initialised once and disabled once. *)
Example dw_hdmi_qp_bridge_lifecycle_sample :
  exists h' : dw_hdmi,
    (dw_hdmi_qp_bridge_atomic_enable (Ev := sink_env 0) (Some (sample_connector 1)) ;;
     dw_hdmi_qp_connector_force (Ev := sink_env 0) DRM_FORCE_OFF ;;
     dw_hdmi_qp_bridge_atomic_disable (Ev := sink_env 0))
      (sample_dvi 0 1 148500, (0, sample_sync))
    = Some (tt, (h', (0, {| mutex := false; plugged := [false; true] |}))) /\
    bridge_is_on h' = false /\ phy_enabled h' = false /\ disabled h' = true /\
    List.filter (fun ev => match ev with
                           | EvPhyInit _ | EvPhyDisable | EvPhySetupHpd => true
                           | _ => false
                           end) (log h')
    = [EvPhyDisable; EvPhyInit 0].
Proof.
  eexists. split; [vm_compute; reflexivity|]. repeat split; reflexivity.
Qed.

(** X16 on the sample frame with VIC 16. *)
Lemma hdmi_config_AVI_words_witness :
  let frame := fst (hdmi_config_AVI_pack (sample_hdmi 16 1 148500)
                      (sample_connector 1) (sample_mode 148500)) in
  let buf := snd (hdmi_config_AVI_pack (sample_hdmi 16 1 148500)
                    (sample_connector 1) (sample_mode 148500)) in
  exists h' : dw_hdmi,
    hdmi_config_AVI (E := unit)
      (sample_connector 1) (sample_mode 148500) (sample_hdmi 16 1 148500, tt)
    = Some (tt, (h', tt)) /\
    length (drop 3 buf) = 14%nat /\
    log h' = EvUpdateBits PKTSCHED_PKT_EN (Z.lor PKTSCHED_AVI_TX_EN PKTSCHED_GCP_TX_EN)
               (Z.lor PKTSCHED_AVI_TX_EN PKTSCHED_GCP_TX_EN)
             :: EvUpdateBits PKTSCHED_PKT_CONFIG1 PKTSCHED_AVI_FIELDRATE 0
             :: rev (payload_words 14 PKT_AVI_CONTENTS1 0 (drop 3 buf))
             ++ [EvWrite PKT_AVI_CONTENTS0
                   (u32 (Z.lor (Z.shiftl (avi_version frame) 8)
                               (Z.shiftl (avi_length frame) 16)))].
Proof.
  cbv zeta.
  refine (hdmi_config_AVI_words (E := unit)
            (sample_connector 1) (sample_mode 148500) (sample_hdmi 16 1 148500) tt _ _).
  - reflexivity.
  - vm_compute. repeat constructor; discriminate.
Defined.

(** X17 at VIC 193. *)
Lemma hdmi_config_AVI_extended_vic_patch_witness :
  let frame0 := set_avi_scan_video HDMI_SCAN_MODE_NONE 193 sample_avi_frame in
  let packed := hdmi_avi_infoframe_pack_only frame0 in
  let buf := snd (hdmi_config_AVI_pack (sample_hdmi 193 1 594000)
                    (sample_connector 1) (sample_mode 594000)) in
  Z.land (byte_at buf 4) 0x1f = Z.land (byte_at packed 4) 0x1f /\
  Z.shiftr (byte_at buf 4) 5 = Z.land (avi_colorspace frame0) 0x7 /\
  (forall k : nat, k <> 1%nat -> k <> 3%nat -> k <> 4%nat -> k <> 7%nat ->
   buf !! k = packed !! k).
Proof.
  cbv zeta.
  refine (hdmi_config_AVI_extended_vic_patch (sample_hdmi 193 1 594000)
            (sample_connector 1) (sample_mode 594000) _ _).
  - vm_compute. discriminate.
  - reflexivity.
Defined.

(** X18 on the sample DRM infoframe. *)
Lemma hdmi_config_drm_infoframe_words_witness :
  let payload := take (Z.to_nat (26 + 1)) (drop 3 sample_drm_buffer) in
  exists h' : dw_hdmi,
    hdmi_config_drm_infoframe (E := unit) (Cm := sample_common_hdr)
      (sample_hdr_connector 1) (sample_hdr 16 1 594000, tt)
    = Some (tt, (h', tt)) /\
    Z.of_nat (length payload) = 26 + 1 /\
    log h' = EvUpdateBits PKTSCHED_PKT_EN PKTSCHED_DRMI_TX_EN PKTSCHED_DRMI_TX_EN
             :: EvUpdateBits PKTSCHED_PKT_CONFIG1 PKTSCHED_DRMI_FIELDRATE 0
             :: rev (payload_words (length payload) PKT_DRMI_CONTENTS1 0 payload)
             ++ [EvWrite PKT_DRMI_CONTENTS0 (u32 (Z.lor (Z.shiftl 1 8) (Z.shiftl 26 16)));
                 EvUpdateBits PKTSCHED_PKT_EN PKTSCHED_DRMI_TX_EN 0].
Proof.
  cbv zeta.
  refine (hdmi_config_drm_infoframe_words (E := unit) (Cm := sample_common_hdr)
            (sample_hdr_connector 1) (sample_hdr 16 1 594000) tt 2
            sample_drm_frame sample_drm_buffer _ _ _ _ _ _ _ _ _).
  - reflexivity.
  - vm_compute. discriminate.
  - reflexivity.
  - vm_compute. discriminate.
  - reflexivity.
  - reflexivity.
  - vm_compute. discriminate.
  - vm_compute. discriminate.
  - vm_compute. repeat constructor; discriminate.
Defined.

(** The words of the sample DRM infoframe: seven registers, the last one with
    the three bytes that remain. *)
Example hdmi_config_drm_infoframe_sample :
  payload_words 27 PKT_DRMI_CONTENTS1 0 (take 27 (drop 3 sample_drm_buffer))
  = [EvWrite 0xc28 0x1000023f; EvWrite 0xc2c 0x304e2027; EvWrite 0xc30 0x509c4075;
     EvWrite 0xc34 0x70ea60c3; EvWrite 0xc38 0xe8388011; EvWrite 0xc3c 0xe8000503;
     EvWrite 0xc40 0x019003].
Proof. vm_compute. reflexivity. Qed.

Lemma sample_init_hw_registers : NoDup (init_hw_registers (Hd := sample_headers)).
Proof. refine (bool_decide_unpack (NoDup _) _). vm_compute. exact I. Qed.

(** X20 on the sample device. *)
Lemma dw_hdmi_qp_init_hw_registers_witness :
  exists h' : dw_hdmi,
    dw_hdmi_qp_init_hw (Ev := sink_env 0) (sample_hdmi 0 1 148500, 0) = Some (tt, (h', 0)) /\
    regm h' !! MAINUNIT_0_INT_MASK_N = Some 0 /\
    regm h' !! MAINUNIT_1_INT_MASK_N = Some 0 /\
    regm h' !! TIMER_BASE_CONFIG0 = Some 428571429 /\
    regm h' !! I2CM_CONTROL0 = Some 0x01 /\
    regm h' !! I2CM_FM_SCL_CONFIG0 = Some 0x085c085c /\
    regm h' !! I2CM_INTERFACE_CONTROL0
    = Some (u32 (regmap_update_bits 0 I2CM_FM_EN 0)) /\
    Z.land (default 0 (regm h' !! I2CM_INTERFACE_CONTROL0)) I2CM_FM_EN = 0 /\
    regm h' !! MAINUNIT_1_INT_CLEAR
    = Some (u32 (Z.lor I2CM_OP_DONE_CLEAR I2CM_NACK_RCVD_CLEAR)) /\
    (forall r : Z, r ∉ init_hw_registers -> regm h' !! r = (∅ : gmap Z Z) !! r) /\
    log h' = [EvWrite MAINUNIT_1_INT_CLEAR
                (u32 (Z.lor I2CM_OP_DONE_CLEAR I2CM_NACK_RCVD_CLEAR));
              EvUpdateBits I2CM_INTERFACE_CONTROL0 I2CM_FM_EN 0;
              EvWrite I2CM_FM_SCL_CONFIG0 0x085c085c;
              EvWrite I2CM_CONTROL0 0x01;
              EvWrite TIMER_BASE_CONFIG0 428571429;
              EvWrite MAINUNIT_1_INT_MASK_N 0;
              EvWrite MAINUNIT_0_INT_MASK_N 0].
Proof.
  exact (dw_hdmi_qp_init_hw_registers (Ev := sink_env 0) (sample_hdmi 0 1 148500) 0
           sample_init_hw_registers).
Defined.

(** X21 on the sample device. *)
Lemma dw_hdmi_qp_resume_registers_witness :
  exists (h1 h2 : dw_hdmi) (e1 e2 : Z),
    dw_hdmi_qp_init_hw (Ev := sink_env 0) (sample_hdmi 0 1 148500, 0) = Some (tt, (h1, e1)) /\
    dw_hdmi_qp_resume (Ev := sink_env 0) (h1, e1) = Some (tt, (h2, e2)) /\
    regm h2 = regm h1.
Proof.
  exact (dw_hdmi_qp_resume_registers (Ev := sink_env 0) (sample_hdmi 0 1 148500) 0
           sample_init_hw_registers).
Defined.
